(** * DNS-01 challenge orchestration of lemur's ACME plugin

    A shallow embedding of [lemur/plugins/lemur_acme/ultradns.py] and of the
    DNS part of [lemur/plugins/lemur_acme/acme_handlers.py], with the
    properties the specification states about them.

    Python strings are [string]s (domain names, tokens and zone names are
    ASCII), Python lists are [list]s, the dictionaries are [gmap]s.  Code that
    talks to the outside (the UltraDNS REST service, DNS resolvers, metrics,
    the error tracker, the clock) is written in a state-and-exception monad
    over an explicit [world]. *)

From Stdlib Require Import String Ascii List Arith Bool Lia.
From stdpp Require Import gmap strings list.
Import ListNotations.
Open Scope string_scope.
Open Scope list_scope.

(** ** Python string operations used by the source *)
Module Py.

(** [s.endswith(suffix)] *)
Fixpoint endswith (s suffix : string) : bool :=
  if String.eqb s suffix then true
  else match s with
       | EmptyString => false
       | String _ s' => endswith s' suffix
       end.

(** [s.startswith(pre)] *)
Definition startswith (s pre : string) : bool := String.prefix pre s.

(** [s.count(c)] for a one-character [c] *)
Fixpoint count (c : ascii) (s : string) : nat :=
  match s with
  | EmptyString => 0
  | String a s' => (if Ascii.eqb a c then 1 else 0) + count c s'
  end.

(** [s.split(sep)] for a one-character [sep]: never empty, the empty string
    gives one empty piece *)
Fixpoint split (sep : ascii) (s : string) : list string :=
  match s with
  | EmptyString => [EmptyString]
  | String a s' =>
      if Ascii.eqb a sep then EmptyString :: split sep s'
      else match split sep s' with
           | piece :: pieces => String a piece :: pieces
           | [] => [String a EmptyString]
           end
  end.

(** [sep.join(l)] *)
Fixpoint join (sep : string) (l : list string) : string :=
  match l with
  | [] => EmptyString
  | [x] => x
  | x :: rest => x +:+ sep +:+ join sep rest
  end.

(** [l[:-k]] for [k >= 1]: everything but the last [k] items, nothing when
    the list has at most [k] *)
Definition drop_last {A} (k : nat) (l : list A) : list A :=
  firstn (length l - k) l.

(** [s[k:]] *)
Fixpoint slice_from (k : nat) (s : string) : string :=
  match k, s with
  | 0, _ => s
  | S k', String _ s' => slice_from k' s'
  | S _, EmptyString => EmptyString
  end.

(** [c.lower()] on an ASCII character *)
Definition lower_char (a : ascii) : ascii :=
  let n := nat_of_ascii a in
  if Nat.leb 65 n && Nat.leb n 90 then ascii_of_nat (n + 32) else a.

(** [s.lower()] *)
Fixpoint lower (s : string) : string :=
  match s with
  | EmptyString => EmptyString
  | String a s' => String (lower_char a) (lower s')
  end.

(** [l.remove(x)]: the list without the first [x], [None] for [ValueError] *)
Fixpoint remove (x : string) (l : list string) : option (list string) :=
  match l with
  | [] => None
  | y :: l' =>
      if String.eqb y x then Some l'
      else match remove x l' with
           | Some r => Some (y :: r)
           | None => None
           end
  end.

(** [range(0, stop, step)] *)
Definition range_step (stop step : nat) : list nat :=
  map (fun i => i * step) (seq 0 ((stop + step - 1) / step)).

(** Whether the code of a byte lies in [lo..hi]. *)
Definition in_range (lo hi : nat) (a : ascii) : bool :=
  Nat.leb lo (nat_of_ascii a) && Nat.leb (nat_of_ascii a) hi.

(** Whether a sequence of bytes is well-formed UTF-8, as the [utf-8] codec
    of Python 3 accepts it: shortest forms only, no surrogates, nothing above
    U+10FFFF.  A byte sequence is a Rocq string, whose characters are bytes. *)
Fixpoint is_utf8 (b : string) : bool :=
  match b with
  | EmptyString => true
  | String b1 rest1 =>
      if in_range 0 127 b1 then is_utf8 rest1
      else
        match rest1 with
        | EmptyString => false
        | String b2 rest2 =>
            if in_range 194 223 b1 then in_range 128 191 b2 && is_utf8 rest2
            else
              match rest2 with
              | EmptyString => false
              | String b3 rest3 =>
                  if in_range 224 239 b1 then
                    (in_range 224 224 b1 && in_range 160 191 b2
                     || in_range 225 236 b1 && in_range 128 191 b2
                     || in_range 237 237 b1 && in_range 128 159 b2
                     || in_range 238 239 b1 && in_range 128 191 b2)
                    && in_range 128 191 b3 && is_utf8 rest3
                  else
                    match rest3 with
                    | EmptyString => false
                    | String b4 rest4 =>
                        (in_range 240 240 b1 && in_range 144 191 b2
                         || in_range 241 243 b1 && in_range 128 191 b2
                         || in_range 244 244 b1 && in_range 128 143 b2)
                        && in_range 128 191 b3 && in_range 128 191 b4 && is_utf8 rest4
                    end
              end
        end
  end.

(** [b.decode("utf-8")], [None] for [UnicodeDecodeError].  A Python [str] is
    kept as its UTF-8 encoding, so the text of well-formed bytes is these
    bytes, and two texts are equal when their encodings are. *)
Definition decode_utf8 (b : string) : option string :=
  if is_utf8 b then Some b else None.

(** [s.rstrip(c)] for a single character [c] *)
Fixpoint rstrip (c : ascii) (s : string) : string :=
  match s with
  | EmptyString => EmptyString
  | String a s' =>
      match rstrip c s' with
      | EmptyString => if Ascii.eqb a c then EmptyString else String a EmptyString
      | r => String a r
      end
  end.

End Py.

(** ** Exceptions, and the state-and-exception monad *)

Inductive exn : Type :=
  | Exception (msg : string)
  | HTTPError (status : nat)
  | ConnectionError
  | KeyError (key : string)
  | ValueError (msg : string)
  | TypeError (msg : string)
  | IndexError
  | NameError (name : string)
  | JSONDecodeError
  | UnknownProvider (msg : string)
  | UnicodeDecodeError.

Inductive result (A : Type) : Type :=
  | Ok (a : A)
  | Raise (e : exn).
Arguments Ok {A} a.
Arguments Raise {A} e.

(** A computation over a state [S] returns or raises, and leaves a state
    behind either way: what a Python call did before it raised stays done. *)
Definition M (S A : Type) : Type := S -> result A * S.

Definition ret {S A} (a : A) : M S A := fun s => (Ok a, s).

Definition raise {S A} (e : exn) : M S A := fun s => (Raise e, s).

Definition bind {S A B} (m : M S A) (k : A -> M S B) : M S B :=
  fun s => match m s with
           | (Ok a, s') => k a s'
           | (Raise e, s') => (Raise e, s')
           end.

(** [try: m except Exception as e: handler(e)] *)
Definition try_except {S A} (m : M S A) (handler : exn -> M S A) : M S A :=
  fun s => match m s with
           | (Ok a, s') => (Ok a, s')
           | (Raise e, s') => handler e s'
           end.

Definition gets {S A} (f : S -> A) : M S A := fun s => (Ok (f s), s).

Definition modify {S} (f : S -> S) : M S unit := fun s => (Ok tt, f s).

(** [for x in l: body(x)] *)
Fixpoint for_each {S A} (l : list A) (body : A -> M S unit) : M S unit :=
  match l with
  | [] => ret tt
  | x :: l' => bind (body x) (fun _ => for_each l' body)
  end.

Declare Scope py_scope.
Delimit Scope py_scope with py.
Notation "x <- m ;; k" := (bind m (fun x => k))
  (at level 100, m at next level, right associativity) : py_scope.
Notation "m ;; k" := (bind m (fun _ => k))
  (at level 100, right associativity) : py_scope.
Open Scope py_scope.

(** [[f(x) for x in l]] with effects, left to right *)
Fixpoint map_m {S A B} (f : A -> M S B) (l : list A) : M S (list B) :=
  match l with
  | [] => ret []
  | x :: l' => y <- f x;; ys <- map_m f l';; ret (y :: ys)
  end.

(** ** What the UltraDNS plugin touches *)

Module Zone.
(** Modelled from the spec: the class [Zone] of [ultradns_zone], which is not
    among the sources: a zone as the listing returns it, read through the three
    properties [get_zones] uses ([name], "fully-qualified", [authoritative_type]
    and [status]). *)
Record t : Type := { name : string; authoritative_type : string; status : string }.
End Zone.

Inductive http_method : Type := GET | DELETE | POST.

(** The two kinds of URL the plugin builds: ["/v2/zones"] and
    ["/v2/zones/{zone}/rrsets/{type}/{node}"]. *)
Inductive path : Type :=
  | zones_path
  | rrsets_path (zone_name rrtype node_name : string).

(** The JSON bodies the service answers with, as far as the plugin reads them:
    [{"resultInfo": {"totalCount": n}, "zones": [...]}] and
    [{"rrSets": [{"rdata": [...]}]}]. *)
Inductive json : Type :=
  | ZonesPage (totalCount : nat) (zones : list Zone.t)
  | RRSets (rdata : list string).

Module UltraRecord.
(** Modelled from the spec: the class [Record] of [ultradns_record], which is
    not among the sources: a wrapper of the body of a record-set request whose
    [rdata] is the list of values of the "TXT Record Set". *)
Record t : Type := { data : json }.

Definition rdata (r : t) : result (list string) :=
  match data r with
  | RRSets values => Ok values
  | ZonesPage _ _ => Raise (KeyError "rrSets")
  end.
End UltraRecord.

(** What a resolver query comes back with: [dns.exception.DNSException], or an
    answer, each of whose records holds its strings as the resolver delivers
    them: sequences of bytes, not yet decoded. *)
Inductive dns_response : Type :=
  | DNSException
  | Answer (rdatas : list (list string)).

(** The world outside the process.  The REST service keeps the zones of the
    account and the TXT record sets, keyed by (zone, node name); [http_fault]
    says which requests fail before the service acts on them (transport
    errors, error statuses); [resolver ns name i] is what nameserver [ns]
    answers to the [i]-th query it receives (counted from 0). *)
Record world : Type := {
  token_service : result string;
  remote_zones : list Zone.t;
  rrsets : gmap (string * string) (list string);
  http_fault : http_method -> path -> option exn;
  http_log : list (http_method * path);
  resolver : string -> string -> nat -> dns_response;
  dns_queries : list (string * string);
  slept : nat;
  metrics : list string;
  sentry : nat;
  log : list string
}.

Definition set_rrsets (f : gmap (string * string) (list string) -> gmap (string * string) (list string))
    (w : world) : world :=
  {| token_service := token_service w; remote_zones := remote_zones w;
     rrsets := f (rrsets w); http_fault := http_fault w; http_log := http_log w;
     resolver := resolver w; dns_queries := dns_queries w; slept := slept w;
     metrics := metrics w; sentry := sentry w; log := log w |}.

Definition set_http_log (f : list (http_method * path) -> list (http_method * path))
    (w : world) : world :=
  {| token_service := token_service w; remote_zones := remote_zones w;
     rrsets := rrsets w; http_fault := http_fault w; http_log := f (http_log w);
     resolver := resolver w; dns_queries := dns_queries w; slept := slept w;
     metrics := metrics w; sentry := sentry w; log := log w |}.

Definition set_dns_queries (f : list (string * string) -> list (string * string))
    (w : world) : world :=
  {| token_service := token_service w; remote_zones := remote_zones w;
     rrsets := rrsets w; http_fault := http_fault w; http_log := http_log w;
     resolver := resolver w; dns_queries := f (dns_queries w); slept := slept w;
     metrics := metrics w; sentry := sentry w; log := log w |}.

Definition set_slept (f : nat -> nat) (w : world) : world :=
  {| token_service := token_service w; remote_zones := remote_zones w;
     rrsets := rrsets w; http_fault := http_fault w; http_log := http_log w;
     resolver := resolver w; dns_queries := dns_queries w; slept := f (slept w);
     metrics := metrics w; sentry := sentry w; log := log w |}.

Definition set_metrics (f : list string -> list string) (w : world) : world :=
  {| token_service := token_service w; remote_zones := remote_zones w;
     rrsets := rrsets w; http_fault := http_fault w; http_log := http_log w;
     resolver := resolver w; dns_queries := dns_queries w; slept := slept w;
     metrics := f (metrics w); sentry := sentry w; log := log w |}.

Definition set_sentry (f : nat -> nat) (w : world) : world :=
  {| token_service := token_service w; remote_zones := remote_zones w;
     rrsets := rrsets w; http_fault := http_fault w; http_log := http_log w;
     resolver := resolver w; dns_queries := dns_queries w; slept := slept w;
     metrics := metrics w; sentry := f (sentry w); log := log w |}.

Definition set_log (f : list string -> list string) (w : world) : world :=
  {| token_service := token_service w; remote_zones := remote_zones w;
     rrsets := rrsets w; http_fault := http_fault w; http_log := http_log w;
     resolver := resolver w; dns_queries := dns_queries w; slept := slept w;
     metrics := metrics w; sentry := sentry w; log := f (log w) |}.

(** [metrics.send(name, "counter", 1, ...)] *)
Definition metrics_send (name : string) : M world unit :=
  modify (set_metrics (fun l => l ++ [name])).

(** [sentry.captureException(...)] *)
Definition sentry_captureException : M world unit :=
  modify (set_sentry S).

(** [current_app.logger.debug(msg)] (also [.error]): the message without its
    formatted arguments *)
Definition logger_debug (msg : string) : M world unit :=
  modify (set_log (fun l => l ++ [msg])).

(** [time.sleep(seconds)] *)
Definition time_sleep (seconds : nat) : M world unit :=
  modify (set_slept (fun t => t + seconds)).

(** ** [ultradns.py] *)
Module Ultradns.

(** The token request of [get_ultradns_token]: the access token, or whatever
    the request or the lookup of ["access_token"] raised. *)
Definition get_ultradns_token : M world string :=
  fun w => (token_service w, w).

Definition _generate_header : M world string :=
  access_token <- get_ultradns_token;;
  ret ("Bearer " +:+ access_token).

(** [requests.<method>(base_uri + path, headers=...)] followed by
    [resp.raise_for_status()]: the request is sent, and raises when the world
    has a fault for it. *)
Definition send (method : http_method) (p : path) : M world unit :=
  fun w =>
    let w' := set_http_log (fun l => l ++ [(method, p)]) w in
    match http_fault w method p with
    | Some e => (Raise e, w')
    | None => (Ok tt, w')
    end.

(** Both spellings the plugin uses for the record type in a URL, ["TXT"] when
    it creates and ["16"] when it reads and deletes, name the TXT record set. *)
Definition is_txt (rrtype : string) : bool :=
  String.eqb rrtype "TXT" || String.eqb rrtype "16".

(** The service's answer to a GET: a page of the zone listing, or the record
    set at (zone, node), 404 when there is none. *)
Definition serve_get (p : path) (params : option (nat * nat)) : M world json :=
  fun w =>
    match p with
    | zones_path =>
        let '(offset, limit) :=
          match params with
          | Some ol => ol
          | None => (0, length (remote_zones w))
          end in
        (Ok (ZonesPage (length (remote_zones w))
               (firstn limit (skipn offset (remote_zones w)))), w)
    | rrsets_path zone_name rrtype node_name =>
        if is_txt rrtype then
          match rrsets w !! (zone_name, node_name) with
          | Some values => (Ok (RRSets values), w)
          | None => (Raise (HTTPError 404), w)
          end
        else (Raise (HTTPError 404), w)
    end.

(** The service's side of a DELETE: the whole record set goes. *)
Definition serve_delete (p : path) : M world unit :=
  fun w =>
    match p with
    | zones_path => (Raise (HTTPError 405), w)
    | rrsets_path zone_name rrtype node_name =>
        if is_txt rrtype then
          match rrsets w !! (zone_name, node_name) with
          | Some _ => (Ok tt, set_rrsets (delete (zone_name, node_name)) w)
          | None => (Raise (HTTPError 404), w)
          end
        else (Raise (HTTPError 404), w)
    end.

(** The service's side of a POST of [{"ttl": ttl, "rdata": values}]: a new
    record set is created with these values; values posted to a set that is
    already there are added to it (the challenges of several certificates for
    one host share a set), unless one of them is in it already, which is the
    duplicate the service refuses. *)
Definition serve_post (p : path) (params : nat * list string) : M world unit :=
  fun w =>
    match p with
    | zones_path => (Raise (HTTPError 405), w)
    | rrsets_path zone_name rrtype node_name =>
        if is_txt rrtype then
          match rrsets w !! (zone_name, node_name) with
          | None => (Ok tt, set_rrsets (insert (zone_name, node_name) (snd params)) w)
          | Some values =>
              if existsb (fun v => existsb (String.eqb v) values) (snd params)
              then (Raise (HTTPError 400), w)
              else (Ok tt, set_rrsets (insert (zone_name, node_name) (values ++ snd params)) w)
          end
        else (Raise (HTTPError 404), w)
    end.

Definition _get (p : path) (params : option (nat * nat)) : M world json :=
  _ <- _generate_header;;
  send GET p;;
  serve_get p params.

Definition _delete (p : path) : M world unit :=
  _ <- _generate_header;;
  send DELETE p;;
  serve_delete p.

Definition _post (p : path) (params : nat * list string) : M world unit :=
  _ <- _generate_header;;
  send POST p;;
  serve_post p params.

(** The pages [_paginate(path, "zones")] yields.  The generator asks for the
    total with a first request, then for one page of [limit] per index of
    [range(0, totalCount, limit)]. *)
Definition _paginate (p : path) : M world (list (list Zone.t)) :=
  let limit := 100 in
  resp <- _get p (Some (0, 1));;
  match resp with
  | RRSets _ => raise (KeyError "resultInfo")
  | ZonesPage totalCount _ =>
      map_m (fun index =>
               resp <- _get p (Some (index, limit));;
               match resp with
               | ZonesPage _ zones => ret zones
               | RRSets _ => raise (KeyError "zones")
               end)
            (Py.range_step totalCount limit)
  end.

(** The query of [_has_dns_propagated] at nameserver [domain]: it is logged,
    and answered by the world's resolver according to how many queries that
    nameserver has seen. *)
Definition queries_to (domain : string) (w : world) : nat :=
  length (List.filter (fun q => String.eqb (fst q) domain) (dns_queries w)).

Definition resolver_query (domain name : string) : M world dns_response :=
  fun w => (Ok (resolver w domain name (queries_to domain w)),
            set_dns_queries (fun l => l ++ [(domain, name)]) w).

(** The second loop of [_has_dns_propagated]: the first record equal to the
    token reports success. *)
Fixpoint scan_txt_records (txt_records : list string) (token : string) : M world bool :=
  match txt_records with
  | [] => ret false
  | txt_record :: rest =>
      if String.eqb txt_record token
      then (metrics_send "has_dns_propagated_success";; ret true)
      else scan_txt_records rest token
  end.

(** The first loops of [_has_dns_propagated], over the records of the answer
    and the strings of each: every string is decoded and appended to
    [txt_records].  A string that is not UTF-8 raises [UnicodeDecodeError],
    which is no [DNSException]: the [except] clause does not catch it. *)
Fixpoint decode_strings (strings : list string) (txt_records : list string)
    : M world (list string) :=
  match strings with
  | [] => ret txt_records
  | txt_record :: rest =>
      match Py.decode_utf8 txt_record with
      | Some text => decode_strings rest (txt_records ++ [text])
      | None => raise UnicodeDecodeError
      end
  end.

Definition _has_dns_propagated (name token domain : string) : M world bool :=
  dns_response <- resolver_query domain name;;
  match dns_response with
  | DNSException => metrics_send "has_dns_propagated_fail";; ret false
  | Answer rdatas =>
      txt_records <- decode_strings (concat rdatas) [];;
      scan_txt_records txt_records token
  end.

Definition number_of_attempts : nat := 20.

(** The first loop of [wait_for_dns_change], with [attempts_left] attempts to
    go; it returns the loop's [status].  It sleeps after every attempt, also
    after the one that succeeds. *)
Fixpoint authoritative_phase (attempts_left : nat) (fqdn token : string) (status : bool)
    : M world bool :=
  match attempts_left with
  | 0 => ret status
  | S attempts_left' =>
      status <- _has_dns_propagated fqdn token "156.154.64.154";;
      logger_debug "Record status for fqdn";;
      if status then (time_sleep 10;; ret status)
      else (time_sleep 10;; authoritative_phase attempts_left' fqdn token status)
  end.

(** The second loop, against the public resolver. *)
Fixpoint public_phase (attempts_left : nat) (fqdn token : string) (status : bool)
    : M world bool :=
  match attempts_left with
  | 0 => ret status
  | S attempts_left' =>
      status <- _has_dns_propagated fqdn token "8.8.8.8";;
      logger_debug "Record status for fqdn";;
      if status then (metrics_send "wait_for_dns_change_success";; ret status)
      else (time_sleep 10;; public_phase attempts_left' fqdn token status)
  end.

Definition wait_for_dns_change (change_id : string * string) (account_number : option string)
    : M world unit :=
  let '(fqdn, token) := change_id in
  status <- authoritative_phase number_of_attempts fqdn token false;;
  status <- (if status then public_phase number_of_attempts fqdn token status
             else ret status);;
  (if negb status then
     metrics_send "wait_for_dns_change_fail";;
     sentry_captureException;;
     metrics_send "wait_for_dns_change_error"
   else ret tt);;
  ret tt.

(** The loops of [get_zones] over the pages and their elements. *)
Definition eligible (zone : Zone.t) : bool :=
  String.eqb (Zone.authoritative_type zone) "PRIMARY"
  && String.eqb (Zone.status zone) "ACTIVE".

Definition collect_zones (pages : list (list Zone.t)) : list string :=
  flat_map (fun page =>
              flat_map (fun zone => if eligible zone then [Zone.name zone] else []) page)
           pages.

Definition get_zones (account_number : option string) : M world (list string) :=
  pages <- _paginate zones_path;;
  ret (collect_zones pages).

(** The loop of [get_zone_name]: [zone_name] is the best zone so far. *)
Fixpoint most_specific (domain : string) (zones : list string) (zone_name : string) : string :=
  match zones with
  | [] => zone_name
  | z :: zones' =>
      if Py.endswith domain z && (Py.count "." zone_name <? Py.count "." z)%nat
      then most_specific domain zones' z
      else most_specific domain zones' zone_name
  end.

Definition no_zone_found (domain : string) : exn :=
  Exception ("No UltraDNS zone found for domain: " +:+ domain).

Definition get_zone_name (domain : string) (account_number : option string) : M world string :=
  zones <- get_zones account_number;;
  let zone_name := most_specific domain zones "" in
  if String.eqb zone_name "" then
    metrics_send "ultradns_no_zone_name";;
    raise (no_zone_found domain)
  else ret zone_name.

(** The owner name: the labels of the domain in front of as many labels as
    the zone has. *)
Definition node_name_of (domain zone_name : string) : string :=
  let zone_parts := length (Py.split "." zone_name) in
  Py.join "." (Py.drop_last zone_parts (Py.split "." domain)).

Definition create_txt_record (domain token : string) (account_number : option string)
    : M world (string * string) :=
  zone_name <- get_zone_name domain account_number;;
  let node_name := node_name_of domain zone_name in
  let fqdn := node_name +:+ "." +:+ zone_name in
  let p := rrsets_path zone_name "TXT" node_name in
  let params := (5, [token]) in
  try_except
    (_post p params;;
     logger_debug "TXT record created")
    (fun e => logger_debug "Unable to add record. Record already exists");;
  let change_id := (fqdn, token) in
  ret change_id.

Definition delete_txt_record (change_id : list (string * string))
    (account_number : option string) (domain token : string) : M world unit :=
  if String.eqb domain "" then
    logger_debug "delete_txt_record: No domain passed"
  else
    zone_name <- get_zone_name domain account_number;;
    let node_name := node_name_of domain zone_name in
    let p := rrsets_path zone_name "16" node_name in
    fetched <- try_except
      (rrsets <- _get p None;;
       ret (Some {| UltraRecord.data := rrsets |}))
      (fun e => metrics_send "delete_txt_record_geterror";; ret None);;
    match fetched with
    | None => ret tt
    | Some record =>
        match UltraRecord.rdata record with
        | Raise e => raise e
        | Ok rdata =>
            match Py.remove token rdata with
            | None => logger_debug "Token not found"
            | Some rdata =>
                _delete p;;
                if (0 <? length rdata)%nat then _post p (5, rdata) else ret tt
            end
        end
    end.

(** [delete_acme_txt_records] calls [get_zone_name(domain)] without the
    account number the function requires: the call is a [TypeError], and
    what follows it (the owner name, the DELETE) is never reached. *)
Definition delete_acme_txt_records (domain : string) : M world unit :=
  if String.eqb domain "" then
    logger_debug "delete_acme_txt_records: No domain passed"
  else
    let acme_challenge_string := "_acme-challenge" in
    if negb (Py.startswith domain acme_challenge_string) then
      logger_debug "delete_acme_txt_records: Cowardly refusing to delete TXT records"
    else
      zone_name <- raise (TypeError
        "get_zone_name() missing 1 required positional argument: 'account_number'");;
      let node_name := node_name_of domain zone_name in
      let p := rrsets_path zone_name "16" node_name in
      _delete p.

Definition get_authoritative_nameserver (domain : string) : string := "156.154.64.154".

End Ultradns.

(** ** The objects [acme_handlers.py] works on *)

(** The challenge types of the [acme] library; [isinstance(combo.chall,
    challenges.DNS01)] is a test on this tag. *)
Inductive challenge_type : Type := DNS01 | HTTP01 | TLSALPN01.

Definition is_DNS01 (c : challenge_type) : bool :=
  match c with
  | DNS01 => true
  | _ => false
  end.

Module ChallengeBody.
(** A challenge of an authorization, as the [acme] library hands it out:
    [validation key] is [combo.validation(key)], the value of the TXT record,
    and [simple_verify key domain] is the outcome of
    [combo.response(key).simple_verify(combo.chall, domain, key.public_key())]. *)
Record t : Type := {
  chall : challenge_type;
  validation : string -> string;
  simple_verify : string -> string -> bool
}.
End ChallengeBody.

(** Modelled from the spec: [validation_domain_name] of the [acme] library's
    DNS-01 challenge, which is not among the sources: "the canonical DNS-01
    validation hostname (_acme-challenge. + stripped domain)". *)
Definition validation_domain_name (name : string) : string :=
  "_acme-challenge." +:+ name.

Module AuthorizationResource.
(** [authz.body.identifier.value], [authz.body.wildcard] (absent counts as
    false) and [authz.body.challenges] *)
Record t : Type := {
  identifier_value : string;
  wildcard : bool;
  challenges : list ChallengeBody.t
}.
End AuthorizationResource.

Module Order.
Record t : Type := { uri : string; authorizations : list AuthorizationResource.t }.
End Order.

Module DnsProvider.
(** A configured provider account.  [credentials] and [options] are kept as
    what the code reads them as: [credentials] is the dictionary
    [json.loads(dns_provider.credentials)] returns, [None] when the blob does
    not parse; [options] is a dictionary or [None]. *)
Record t : Type := {
  provider_type : string;
  credentials : option (gmap string string);
  domains : list string;
  options : option (gmap string string)
}.
End DnsProvider.

Module AuthorizationRecord.
Record t : Type := {
  domain : string;
  target_domain : string;
  authz : list AuthorizationResource.t;
  dns_challenge : list ChallengeBody.t;
  change_id : list (string * string)
}.
End AuthorizationRecord.

(** The provider modules [get_dns_provider] chooses from. *)
Inductive provider_module : Type := cloudflare | dyn | route53 | ultradns | powerdns.

(** The capability contract of a provider module: the three functions the
    handler calls. *)
Record Plugin : Type := {
  create_txt_record : string -> string -> option string -> M world (string * string);
  delete_txt_record :
    list (string * string) -> option string -> string -> string -> M world unit;
  wait_for_dns_change : string * string -> option string -> M world unit
}.

Definition ultradns_plugin : Plugin :=
  {| create_txt_record := Ultradns.create_txt_record;
     delete_txt_record := Ultradns.delete_txt_record;
     wait_for_dns_change := Ultradns.wait_for_dns_change |}.

Module AcmeClient.
(** [key] is [acme_client.client.net.key]; [answer_challenge] is the request
    to the ACME server. *)
Record t : Type := {
  key : string;
  answer_challenge : ChallengeBody.t -> M world unit
}.
End AcmeClient.

(** The calls that leave the handler, in the order they are made. *)
Inductive external_call : Type :=
  | CreateTxtRecord (plugin : provider_module) (host token : string)
      (account_number : option string)
  | DeleteTxtRecord (plugin : provider_module) (change_id : list (string * string))
      (account_number : option string) (host token : string)
  | WaitForDnsChange (plugin : provider_module) (change_id : string * string)
      (account_number : option string)
  | AnswerChallenge (validation : string).

(** [self] of [AcmeDnsHandler] *)
Record AcmeDnsHandler : Type := {
  dns_providers_for_domain : gmap string (list DnsProvider.t);
  all_dns_providers : list DnsProvider.t
}.

(** The state a handler method runs in: the handler object, the record of the
    external calls made so far, and the world.  Provider modules and the ACME
    client act on the world only. *)
Record handler_state : Type := {
  self : AcmeDnsHandler;
  calls : list external_call;
  env : world
}.

Definition set_self (f : AcmeDnsHandler -> AcmeDnsHandler) (h : handler_state) : handler_state :=
  {| self := f (self h); calls := calls h; env := env h |}.

Definition set_env (w : world) (h : handler_state) : handler_state :=
  {| self := self h; calls := calls h; env := w |}.

Definition set_dns_providers_for_domain
    (f : gmap string (list DnsProvider.t) -> gmap string (list DnsProvider.t))
    (a : AcmeDnsHandler) : AcmeDnsHandler :=
  {| dns_providers_for_domain := f (dns_providers_for_domain a);
     all_dns_providers := all_dns_providers a |}.

(** Code that acts on the world, run from a handler method. *)
Definition in_world {A} (m : M world A) : M handler_state A :=
  fun h => let '(r, w) := m (env h) in (r, set_env w h).

Definition record_call (c : external_call) : M handler_state unit :=
  modify (fun h => {| self := self h; calls := calls h ++ [c]; env := env h |}).

Module IssuerOptions.
(** The [options] dictionary of a certificate request, as [get_domains] reads
    it: the entry [common_name], and the entry [extensions], a dictionary of
    dictionaries in which [sub_alt_names] holds under [names] the values of
    the requested names.  A missing entry is [None]. *)
Record t : Type := {
  common_name : option string;
  extensions : option (gmap string (gmap string (list string)))
}.
End IssuerOptions.

(** What [dns.resolver.query(domain, 'CNAME')] gives: an exception of the
    resolver, or an answer, of which the targets of the records are kept, as
    [str] prints them. *)
Inductive cname_response : Type :=
  | CnameException
  | CnameAnswer (targets : list string).

(** What [get_cname] returns: a string, [False], or the [None] of a function
    that falls off its end. *)
Inductive cname_result : Type :=
  | CnameTarget (target : string)
  | CnameFalse
  | CnameNone.

(** The state [get_authorizations] runs in: the handler's state and the CNAME
    queries made so far.  The default resolver is a function
    [cname_answers name i]: its answer to a query for [name] made as the
    [i]-th CNAME query (counted from 0). *)
Record lookup_state : Type := {
  handler : handler_state;
  cname_queries : list string
}.

Definition in_handler {A} (m : M handler_state A) : M lookup_state A :=
  fun s => let '(r, h) := m (handler s) in
           (r, {| handler := h; cname_queries := cname_queries s |}).

(** ** [acme_handlers.py]: [AcmeHandler] and [AcmeDnsHandler] *)
Module AcmeHandlers.

(** Removes the leading [*.] and returns the host and whether it was removed. *)
Definition strip_wildcard (host : string) : string * bool :=
  let pre := "*." in
  if Py.startswith host pre then (Py.slice_from (String.length pre) host, true)
  else (host, false).

Definition maybe_add_extension (host : string) (dns_provider_options : option (gmap string string))
    : string :=
  match dns_provider_options with
  | Some opts =>
      match opts !! "acme_challenge_extension" with
      | Some extension => if String.eqb extension "" then host else host +:+ extension
      | None => host
      end
  | None => host
  end.

(** The loop of [get_dns_challenges] over the authorizations. *)
Fixpoint select_challenges (domain_to_validate : string) (is_wildcard : bool)
    (authorizations : list AuthorizationResource.t) : list ChallengeBody.t :=
  match authorizations with
  | [] => []
  | authz :: rest =>
      if negb (String.eqb (Py.lower (AuthorizationResource.identifier_value authz))
                          (Py.lower domain_to_validate))
      then select_challenges domain_to_validate is_wildcard rest
      else if is_wildcard && negb (AuthorizationResource.wildcard authz)
      then select_challenges domain_to_validate is_wildcard rest
      else if negb is_wildcard && AuthorizationResource.wildcard authz
      then select_challenges domain_to_validate is_wildcard rest
      else List.filter (fun combo => is_DNS01 (ChallengeBody.chall combo))
                  (AuthorizationResource.challenges authz)
           ++ select_challenges domain_to_validate is_wildcard rest
  end.

Definition get_dns_challenges (host : string) (authorizations : list AuthorizationResource.t)
    : list ChallengeBody.t :=
  let '(domain_to_validate, is_wildcard) := strip_wildcard host in
  select_challenges domain_to_validate is_wildcard authorizations.

Definition provider_types : gmap string provider_module :=
  {[ "cloudflare" := cloudflare; "dyn" := dyn; "route53" := route53;
     "ultradns" := ultradns; "powerdns" := powerdns ]}.

Definition get_dns_provider {S} (type : string) : M S provider_module :=
  match provider_types !! type with
  | Some provider => ret provider
  | None => raise (UnknownProvider ("No such DNS provider: " +:+ type))
  end.

(** [json.loads(dns_provider.credentials)] *)
Definition json_loads_credentials {S} (dns_provider : DnsProvider.t) : M S (gmap string string) :=
  match DnsProvider.credentials dns_provider with
  | Some dns_provider_options => ret dns_provider_options
  | None => raise JSONDecodeError
  end.

(** Whether [name] is an owned suffix of [domain], as
    [autodetect_dns_providers] tests it. *)
Definition owns_suffix (name domain : string) : bool :=
  String.eqb name domain || Py.endswith domain ("." +:+ name).

(** The inner loop of [autodetect_dns_providers], over the names of one
    provider: the dictionary and [match_length] are the loop's state.  The
    entry of [domain] is there from the start of the method on. *)
Fixpoint match_names (domain : string) (dns_provider : DnsProvider.t) (names : list string)
    (st : gmap string (list DnsProvider.t) * nat) : gmap string (list DnsProvider.t) * nat :=
  match names with
  | [] => st
  | name :: rest =>
      let '(d, match_length) := st in
      if owns_suffix name domain then
        if (match_length <? String.length name)%nat
        then match_names domain dns_provider rest
               (<[domain := [dns_provider]]> d, String.length name)
        else if (String.length name =? match_length)%nat
        then match_names domain dns_provider rest
               (alter (fun l => l ++ [dns_provider]) domain d, match_length)
        else match_names domain dns_provider rest st
      else match_names domain dns_provider rest st
  end.

(** The outer loop, over the providers. *)
Fixpoint match_providers (domain : string) (providers : list DnsProvider.t)
    (st : gmap string (list DnsProvider.t) * nat) : gmap string (list DnsProvider.t) * nat :=
  match providers with
  | [] => st
  | dns_provider :: rest =>
      match DnsProvider.domains dns_provider with
      | [] => match_providers domain rest st
      | names => match_providers domain rest (match_names domain dns_provider names st)
      end
  end.

Definition autodetect_dns_providers (domain : string)
    : M handler_state (gmap string (list DnsProvider.t)) :=
  modify (set_self (set_dns_providers_for_domain (insert domain [])));;
  modify (set_self (fun a =>
    set_dns_providers_for_domain
      (fun d => fst (match_providers domain (all_dns_providers a) (d, 0))) a));;
  gets (fun h => dns_providers_for_domain (self h)).

(** The loop of [get_domains] over the requested names. *)
Fixpoint add_names (names : list string) (domains : list string) : list string :=
  match names with
  | [] => domains
  | dns_name :: rest =>
      if existsb (String.eqb dns_name) domains then add_names rest domains
      else add_names rest (domains ++ [dns_name])
  end.

Definition get_domains (options : IssuerOptions.t) : M world (list string) :=
  logger_debug "Fetching domains";;
  common_name <- match IssuerOptions.common_name options with
                 | Some common_name => ret common_name
                 | None => raise (KeyError "common_name")
                 end;;
  let domains := [common_name] in
  domains <- match IssuerOptions.extensions options with
             | None => ret domains
             | Some extensions =>
                 if bool_decide (extensions = ∅) then ret domains
                 else
                   match extensions !! "sub_alt_names" with
                   | None => raise (KeyError "sub_alt_names")
                   | Some sub_alt_names =>
                       match sub_alt_names !! "names" with
                       | None => raise (KeyError "names")
                       | Some names => ret (add_names names domains)
                       end
                   end
             end;;
  logger_debug "Got these domains";;
  ret domains.

(** [get_cname]: the first target of the answer without its trailing dots,
    [False] when the resolver raises, nothing when the answer is empty. *)
Definition get_cname (cname_answers : string -> nat -> cname_response) (domain : string)
    : M lookup_state cname_result :=
  fun s =>
    let s' := {| handler := handler s; cname_queries := cname_queries s ++ [domain] |} in
    match cname_answers domain (length (cname_queries s)) with
    | CnameException => (Ok CnameFalse, s')
    | CnameAnswer [] => (Ok CnameNone, s')
    | CnameAnswer (target :: _) => (Ok (CnameTarget (Py.rstrip "." target)), s')
    end.

Section Plugins.

(** The provider modules other than [ultradns] are not among the sources:
    any implementation of the contract stands for them. *)
Variable others : provider_module -> Plugin.

Definition plugin_of (m : provider_module) : Plugin :=
  match m with
  | ultradns => ultradns_plugin
  | m => others m
  end.

Definition call_create_txt_record (m : provider_module) (host token : string)
    (account_number : option string) : M handler_state (string * string) :=
  record_call (CreateTxtRecord m host token account_number);;
  in_world (create_txt_record (plugin_of m) host token account_number).

Definition call_delete_txt_record (m : provider_module) (change_id : list (string * string))
    (account_number : option string) (host token : string) : M handler_state unit :=
  record_call (DeleteTxtRecord m change_id account_number host token);;
  in_world (delete_txt_record (plugin_of m) change_id account_number host token).

Definition call_wait_for_dns_change (m : provider_module) (change_id : string * string)
    (account_number : option string) : M handler_state unit :=
  record_call (WaitForDnsChange m change_id account_number);;
  in_world (wait_for_dns_change (plugin_of m) change_id account_number).

Definition call_answer_challenge (acme_client : AcmeClient.t) (dns_challenge : ChallengeBody.t)
    : M handler_state unit :=
  record_call (AnswerChallenge
                 (ChallengeBody.validation dns_challenge (AcmeClient.key acme_client)));;
  in_world (AcmeClient.answer_challenge acme_client dns_challenge).

(** The loop of [start_dns_challenge] over the challenges: [host_to_validate]
    and [change_ids] are the loop's state. *)
Fixpoint create_records (acme_client : AcmeClient.t) (account_number : option string)
    (domain target_domain : string) (dns_provider : provider_module)
    (dns_challenges : list ChallengeBody.t) (host_to_validate : string)
    (change_ids : list (string * string)) : M handler_state (list (string * string)) :=
  match dns_challenges with
  | [] => ret change_ids
  | dns_challenge :: rest =>
      let host_to_validate :=
        if String.eqb domain target_domain
        then validation_domain_name host_to_validate
        else host_to_validate in
      change_id <- call_create_txt_record dns_provider host_to_validate
                     (ChallengeBody.validation dns_challenge (AcmeClient.key acme_client))
                     account_number;;
      create_records acme_client account_number domain target_domain dns_provider rest
        host_to_validate (change_ids ++ [change_id])
  end.

Definition start_dns_challenge (acme_client : AcmeClient.t) (account_number : option string)
    (domain target_domain : string) (dns_provider : provider_module) (order : Order.t)
    (dns_provider_options : option (gmap string string))
    : M handler_state AuthorizationRecord.t :=
  in_world (logger_debug "Starting DNS challenge");;
  let dns_challenges := get_dns_challenges domain (Order.authorizations order) in
  let host_to_validate := fst (strip_wildcard target_domain) in
  let host_to_validate := maybe_add_extension host_to_validate dns_provider_options in
  match dns_challenges with
  | [] =>
      in_world sentry_captureException;;
      in_world (metrics_send "start_dns_challenge_error_no_dns_challenges");;
      raise (Exception "Unable to determine DNS challenges from authorizations")
  | _ =>
      change_ids <- create_records acme_client account_number domain target_domain
                      dns_provider dns_challenges host_to_validate [];;
      ret {| AuthorizationRecord.domain := domain;
             AuthorizationRecord.target_domain := target_domain;
             AuthorizationRecord.authz := Order.authorizations order;
             AuthorizationRecord.dns_challenge := dns_challenges;
             AuthorizationRecord.change_id := change_ids |}
  end.

(** The loop of [complete_dns_challenge] over the change ids: an exception of
    the provider's poller is reported and raised again. *)
Definition wait_for_changes (dns_provider_plugin : provider_module)
    (account_number : option string) (change_ids : list (string * string))
    : M handler_state unit :=
  for_each change_ids (fun change_id =>
    try_except
      (call_wait_for_dns_change dns_provider_plugin change_id account_number)
      (fun e =>
         in_world (metrics_send "complete_dns_challenge_error");;
         in_world sentry_captureException;;
         in_world (logger_debug "Unable to resolve DNS challenge for change_id");;
         raise e)).

(** The body of the loop of [complete_dns_challenge] over the providers.  The
    loop over the challenges leaves [dns_challenge] and [verified] at the last
    challenge; with no challenge at all [verified] is unbound. *)
Definition complete_for_provider (acme_client : AcmeClient.t)
    (authz_record : AuthorizationRecord.t) (dns_provider : DnsProvider.t)
    : M handler_state unit :=
  dns_provider_options <- json_loads_credentials dns_provider;;
  let account_number := dns_provider_options !! "account_id" in
  dns_provider_plugin <- get_dns_provider (DnsProvider.provider_type dns_provider);;
  wait_for_changes dns_provider_plugin account_number
    (AuthorizationRecord.change_id authz_record);;
  match last (AuthorizationRecord.dns_challenge authz_record) with
  | None => raise (NameError "verified")
  | Some dns_challenge =>
      let verified :=
        ChallengeBody.simple_verify dns_challenge (AcmeClient.key acme_client)
          (AuthorizationRecord.target_domain authz_record) in
      if negb verified then
        in_world (metrics_send "complete_dns_challenge_verification_error");;
        raise (ValueError "Failed verification")
      else
        in_world (time_sleep 5);;
        call_answer_challenge acme_client dns_challenge;;
        in_world (logger_debug "answer_challenge response")
  end.

Definition complete_dns_challenge (acme_client : AcmeClient.t)
    (authz_record : AuthorizationRecord.t) : M handler_state unit :=
  match AuthorizationRecord.authz authz_record with
  | [] => raise IndexError
  | _ => in_world (logger_debug "Finalizing DNS challenge")
  end;;
  dns_providers <- gets (fun h => dns_providers_for_domain (self h)
                                    !! AuthorizationRecord.target_domain authz_record);;
  match dns_providers with
  | None | Some [] =>
      in_world (metrics_send "complete_dns_challenge_error_no_dnsproviders");;
      raise (Exception ("No DNS providers found for domain: "
                        +:+ AuthorizationRecord.target_domain authz_record))
  | Some dns_providers =>
      for_each dns_providers (complete_for_provider acme_client authz_record)
  end.

(** The innermost body of the second loop of [finalize_authorizations]: the
    host is computed afresh for every challenge and provider. *)
Definition finalize_delete (acme_client : AcmeClient.t) (authz_record : AuthorizationRecord.t)
    (dns_challenge : ChallengeBody.t) (dns_provider : DnsProvider.t) : M handler_state unit :=
  dns_provider_plugin <- get_dns_provider (DnsProvider.provider_type dns_provider);;
  dns_provider_options <- json_loads_credentials dns_provider;;
  let account_number := dns_provider_options !! "account_id" in
  let host_to_validate := fst (strip_wildcard (AuthorizationRecord.target_domain authz_record)) in
  let host_to_validate := maybe_add_extension host_to_validate (Some dns_provider_options) in
  let host_to_validate :=
    if String.eqb (AuthorizationRecord.domain authz_record)
                  (AuthorizationRecord.target_domain authz_record)
    then validation_domain_name host_to_validate
    else host_to_validate in
  call_delete_txt_record dns_provider_plugin (AuthorizationRecord.change_id authz_record)
    account_number host_to_validate
    (ChallengeBody.validation dns_challenge (AcmeClient.key acme_client)).

(** [for dns_provider in self.dns_providers_for_domain.get(target_domain)]:
    iterating over [None] is a [TypeError]. *)
Definition for_each_provider_of (target_domain : string) (body : DnsProvider.t -> M handler_state unit)
    : M handler_state unit :=
  dns_providers <- gets (fun h => dns_providers_for_domain (self h) !! target_domain);;
  match dns_providers with
  | None => raise (TypeError "'NoneType' object is not iterable")
  | Some dns_providers => for_each dns_providers body
  end.

Definition finalize_authorizations (acme_client : AcmeClient.t)
    (authorizations : list AuthorizationRecord.t) : M handler_state (list AuthorizationRecord.t) :=
  for_each authorizations (complete_dns_challenge acme_client);;
  for_each authorizations (fun authz_record =>
    for_each (AuthorizationRecord.dns_challenge authz_record) (fun dns_challenge =>
      for_each_provider_of (AuthorizationRecord.target_domain authz_record)
        (finalize_delete acme_client authz_record dns_challenge)));;
  ret authorizations.

(** The loop of [cleanup_dns_challenges] over the challenges of a record:
    [host_to_validate] is the loop's state; an exception of the deletion is
    reported and dropped. *)
Fixpoint delete_records (acme_client : AcmeClient.t) (authz_record : AuthorizationRecord.t)
    (account_number : option string) (dns_provider_plugin : provider_module)
    (dns_challenges : list ChallengeBody.t) (host_to_validate : string)
    : M handler_state unit :=
  match dns_challenges with
  | [] => ret tt
  | dns_challenge :: rest =>
      let host_to_validate :=
        if String.eqb (AuthorizationRecord.domain authz_record)
                      (AuthorizationRecord.target_domain authz_record)
        then validation_domain_name host_to_validate
        else host_to_validate in
      try_except
        (call_delete_txt_record dns_provider_plugin
           (AuthorizationRecord.change_id authz_record) account_number host_to_validate
           (ChallengeBody.validation dns_challenge (AcmeClient.key acme_client)))
        (fun e =>
           in_world (metrics_send "cleanup_dns_challenges_error");;
           in_world sentry_captureException);;
      delete_records acme_client authz_record account_number dns_provider_plugin rest
        host_to_validate
  end.

Definition cleanup_for_provider (acme_client : AcmeClient.t)
    (authz_record : AuthorizationRecord.t) (dns_provider : DnsProvider.t)
    : M handler_state unit :=
  dns_provider_options <- json_loads_credentials dns_provider;;
  let account_number := dns_provider_options !! "account_id" in
  let dns_challenges := AuthorizationRecord.dns_challenge authz_record in
  let host_to_validate := fst (strip_wildcard (AuthorizationRecord.target_domain authz_record)) in
  let host_to_validate := maybe_add_extension host_to_validate (Some dns_provider_options) in
  dns_provider_plugin <- get_dns_provider (DnsProvider.provider_type dns_provider);;
  delete_records acme_client authz_record account_number dns_provider_plugin dns_challenges
    host_to_validate.

Definition cleanup_dns_challenges (acme_client : AcmeClient.t)
    (authorizations : list AuthorizationRecord.t) : M handler_state unit :=
  for_each authorizations (fun authz_record =>
    for_each_provider_of (AuthorizationRecord.target_domain authz_record)
      (cleanup_for_provider acme_client authz_record)).

(** The first part of the loop body of [get_authorizations]: the target of a
    domain.  [ACME_ENABLE_DELEGATED_CNAME] is the configuration flag. *)
Definition target_of (ACME_ENABLE_DELEGATED_CNAME : bool)
    (cname_answers : string -> nat -> cname_response) (domain : string)
    : M lookup_state string :=
  let target_domain := domain in
  if ACME_ENABLE_DELEGATED_CNAME then
    let cname_result := fst (strip_wildcard domain) in
    let cname_result := validation_domain_name cname_result in
    cname_result <- get_cname cname_answers cname_result;;
    match cname_result with
    | CnameTarget target =>
        if String.eqb target "" then ret target_domain
        else
          in_handler (autodetect_dns_providers target);;
          ret target
    | CnameFalse | CnameNone => ret target_domain
    end
  else ret target_domain.

(** The loop of [get_authorizations] over the providers of a target:
    [authorizations] is the list the method appends to. *)
Fixpoint start_for_providers (acme_client : AcmeClient.t) (order : Order.t)
    (domain target_domain : string) (dns_providers : list DnsProvider.t)
    (authorizations : list AuthorizationRecord.t)
    : M lookup_state (list AuthorizationRecord.t) :=
  match dns_providers with
  | [] => ret authorizations
  | dns_provider :: rest =>
      dns_provider_plugin <- get_dns_provider (DnsProvider.provider_type dns_provider);;
      dns_provider_options <- json_loads_credentials dns_provider;;
      let account_number := dns_provider_options !! "account_id" in
      authz_record <- in_handler
        (start_dns_challenge acme_client account_number domain target_domain
           dns_provider_plugin order (DnsProvider.options dns_provider));;
      start_for_providers acme_client order domain target_domain rest
        (authorizations ++ [authz_record])
  end.

(** The loop of [get_authorizations] over the domains of the order. *)
Fixpoint authorizations_for (ACME_ENABLE_DELEGATED_CNAME : bool)
    (cname_answers : string -> nat -> cname_response)
    (acme_client : AcmeClient.t) (order : Order.t) (domains : list string)
    (authorizations : list AuthorizationRecord.t)
    : M lookup_state (list AuthorizationRecord.t) :=
  match domains with
  | [] => ret authorizations
  | domain :: rest =>
      target_domain <- target_of ACME_ENABLE_DELEGATED_CNAME cname_answers domain;;
      dns_providers <- in_handler
        (gets (fun h => dns_providers_for_domain (self h) !! target_domain));;
      match dns_providers with
      | None | Some [] =>
          in_handler (in_world (metrics_send "get_authorizations_no_dns_provider_for_domain"));;
          raise (Exception ("No DNS providers found for domain: " +:+ target_domain))
      | Some dns_providers =>
          authorizations <- start_for_providers acme_client order domain target_domain
                              dns_providers authorizations;;
          authorizations_for ACME_ENABLE_DELEGATED_CNAME cname_answers acme_client order
            rest authorizations
      end
  end.

(** [order_info_domains] is [order_info.domains]. *)
Definition get_authorizations (ACME_ENABLE_DELEGATED_CNAME : bool)
    (cname_answers : string -> nat -> cname_response)
    (acme_client : AcmeClient.t) (order : Order.t) (order_info_domains : list string)
    : M lookup_state (list AuthorizationRecord.t) :=
  authorizations_for ACME_ENABLE_DELEGATED_CNAME cname_answers acme_client order
    order_info_domains [].

End Plugins.

End AcmeHandlers.

(** ** Vocabulary of the statements *)

(** The number of dot-separated labels of a name. *)
Definition labels (z : string) : nat := length (Py.split "." z).

(** Worlds for the examples: the account has the given zones, all primary and
    active, and no record set; no request fails; the resolvers answer every
    query with an exception. *)
Definition active_zone (name : string) : Zone.t :=
  {| Zone.name := name; Zone.authoritative_type := "PRIMARY"; Zone.status := "ACTIVE" |}.

Definition quiet_world (zone_names : list string) : world :=
  {| token_service := Ok "token";
     remote_zones := map active_zone zone_names;
     rrsets := ∅;
     http_fault := fun _ _ => None;
     http_log := [];
     resolver := fun _ _ _ => DNSException;
     dns_queries := [];
     slept := 0;
     metrics := [];
     sentry := 0;
     log := [] |}.

(** The same with one TXT record set, and with every POST failing. *)
Definition with_record_set (zone node : string) (values : list string) (w : world) : world :=
  set_rrsets (insert (zone, node) values) w.

Definition with_failing_posts (e : exn) (w : world) : world :=
  {| token_service := token_service w; remote_zones := remote_zones w;
     rrsets := rrsets w;
     http_fault := fun method p =>
                     match method with
                     | POST => Some e
                     | _ => http_fault w method p
                     end;
     http_log := http_log w;
     resolver := resolver w; dns_queries := dns_queries w; slept := slept w;
     metrics := metrics w; sentry := sentry w; log := log w |}.

(** Whether every string of an answer is UTF-8; a resolver exception has
    nothing to decode. *)
Definition decodable (r : dns_response) : bool :=
  match r with
  | DNSException => true
  | Answer rdatas => forallb Py.is_utf8 (concat rdatas)
  end.

(** What an answer of a resolver reports: success when it decodes and holds
    the token, failure when it decodes without the token or is a resolver
    exception, and nothing at all ([None]) when a string of it does not
    decode. *)
Definition reports (r : dns_response) (token : string) : option bool :=
  match r with
  | DNSException => Some false
  | Answer rdatas =>
      if forallb Py.is_utf8 (concat rdatas)
      then Some (existsb (fun txt_record => String.eqb txt_record token) (concat rdatas))
      else None
  end.

(** The resolver stub of nameserver [ns] as the poller started in [w] meets
    it: [stub w ns fqdn token i] is what attempt [i + 1] at [ns] reports. *)
Definition stub (w : world) (ns fqdn token : string) (i : nat) : option bool :=
  reports (resolver w ns fqdn (Ultradns.queries_to ns w + i)) token.

(** The stub first reports success on attempt [K], counted from 1, after
    reporting failure on every attempt before. *)
Definition first_success (s : nat -> option bool) (K : nat) : Prop :=
  1 <= K /\ (forall i, i < K - 1 -> s i = Some false) /\ s (K - 1) = Some true.

(** The stub reports failure on the first [N] attempts. *)
Definition never_success (s : nat -> option bool) (N : nat) : Prop :=
  forall i, i < N -> s i = Some false.

(** The stub reports failure until, on attempt [K], its answer does not
    decode. *)
Definition first_undecodable (s : nat -> option bool) (K : nat) : Prop :=
  1 <= K /\ (forall i, i < K - 1 -> s i = Some false) /\ s (K - 1) = None.

(** A world whose resolvers only give answers that decode. *)
Definition decodable_world (w : world) : Prop :=
  forall ns name i, decodable (resolver w ns name i) = true.

(** [w'] is [w] after [n] queries for [name] at [ns] and whatever metrics,
    log lines and sleeps came with them: nothing else moved. *)
Definition polled (ns name : string) (n : nat) (w w' : world) : Prop :=
  resolver w' = resolver w
  /\ dns_queries w' = dns_queries w ++ repeat (ns, name) n
  /\ rrsets w' = rrsets w
  /\ http_log w' = http_log w
  /\ sentry w' = sentry w
  /\ exists sent, metrics w' = metrics w ++ sent.

(** A world whose resolvers carry the token from some attempt on: the
    authoritative one from attempt [auth_from], the public one, beside another
    value, from attempt [pub_from] (both counted from 1). *)
Definition propagating_world (token : string) (auth_from pub_from : nat) : world :=
  {| token_service := Ok "token";
     remote_zones := [active_zone "example.com"];
     rrsets := {[ ("example.com", "_acme-challenge.foo") := [token] ]};
     http_fault := fun _ _ => None;
     http_log := [];
     resolver := fun ns _ i =>
                   if String.eqb ns "156.154.64.154" then
                     if (auth_from <=? S i)%nat then Answer [[token]] else DNSException
                   else
                     if (pub_from <=? S i)%nat then Answer [["other"]; [token]]
                     else Answer [["other"]];
     dns_queries := [];
     slept := 0;
     metrics := [];
     sentry := 0;
     log := [] |}.

(** A world whose resolvers answer with the token and, beside it, a string
    of the single byte 255, which is no UTF-8. *)
Definition undecodable_world (token : string) : world :=
  {| token_service := Ok "token";
     remote_zones := [active_zone "example.com"];
     rrsets := {[ ("example.com", "_acme-challenge.foo") := [token] ]};
     http_fault := fun _ _ => None;
     http_log := [];
     resolver := fun _ _ _ => Answer [[token]; [String "255" EmptyString]];
     dns_queries := [];
     slept := 0;
     metrics := [];
     sentry := 0;
     log := [] |}.

(** The (host, token) pairs the loops of [start_dns_challenge] and
    [cleanup_dns_challenges] walk through for the challenges of one record,
    starting from [host]: without delegation every step puts the challenge
    label in front of the host of the step before. *)
Fixpoint record_targets (key : string) (delegated : bool) (host : string)
    (dns_challenges : list ChallengeBody.t) : list (string * string) :=
  match dns_challenges with
  | [] => []
  | dns_challenge :: rest =>
      let host := if delegated then host else validation_domain_name host in
      (host, ChallengeBody.validation dns_challenge key)
      :: record_targets key delegated host rest
  end.

Definition delegated (authz_record : AuthorizationRecord.t) : bool :=
  negb (String.eqb (AuthorizationRecord.domain authz_record)
                   (AuthorizationRecord.target_domain authz_record)).

(** The deletion calls [cleanup_dns_challenges] owes to one record and one
    provider of its target domain. *)
Definition deletions_of (acme_client : AcmeClient.t) (authz_record : AuthorizationRecord.t)
    (dns_provider : DnsProvider.t) : list external_call :=
  match DnsProvider.credentials dns_provider,
        AcmeHandlers.provider_types !! DnsProvider.provider_type dns_provider with
  | Some dns_provider_options, Some plugin =>
      map (fun target =>
             DeleteTxtRecord plugin (AuthorizationRecord.change_id authz_record)
               (dns_provider_options !! "account_id") (fst target) (snd target))
          (record_targets (AcmeClient.key acme_client) (delegated authz_record)
             (AcmeHandlers.maybe_add_extension
                (fst (AcmeHandlers.strip_wildcard
                        (AuthorizationRecord.target_domain authz_record)))
                (Some dns_provider_options))
             (AuthorizationRecord.dns_challenge authz_record))
  | _, _ => []
  end.

(** A provider whose credentials parse and whose type names a module. *)
Definition usable (dns_provider : DnsProvider.t) : Prop :=
  is_Some (DnsProvider.credentials dns_provider)
  /\ is_Some (AcmeHandlers.provider_types !! DnsProvider.provider_type dns_provider).

(** The providers a handler has resolved for the target of a record. *)
Definition providers_of (handler : AcmeDnsHandler) (authz_record : AuthorizationRecord.t)
    : list DnsProvider.t :=
  default [] (dns_providers_for_domain handler
                !! AuthorizationRecord.target_domain authz_record).

(** A record as [get_authorizations] leaves it: its target domain has an
    entry in [dns_providers_for_domain], of usable providers. *)
Definition resolved (handler : AcmeDnsHandler) (authz_record : AuthorizationRecord.t) : Prop :=
  exists dns_providers,
    dns_providers_for_domain handler !! AuthorizationRecord.target_domain authz_record
    = Some dns_providers
    /\ Forall usable dns_providers.

(** What a call of a provider's creation or deletion is aimed at: the
    module, the account, the host and the token. *)
Definition call_target (c : external_call)
    : option (provider_module * option string * string * string) :=
  match c with
  | CreateTxtRecord plugin host token account_number =>
      Some (plugin, account_number, host, token)
  | DeleteTxtRecord plugin _ account_number host token =>
      Some (plugin, account_number, host, token)
  | _ => None
  end.

(** Objects for the examples: a DNS-01 challenge with a given validation
    string that verifies, an ACME client whose server accepts every answer, an
    UltraDNS account, a handler that has not resolved any domain yet and one
    that has resolved [foo.example.com], an authorization with DNS-01
    challenges, and the record of a challenge for [foo.example.com]. *)
Definition dns01 (validation : string) : ChallengeBody.t :=
  {| ChallengeBody.chall := DNS01;
     ChallengeBody.validation := fun _ => validation;
     ChallengeBody.simple_verify := fun _ _ => true |}.

Definition example_client : AcmeClient.t :=
  {| AcmeClient.key := "account-key";
     AcmeClient.answer_challenge := fun _ => ret tt |}.

Definition ultradns_account (domains : list string) : DnsProvider.t :=
  {| DnsProvider.provider_type := "ultradns";
     DnsProvider.credentials := Some {[ "account_id" := "1" ]};
     DnsProvider.domains := domains;
     DnsProvider.options := None |}.

Definition fresh_handler (providers : list DnsProvider.t) (w : world) : handler_state :=
  {| self := {| dns_providers_for_domain := ∅; all_dns_providers := providers |};
     calls := [];
     env := w |}.

Definition resolved_handler (w : world) : handler_state :=
  {| self := {| dns_providers_for_domain :=
                  {[ "foo.example.com" := [ultradns_account ["example.com"]] ]};
                all_dns_providers := [ultradns_account ["example.com"]] |};
     calls := [];
     env := w |}.

Definition authz_for (identifier : string) (wildcard : bool) (tokens : list string)
    : AuthorizationResource.t :=
  {| AuthorizationResource.identifier_value := identifier;
     AuthorizationResource.wildcard := wildcard;
     AuthorizationResource.challenges := map dns01 tokens |}.

Definition example_record : AuthorizationRecord.t :=
  {| AuthorizationRecord.domain := "foo.example.com";
     AuthorizationRecord.target_domain := "foo.example.com";
     AuthorizationRecord.authz := [authz_for "foo.example.com" false ["T1"]];
     AuthorizationRecord.dns_challenge := [dns01 "T1"];
     AuthorizationRecord.change_id := [("_acme-challenge.foo.example.com", "T1")] |}.

(** The (provider, name) pairs [autodetect_dns_providers] visits, in order. *)
Definition owned_names (providers : list DnsProvider.t) : list (DnsProvider.t * string) :=
  flat_map (fun dns_provider => map (pair dns_provider) (DnsProvider.domains dns_provider))
           providers.

(** What the loops of [autodetect_dns_providers] have established after the
    pairs [visited], starting from the dictionary [d0]: the entry of [domain]
    holds the providers of the visited names that own the domain at length
    [match_length], no visited name owns it at a greater length, and
    [match_length] is 0 or the length of a visited name that owns it. *)
Definition detected (domain : string) (d0 : gmap string (list DnsProvider.t))
    (visited : list (DnsProvider.t * string))
    (st : gmap string (list DnsProvider.t) * nat) : Prop :=
  exists found,
    fst st !! domain = Some found
    /\ (forall p, In p found <->
                  exists name, In (p, name) visited
                               /\ AcmeHandlers.owns_suffix name domain = true
                               /\ String.length name = snd st)
    /\ (forall p name, In (p, name) visited ->
                       AcmeHandlers.owns_suffix name domain = true ->
                       String.length name <= snd st)
    /\ (snd st = 0
        \/ exists p name, In (p, name) visited
                          /\ AcmeHandlers.owns_suffix name domain = true
                          /\ String.length name = snd st)
    /\ (forall other, other <> domain -> fst st !! other = d0 !! other).

(** Two authorizations that differ at most in the letter case of their
    identifiers. *)
Definition same_up_to_case (a a' : AuthorizationResource.t) : Prop :=
  Py.lower (AuthorizationResource.identifier_value a)
  = Py.lower (AuthorizationResource.identifier_value a')
  /\ AuthorizationResource.wildcard a = AuthorizationResource.wildcard a'
  /\ AuthorizationResource.challenges a = AuthorizationResource.challenges a'.

(** What a call leaves alone on the service's side. *)
Definition same_remote (w w' : world) : Prop :=
  token_service w' = token_service w
  /\ remote_zones w' = remote_zones w
  /\ rrsets w' = rrsets w
  /\ http_fault w' = http_fault w.

(** What holds after a call that starts with a request for the zone listing:
    nothing changed on the service's side, and a token was to be had if the
    call returned. *)
Definition listing_post {A} (w : world) (out : result A * world) : Prop :=
  same_remote w (snd out)
  /\ (forall a, fst out = Ok a -> exists t, token_service w = Ok t).

(** Unfolding of the monad's operations. *)
Ltac run := unfold bind, ret, raise, gets, modify, try_except in *.

(** A world in which a token is to be had and no request fails. *)
Definition healthy (w : world) : Prop :=
  (exists t, token_service w = Ok t) /\ forall method p, http_fault w method p = None.

(** The zone [r] is the first of the zones with the most dots among those
    the domain ends with, and has one dot at least. *)
Definition first_most_specific (domain : string) (zones : list string) (r : string) : Prop :=
  exists before after,
    zones = before ++ r :: after
    /\ Py.endswith domain r = true
    /\ 0 < Py.count "." r
    /\ (forall z, In z before -> Py.endswith domain z = true ->
          Py.count "." z < Py.count "." r)
    /\ (forall z, In z after -> Py.endswith domain z = true ->
          Py.count "." z <= Py.count "." r).

(** Two worlds the zone listing cannot tell apart. *)
Definition same_service (w w' : world) : Prop :=
  token_service w = token_service w'
  /\ remote_zones w = remote_zones w'
  /\ http_fault w = http_fault w'.

(** Two runs that return the same and end in worlds related by [R]. *)
Definition agree {A} (R : world -> world -> Prop) (x y : result A * world) : Prop :=
  fst x = fst y /\ R (snd x) (snd y).

(** The name [get_authorizations] asks the CNAME of, for a domain. *)
Definition challenge_name (domain : string) : string :=
  validation_domain_name (fst (AcmeHandlers.strip_wildcard domain)).

(** A record as [get_authorizations] makes it for one of [domains]: its
    target is its domain, or, with delegation enabled, the first target of an
    answer to the CNAME query for the challenge name of its domain, without
    the trailing dots and not empty; its challenges are the DNS-01 challenges
    of the order selected for its domain. *)
Definition record_of_order (ACME_ENABLE_DELEGATED_CNAME : bool)
    (cname_answers : string -> nat -> cname_response) (order : Order.t)
    (domains : list string) (authz_record : AuthorizationRecord.t) : Prop :=
  In (AuthorizationRecord.domain authz_record) domains
  /\ (AuthorizationRecord.target_domain authz_record = AuthorizationRecord.domain authz_record
      \/ (ACME_ENABLE_DELEGATED_CNAME = true
          /\ AuthorizationRecord.target_domain authz_record <> ""
          /\ exists i target others,
               cname_answers (challenge_name (AuthorizationRecord.domain authz_record)) i
               = CnameAnswer (target :: others)
               /\ AuthorizationRecord.target_domain authz_record = Py.rstrip "." target))
  /\ AuthorizationRecord.dns_challenge authz_record
     = AcmeHandlers.get_dns_challenges (AuthorizationRecord.domain authz_record)
         (Order.authorizations order)
  /\ AuthorizationRecord.dns_challenge authz_record <> []
  /\ AuthorizationRecord.authz authz_record = Order.authorizations order.

(** A lookup state for the examples: no CNAME query made yet. *)
Definition no_lookups (h : handler_state) : lookup_state :=
  {| handler := h; cname_queries := [] |}.

(** An order for [foo.example.com] with one DNS-01 challenge, a resolver in
    which the challenge name of [foo.example.com] is an alias of
    [foo.validation.example.net], and the record [get_authorizations] makes
    of them. *)
Definition example_order : Order.t :=
  {| Order.uri := "https://acme.example/order/1";
     Order.authorizations := [authz_for "foo.example.com" false ["T1"]] |}.

Definition delegating_answers (name : string) (i : nat) : cname_response :=
  if String.eqb name "_acme-challenge.foo.example.com"
  then CnameAnswer ["foo.validation.example.net."]
  else CnameException.

Definition delegated_record : AuthorizationRecord.t :=
  {| AuthorizationRecord.domain := "foo.example.com";
     AuthorizationRecord.target_domain := "foo.validation.example.net";
     AuthorizationRecord.authz := [authz_for "foo.example.com" false ["T1"]];
     AuthorizationRecord.dns_challenge := [dns01 "T1"];
     AuthorizationRecord.change_id := [("foo.validation.example.net", "T1")] |}.

(** The calls a handler method makes, whatever its outcome: run by a
    handler whose object is [a], the computation leaves the object as it is
    and adds to the calls made a first part of [expected], all of it when it
    returns. *)
Definition trace_within {A} (a : AcmeDnsHandler) (expected : list external_call)
    (m : M handler_state A) : Prop :=
  forall h, self h = a ->
    self (snd (m h)) = a
    /\ exists made,
         calls (snd (m h)) = calls h ++ made
         /\ made `prefix_of` expected
         /\ (forall r, fst (m h) = Ok r -> made = expected).

(** A computation that makes no call and leaves the handler object alone. *)
Definition silent {A} (m : M handler_state A) : Prop :=
  forall h, self (snd (m h)) = self h /\ calls (snd (m h)) = calls h.

(** The creation calls [start_dns_challenge] owes to its arguments. *)
Definition creations_of (acme_client : AcmeClient.t) (account_number : option string)
    (domain target_domain : string) (dns_provider : provider_module) (order : Order.t)
    (dns_provider_options : option (gmap string string)) : list external_call :=
  map (fun target => CreateTxtRecord dns_provider (fst target) (snd target) account_number)
      (record_targets (AcmeClient.key acme_client) (negb (String.eqb domain target_domain))
         (AcmeHandlers.maybe_add_extension
            (fst (AcmeHandlers.strip_wildcard target_domain)) dns_provider_options)
         (AcmeHandlers.get_dns_challenges domain (Order.authorizations order))).

(** The polls [complete_dns_challenge] owes to one record and one provider. *)
Definition polls_of (authz_record : AuthorizationRecord.t) (dns_provider : DnsProvider.t)
    : list external_call :=
  match DnsProvider.credentials dns_provider,
        AcmeHandlers.provider_types !! DnsProvider.provider_type dns_provider with
  | Some dns_provider_options, Some plugin =>
      map (fun change_id =>
             WaitForDnsChange plugin change_id (dns_provider_options !! "account_id"))
          (AuthorizationRecord.change_id authz_record)
  | _, _ => []
  end.

(** The answer it owes to them: the last challenge of the record, when that
    one verifies. *)
Definition answer_of (acme_client : AcmeClient.t) (authz_record : AuthorizationRecord.t)
    (dns_provider : DnsProvider.t) : list external_call :=
  match DnsProvider.credentials dns_provider,
        AcmeHandlers.provider_types !! DnsProvider.provider_type dns_provider,
        last (AuthorizationRecord.dns_challenge authz_record) with
  | Some _, Some _, Some dns_challenge =>
      if ChallengeBody.simple_verify dns_challenge (AcmeClient.key acme_client)
           (AuthorizationRecord.target_domain authz_record)
      then [AnswerChallenge
              (ChallengeBody.validation dns_challenge (AcmeClient.key acme_client))]
      else []
  | _, _, _ => []
  end.

Definition completions_of (acme_client : AcmeClient.t) (handler : AcmeDnsHandler)
    (authz_record : AuthorizationRecord.t) : list external_call :=
  flat_map (fun dns_provider =>
              polls_of authz_record dns_provider
              ++ answer_of acme_client authz_record dns_provider)
           (providers_of handler authz_record).

(** The deletion [finalize_authorizations] owes to one record, one challenge
    of it and one provider: the host is computed from the target for every
    challenge. *)
Definition final_deletion_of (acme_client : AcmeClient.t)
    (authz_record : AuthorizationRecord.t) (dns_challenge : ChallengeBody.t)
    (dns_provider : DnsProvider.t) : list external_call :=
  match AcmeHandlers.provider_types !! DnsProvider.provider_type dns_provider,
        DnsProvider.credentials dns_provider with
  | Some plugin, Some dns_provider_options =>
      let host :=
        AcmeHandlers.maybe_add_extension
          (fst (AcmeHandlers.strip_wildcard (AuthorizationRecord.target_domain authz_record)))
          (Some dns_provider_options) in
      [DeleteTxtRecord plugin (AuthorizationRecord.change_id authz_record)
         (dns_provider_options !! "account_id")
         (if delegated authz_record then host else validation_domain_name host)
         (ChallengeBody.validation dns_challenge (AcmeClient.key acme_client))]
  | _, _ => []
  end.

Definition final_deletions_of (acme_client : AcmeClient.t) (handler : AcmeDnsHandler)
    (authz_record : AuthorizationRecord.t) : list external_call :=
  flat_map (fun dns_challenge =>
              flat_map (final_deletion_of acme_client authz_record dns_challenge)
                       (providers_of handler authz_record))
           (AuthorizationRecord.dns_challenge authz_record).

(** [n] dots. *)
Fixpoint dots (n : nat) : string :=
  match n with
  | 0 => EmptyString
  | S n' => String "." (dots n')
  end.

(** An UltraDNS account whose options tell the handler to put the challenges
    of its domains under [acme.example.net], a handler that has resolved
    [foo.example.com] to it, and the record [get_authorizations] makes for
    [foo.example.com] with it. *)
Definition extension_account : DnsProvider.t :=
  {| DnsProvider.provider_type := "ultradns";
     DnsProvider.credentials := Some {[ "account_id" := "1" ]};
     DnsProvider.domains := ["example.com"];
     DnsProvider.options := Some {[ "acme_challenge_extension" := ".acme.example.net" ]} |}.

Definition extension_handler (w : world) : handler_state :=
  {| self := {| dns_providers_for_domain := {[ "foo.example.com" := [extension_account] ]};
                all_dns_providers := [extension_account] |};
     calls := [];
     env := w |}.

Definition extension_record : AuthorizationRecord.t :=
  {| AuthorizationRecord.domain := "foo.example.com";
     AuthorizationRecord.target_domain := "foo.example.com";
     AuthorizationRecord.authz := [authz_for "foo.example.com" false ["T1"]];
     AuthorizationRecord.dns_challenge := [dns01 "T1"];
     AuthorizationRecord.change_id :=
       [("_acme-challenge.foo.example.com.acme.example.net", "T1")] |}.

(** A world whose token request fails. *)
Definition with_token_failure (e : exn) (w : world) : world :=
  {| token_service := Raise e; remote_zones := remote_zones w;
     rrsets := rrsets w; http_fault := http_fault w; http_log := http_log w;
     resolver := resolver w; dns_queries := dns_queries w; slept := slept w;
     metrics := metrics w; sentry := sentry w; log := log w |}.

(** A record with two DNS-01 challenges for [foo.example.com]. *)
Definition two_challenge_record : AuthorizationRecord.t :=
  {| AuthorizationRecord.domain := "foo.example.com";
     AuthorizationRecord.target_domain := "foo.example.com";
     AuthorizationRecord.authz := [authz_for "foo.example.com" false ["T1"; "T2"]];
     AuthorizationRecord.dns_challenge := [dns01 "T1"; dns01 "T2"];
     AuthorizationRecord.change_id :=
       [("_acme-challenge.foo.example.com", "T1");
        ("_acme-challenge._acme-challenge.foo.example.com", "T2")] |}.

(** * Properties *)

(** ** Facts about the string operations *)

Lemma endswith_refl s : Py.endswith s s = true.
Proof. destruct s; cbn [Py.endswith]; rewrite String.eqb_refl; reflexivity. Qed.

Lemma endswith_spec s t :
  Py.endswith s t = true <-> exists p, s = p +:+ t.
Proof.
  split.
  - induction s as [|a s IH]; cbn [Py.endswith].
    + destruct (String.eqb_spec EmptyString t) as [<-|]; [|discriminate].
      intros _. exists EmptyString. reflexivity.
    + destruct (String.eqb_spec (String a s) t) as [<-|].
      * intros _. exists EmptyString. reflexivity.
      * intros H. destruct (IH H) as [p ->]. exists (String a p). reflexivity.
  - intros [p ->]. induction p as [|a p IH].
    + apply endswith_refl.
    + change (String a p +:+ t) with (String a (p +:+ t)). cbn [Py.endswith].
      destruct (String.eqb (String a (p +:+ t)) t); [reflexivity | exact IH].
Qed.

Lemma count_app c s t : Py.count c (s +:+ t) = Py.count c s + Py.count c t.
Proof. induction s as [|a s IH]; simpl; [reflexivity | rewrite IH; lia]. Qed.

Lemma split_nonempty sep s : Py.split sep s <> [].
Proof.
  destruct s as [|a s]; simpl; [discriminate|].
  destruct (Ascii.eqb a sep); [discriminate|].
  destruct (Py.split sep s); discriminate.
Qed.

(** The number of pieces [split] makes is one more than the number of
    separators. *)
Lemma split_length sep s : length (Py.split sep s) = S (Py.count sep s).
Proof.
  induction s as [|a s IH]; simpl; [reflexivity|].
  destruct (Ascii.eqb a sep); simpl; [rewrite IH; reflexivity|].
  destruct (Py.split sep s) as [|piece pieces] eqn:E; simpl in *; [discriminate | exact IH].
Qed.

Lemma remove_None x l : Py.remove x l = None <-> ~ In x l.
Proof.
  induction l as [|y l IH]; simpl.
  - split; [intros _ [] | reflexivity].
  - destruct (String.eqb_spec y x) as [->|Hne].
    + split; [discriminate | intros H; exfalso; apply H; left; reflexivity].
    + destruct (Py.remove x l).
      * split; [discriminate|]. intros H. exfalso.
        assert (Hn : ~ In x l) by (intros Hin; apply H; right; exact Hin).
        apply IH in Hn. discriminate.
      * split; [|reflexivity]. intros _ [Heq|Hin]; [congruence|].
        destruct IH as [IH1 _]. exact (IH1 eq_refl Hin).
Qed.

Lemma remove_Some x l r :
  Py.remove x l = Some r ->
  exists l1 l2, l = l1 ++ x :: l2 /\ r = l1 ++ l2 /\ ~ In x l1.
Proof.
  revert r. induction l as [|y l IH]; simpl; [discriminate|]. intros r.
  destruct (String.eqb_spec y x) as [->|Hne].
  - intros [= <-]. exists [], l. simpl. auto.
  - destruct (Py.remove x l) as [r'|]; [|discriminate]. intros [= <-].
    destruct (IH r' eq_refl) as (l1 & l2 & -> & -> & Hn).
    exists (y :: l1), l2. simpl. repeat split; try reflexivity.
    intros [Heq|Hin]; [congruence | exact (Hn Hin)].
Qed.

Lemma labels_count z : labels z = S (Py.count "." z).
Proof. apply split_length. Qed.

(** ** The zone matcher: [get_zone_name] *)

Lemma most_specific_spec domain zones : forall zone_name,
  let r := Ultradns.most_specific domain zones zone_name in
  (r = zone_name \/ (In r zones /\ Py.endswith domain r = true))
  /\ Py.count "." zone_name <= Py.count "." r
  /\ (forall z, In z zones -> Py.endswith domain z = true ->
        Py.count "." z <= Py.count "." r).
Proof.
  induction zones as [|z zones IH]; intros zone_name; cbn [Ultradns.most_specific].
  - cbn zeta. split; [left; reflexivity|]. split; [lia|]. intros z [].
  - destruct (Py.endswith domain z) eqn:Hz; cbn [andb].
    + destruct (Nat.ltb_spec (Py.count "." zone_name) (Py.count "." z)) as [Hlt|Hge].
      * specialize (IH z). cbn zeta in IH. destruct IH as (Hr & Hle & Hall).
        split; [|split].
        -- right. destruct Hr as [->|[Hin He]]; [split; [left; reflexivity | exact Hz]|].
           split; [right; exact Hin | exact He].
        -- lia.
        -- intros z' [<-|Hin] He; [exact Hle | exact (Hall z' Hin He)].
      * specialize (IH zone_name). cbn zeta in IH. destruct IH as (Hr & Hle & Hall).
        split; [|split].
        -- destruct Hr as [->|[Hin He]]; [left; reflexivity|].
           right. split; [right; exact Hin | exact He].
        -- exact Hle.
        -- intros z' [<-|Hin] He; [lia | exact (Hall z' Hin He)].
    + specialize (IH zone_name). cbn zeta in IH. destruct IH as (Hr & Hle & Hall).
      split; [|split].
      * destruct Hr as [->|[Hin He]]; [left; reflexivity|].
        right. split; [right; exact Hin | exact He].
      * exact Hle.
      * intros z' [<-|Hin] He; [congruence | exact (Hall z' Hin He)].
Qed.

Lemma get_zone_name_unfold domain account_number w zones w1 :
  Ultradns.get_zones account_number w = (Ok zones, w1) ->
  Ultradns.get_zone_name domain account_number w =
    (if String.eqb (Ultradns.most_specific domain zones "") ""
     then (Raise (Ultradns.no_zone_found domain),
           set_metrics (fun l => l ++ ["ultradns_no_zone_name"]) w1)
     else (Ok (Ultradns.most_specific domain zones ""), w1)).
Proof.
  intros Hz. unfold Ultradns.get_zone_name, bind. rewrite Hz.
  destruct (String.eqb (Ultradns.most_specific domain zones "") ""); reflexivity.
Qed.

(** C1 fails on the code.  [get_zone_name] tests [domain.endswith(z)] and
    nothing else, so a zone matches a domain that merely ends with its
    letters.  With the single zone [example.com], no zone is a suffix of
    [badexample.com] in the stated sense (equal to it, or after a dot in it),
    and yet [example.com] is returned where the claim has the lookup fail.
    With the zones [example.com] and [badexample.com], the only zone that is
    such a suffix of [_acme-challenge.badexample.com] is [badexample.com], and
    yet [example.com] is returned, and [create_txt_record] writes the token
    into the zone [example.com], at [_acme-challenge.example.com]. *)
Theorem get_zone_name_ignores_label_boundary :
  (Ultradns.get_zones None (quiet_world ["example.com"])
   = (Ok ["example.com"], snd (Ultradns.get_zones None (quiet_world ["example.com"])))
   /\ (forall z, In z ["example.com"] ->
         AcmeHandlers.owns_suffix z "badexample.com" = false)
   /\ fst (Ultradns.get_zone_name "badexample.com" None (quiet_world ["example.com"]))
      = Ok "example.com")
  /\ (fst (Ultradns.get_zones None (quiet_world ["example.com"; "badexample.com"]))
      = Ok ["example.com"; "badexample.com"]
      /\ (forall z, In z ["example.com"; "badexample.com"] ->
            AcmeHandlers.owns_suffix z "_acme-challenge.badexample.com" = true ->
            z = "badexample.com")
      /\ AcmeHandlers.owns_suffix "badexample.com" "_acme-challenge.badexample.com" = true
      /\ fst (Ultradns.get_zone_name "_acme-challenge.badexample.com" None
                (quiet_world ["example.com"; "badexample.com"]))
         = Ok "example.com"
      /\ rrsets (snd (Ultradns.create_txt_record "_acme-challenge.badexample.com" "T1" None
                        (quiet_world ["example.com"; "badexample.com"])))
         !! ("example.com", "_acme-challenge") = Some ["T1"]
      /\ rrsets (snd (Ultradns.create_txt_record "_acme-challenge.badexample.com" "T1" None
                        (quiet_world ["example.com"; "badexample.com"])))
         !! ("badexample.com", "_acme-challenge") = None).
Proof.
  split.
  - split; [reflexivity|]. split; [|reflexivity].
    intros z [<-|[]]. reflexivity.
  - split; [reflexivity|]. split; [|split; [reflexivity|]].
    + intros z [<-|[<-|[]]] H; [discriminate H | reflexivity].
    + split; [reflexivity|]. split; vm_compute; reflexivity.
Qed.

(** ** The REST helpers and the zone listing *)

Lemma same_remote_refl w : same_remote w w.
Proof. repeat split. Qed.

Lemma same_remote_trans w1 w2 w3 :
  same_remote w1 w2 -> same_remote w2 w3 -> same_remote w1 w3.
Proof.
  intros (A1 & A2 & A3 & A4) (B1 & B2 & B3 & B4).
  repeat split; congruence.
Qed.

Lemma _get_unfold p params w :
  Ultradns._get p params w =
  match token_service w with
  | Ok _ =>
      match http_fault w GET p with
      | Some e => (Raise e, set_http_log (fun l => l ++ [(GET, p)]) w)
      | None => Ultradns.serve_get p params (set_http_log (fun l => l ++ [(GET, p)]) w)
      end
  | Raise e => (Raise e, w)
  end.
Proof.
  unfold Ultradns._get, Ultradns._generate_header, Ultradns.get_ultradns_token,
    Ultradns.send. run.
  destruct (token_service w); [|reflexivity].
  destruct (http_fault w GET p); reflexivity.
Qed.

Lemma _delete_unfold p w :
  Ultradns._delete p w =
  match token_service w with
  | Ok _ =>
      match http_fault w DELETE p with
      | Some e => (Raise e, set_http_log (fun l => l ++ [(DELETE, p)]) w)
      | None => Ultradns.serve_delete p (set_http_log (fun l => l ++ [(DELETE, p)]) w)
      end
  | Raise e => (Raise e, w)
  end.
Proof.
  unfold Ultradns._delete, Ultradns._generate_header, Ultradns.get_ultradns_token,
    Ultradns.send. run.
  destruct (token_service w); [|reflexivity].
  destruct (http_fault w DELETE p); reflexivity.
Qed.

Lemma _post_unfold p params w :
  Ultradns._post p params w =
  match token_service w with
  | Ok _ =>
      match http_fault w POST p with
      | Some e => (Raise e, set_http_log (fun l => l ++ [(POST, p)]) w)
      | None => Ultradns.serve_post p params (set_http_log (fun l => l ++ [(POST, p)]) w)
      end
  | Raise e => (Raise e, w)
  end.
Proof.
  unfold Ultradns._post, Ultradns._generate_header, Ultradns.get_ultradns_token,
    Ultradns.send. run.
  destruct (token_service w); [|reflexivity].
  destruct (http_fault w POST p); reflexivity.
Qed.

Lemma same_remote_bind {A B} (m : M world A) (k : A -> M world B) w :
  same_remote w (snd (m w)) ->
  (forall a w1, m w = (Ok a, w1) -> same_remote w1 (snd (k a w1))) ->
  same_remote w (snd (bind m k w)).
Proof.
  intros Hm Hk. unfold bind. destruct (m w) as [[a|e] w1]; cbn [snd] in *.
  - exact (same_remote_trans _ _ _ Hm (Hk a w1 eq_refl)).
  - exact Hm.
Qed.

Lemma listing_post_bind {A B} (m : M world A) (k : A -> M world B) w :
  listing_post w (m w) ->
  (forall a w1, m w = (Ok a, w1) -> same_remote w1 (snd (k a w1))) ->
  listing_post w (bind m k w).
Proof.
  intros [Hm Ht] Hk. unfold listing_post, bind.
  destruct (m w) as [[a|e] w1]; cbn [fst snd] in *.
  - split; [exact (same_remote_trans _ _ _ Hm (Hk a w1 eq_refl))|].
    intros _ _. exact (Ht a eq_refl).
  - split; [exact Hm | intros b [=]].
Qed.

Lemma _get_zones_post params w :
  listing_post w (Ultradns._get zones_path params w).
Proof.
  unfold listing_post. rewrite _get_unfold.
  destruct (token_service w) as [t|e] eqn:Ht.
  - destruct (http_fault w GET zones_path); cbn.
    + split; [repeat split; assumption | intros resp [=]].
    + destruct params as [[o l]|]; cbn; (split; [repeat split; assumption | eauto]).
  - cbn. split; [repeat split; assumption | intros resp [=]].
Qed.

Lemma same_remote_match_json {A} (resp : json) (f : nat -> list Zone.t -> M world A)
    (g : list string -> M world A) w :
  (forall n zs, same_remote w (snd (f n zs w))) ->
  (forall rd, same_remote w (snd (g rd w))) ->
  same_remote w (snd (match resp with
                      | ZonesPage n zs => f n zs
                      | RRSets rd => g rd
                      end w)).
Proof. intros Hf Hg. destruct resp; [apply Hf | apply Hg]. Qed.

Lemma map_m_pages_frame indices : forall w,
  same_remote w
    (snd (map_m (fun index =>
                   resp <- Ultradns._get zones_path (Some (index, 100));;
                   match resp with
                   | ZonesPage _ zones => ret zones
                   | RRSets _ => raise (KeyError "zones")
                   end) indices w)).
Proof.
  induction indices as [|i indices IH]; intros w; cbn [map_m].
  - apply same_remote_refl.
  - apply same_remote_bind.
    + apply same_remote_bind; [apply _get_zones_post|].
      intros resp w1 _. apply same_remote_match_json; intros; apply same_remote_refl.
    + intros zs w1 _. apply same_remote_bind; [apply IH|].
      intros ys w2 _. apply same_remote_refl.
Qed.

Lemma get_zones_post account_number w :
  listing_post w (Ultradns.get_zones account_number w).
Proof.
  unfold Ultradns.get_zones, Ultradns._paginate.
  apply listing_post_bind.
  - apply listing_post_bind; [apply _get_zones_post|].
    intros resp w1 _. apply same_remote_match_json; intros.
    + apply map_m_pages_frame.
    + apply same_remote_refl.
  - intros pages w1 _. apply same_remote_refl.
Qed.

Lemma get_zone_name_post domain account_number w :
  listing_post w (Ultradns.get_zone_name domain account_number w).
Proof.
  unfold Ultradns.get_zone_name.
  apply listing_post_bind; [apply get_zones_post|].
  intros zones w1 _.
  destruct (String.eqb (Ultradns.most_specific domain zones "") "").
  - repeat split.
  - apply same_remote_refl.
Qed.

(** Pages of [limit] items, one per index of the range, make up the list. *)
Lemma chunks_concat {A} (k : nat) : forall c (zs : list A),
  length zs <= c * k ->
  concat (map (fun i => firstn k (skipn (i * k) zs)) (seq 0 c)) = zs.
Proof.
  induction c as [|c IH]; intros zs Hlen.
  - destruct zs; [reflexivity | cbn in Hlen; lia].
  - cbn [seq map concat]. rewrite <- seq_shift, map_map.
    cbn [Nat.mul Nat.add skipn].
    rewrite (map_ext _ (fun i => firstn k (skipn (i * k) (skipn k zs)))).
    + rewrite IH; [apply firstn_skipn|].
      rewrite length_skipn. cbn in Hlen. lia.
    + intros i. rewrite skipn_skipn. f_equal. f_equal. cbn. lia.
Qed.

Lemma range_step_chunks {A} (k : nat) (zs : list A) :
  0 < k ->
  concat (map (fun i => firstn k (skipn i zs)) (Py.range_step (length zs) k)) = zs.
Proof.
  intros Hk. unfold Py.range_step. rewrite map_map. apply chunks_concat.
  pose proof (Nat.div_mod_eq (length zs + k - 1) k) as Hd.
  pose proof (Nat.mod_upper_bound (length zs + k - 1) k ltac:(lia)) as Hm.
  nia.
Qed.

Lemma _get_zones_healthy t o l w :
  token_service w = Ok t ->
  http_fault w GET zones_path = None ->
  Ultradns._get zones_path (Some (o, l)) w
  = (Ok (ZonesPage (length (remote_zones w)) (firstn l (skipn o (remote_zones w)))),
     set_http_log (fun lg => lg ++ [(GET, zones_path)]) w).
Proof. intros Ht Hf. rewrite _get_unfold, Ht, Hf. reflexivity. Qed.

Lemma map_m_pages_healthy t indices : forall w,
  token_service w = Ok t ->
  http_fault w GET zones_path = None ->
  fst (map_m (fun index =>
                resp <- Ultradns._get zones_path (Some (index, 100));;
                match resp with
                | ZonesPage _ zones => ret zones
                | RRSets _ => raise (KeyError "zones")
                end) indices w)
  = Ok (map (fun i => firstn 100 (skipn i (remote_zones w))) indices).
Proof.
  induction indices as [|i indices IH]; intros w Ht Hf; cbn [map_m map].
  - reflexivity.
  - unfold bind at 1. unfold bind at 1.
    rewrite (_get_zones_healthy t _ _ _ Ht Hf). cbn [ret].
    specialize (IH (set_http_log (fun lg => lg ++ [(GET, zones_path)]) w) Ht Hf).
    unfold bind.
    destruct (map_m _ indices _) as [[ys|e] w2]; cbn [fst] in IH |- *;
      [|discriminate].
    injection IH as ->. reflexivity.
Qed.

Lemma collect_zones_concat pages :
  Ultradns.collect_zones pages
  = flat_map (fun zone => if Ultradns.eligible zone then [Zone.name zone] else [])
             (concat pages).
Proof.
  unfold Ultradns.collect_zones.
  induction pages as [|page pages IH]; cbn [flat_map concat]; [reflexivity|].
  rewrite flat_map_app, IH. reflexivity.
Qed.

(** With a token to be had and no fault on the listing, [get_zones] returns
    the names of the primary, active zones of the account, in the order of
    the listing, however many pages it takes. *)
Lemma get_zones_healthy t account_number w :
  token_service w = Ok t ->
  http_fault w GET zones_path = None ->
  fst (Ultradns.get_zones account_number w)
  = Ok (flat_map (fun zone => if Ultradns.eligible zone then [Zone.name zone] else [])
                 (remote_zones w)).
Proof.
  intros Ht Hf. unfold Ultradns.get_zones, Ultradns._paginate.
  unfold bind at 1. unfold bind at 1.
  rewrite (_get_zones_healthy t _ _ _ Ht Hf).
  pose proof (map_m_pages_healthy t (Py.range_step (length (remote_zones w)) 100)
                (set_http_log (fun lg => lg ++ [(GET, zones_path)]) w) Ht Hf) as Hm.
  destruct (map_m _ _ _) as [[pages|e] w2]; cbn [fst] in Hm |- *; [|discriminate].
  injection Hm as ->. cbn [ret fst]. f_equal.
  rewrite collect_zones_concat. f_equal.
  exact (range_step_chunks 100 (remote_zones w) ltac:(lia)).
Qed.

(** ** Record-set deletion: [delete_txt_record] *)

Lemma remove_app x l1 l2 :
  ~ In x l1 -> Py.remove x (l1 ++ x :: l2) = Some (l1 ++ l2).
Proof.
  induction l1 as [|y l1 IH]; intros Hn; cbn.
  - rewrite String.eqb_refl. reflexivity.
  - destruct (String.eqb_spec y x) as [->|Hne].
    + exfalso. apply Hn. left. reflexivity.
    + rewrite IH; [reflexivity|]. intros Hin. apply Hn. right. exact Hin.
Qed.

(** [delete_txt_record] once the zone is known: what is left to run. *)
Lemma delete_txt_record_unfold change_id account_number domain token w zone w1 :
  domain <> "" ->
  Ultradns.get_zone_name domain account_number w = (Ok zone, w1) ->
  Ultradns.delete_txt_record change_id account_number domain token w
  = (let p := rrsets_path zone "16" (Ultradns.node_name_of domain zone) in
     fetched <- try_except
       (rrsets <- Ultradns._get p None;;
        ret (Some {| UltraRecord.data := rrsets |}))
       (fun e => metrics_send "delete_txt_record_geterror";; ret None);;
     match fetched with
     | None => ret tt
     | Some record =>
         match UltraRecord.rdata record with
         | Raise e => raise e
         | Ok rdata =>
             match Py.remove token rdata with
             | None => logger_debug "Token not found"
             | Some rdata =>
                 Ultradns._delete p;;
                 if (0 <? length rdata)%nat then Ultradns._post p (5, rdata) else ret tt
             end
         end
     end) w1.
Proof.
  intros Hd Hz. unfold Ultradns.delete_txt_record.
  destruct (String.eqb_spec domain "") as [->|_]; [contradiction|].
  unfold bind at 1. rewrite Hz. reflexivity.
Qed.

Lemma serve_get_rrset zone node params w :
  Ultradns.serve_get (rrsets_path zone "16" node) params w
  = match rrsets w !! (zone, node) with
    | Some values => (Ok (RRSets values), w)
    | None => (Raise (HTTPError 404), w)
    end.
Proof. reflexivity. Qed.

Lemma serve_delete_rrset zone node w :
  Ultradns.serve_delete (rrsets_path zone "16" node) w
  = match rrsets w !! (zone, node) with
    | Some _ => (Ok tt, set_rrsets (delete (zone, node)) w)
    | None => (Raise (HTTPError 404), w)
    end.
Proof. reflexivity. Qed.

Lemma serve_post_fresh zone rrtype node params w :
  Ultradns.is_txt rrtype = true ->
  rrsets w !! (zone, node) = None ->
  Ultradns.serve_post (rrsets_path zone rrtype node) params w
  = (Ok tt, set_rrsets (insert (zone, node) (snd params)) w).
Proof. intros Ht Hn. unfold Ultradns.serve_post. rewrite Ht, Hn. reflexivity. Qed.

(** The last two requests of [delete_txt_record], when neither fails: the
    set goes, and comes back when values are left. *)
Lemma delete_then_post t zone node rest old w :
  token_service w = Ok t ->
  http_fault w DELETE (rrsets_path zone "16" node) = None ->
  http_fault w POST (rrsets_path zone "16" node) = None ->
  rrsets w !! (zone, node) = Some old ->
  let out := (Ultradns._delete (rrsets_path zone "16" node);;
              if (0 <? length rest)%nat
              then Ultradns._post (rrsets_path zone "16" node) (5, rest)
              else ret tt) w in
  fst out = Ok tt
  /\ (rest = [] ->
      rrsets (snd out) = delete (zone, node) (rrsets w)
      /\ http_log (snd out) = http_log w ++ [(DELETE, rrsets_path zone "16" node)])
  /\ (rest <> [] ->
      rrsets (snd out) = <[(zone, node) := rest]> (rrsets w)
      /\ http_log (snd out)
         = http_log w ++ [(DELETE, rrsets_path zone "16" node);
                          (POST, rrsets_path zone "16" node)]).
Proof.
  intros Ht Hd Hp Hl. cbn zeta. unfold bind.
  rewrite _delete_unfold, Ht, Hd, serve_delete_rrset.
  cbn [rrsets set_http_log]. rewrite Hl.
  destruct rest as [|v rest]; cbn [length Nat.ltb Nat.leb].
  - cbn. split; [reflexivity|]. split; [intros _; split; reflexivity | congruence].
  - rewrite _post_unfold. cbn [token_service http_fault set_rrsets set_http_log].
    rewrite Ht, Hp.
    rewrite serve_post_fresh; [|reflexivity|cbn; apply lookup_delete_eq].
    cbn. split; [reflexivity|]. split; [congruence|]. intros _.
    split; [apply insert_delete_eq | rewrite <- app_assoc; reflexivity].
Qed.

(** C7.  Once the zone of the domain is found, [delete_txt_record] acts on the
    record set at (zone, node name) as follows.  A token that is not in the
    set (or a set that is not there) is left alone and is no error.  When no
    request fails: deleting the only value removes the record set with one
    DELETE, and no POST creates it again; deleting one value of several
    removes the set and creates it again with exactly the other values, in
    their order. *)
Theorem delete_txt_record_record_set change_id account_number domain token w zone w1 :
  domain <> "" ->
  Ultradns.get_zone_name domain account_number w = (Ok zone, w1) ->
  let key := (zone, Ultradns.node_name_of domain zone) in
  let p := rrsets_path zone "16" (Ultradns.node_name_of domain zone) in
  let out := Ultradns.delete_txt_record change_id account_number domain token w in
  ((forall rdata, rrsets w !! key = Some rdata -> ~ In token rdata) ->
   fst out = Ok tt /\ rrsets (snd out) = rrsets w)
  /\ (http_fault w GET p = None -> http_fault w DELETE p = None ->
      http_fault w POST p = None ->
      (rrsets w !! key = Some [token] ->
       fst out = Ok tt
       /\ rrsets (snd out) = delete key (rrsets w)
       /\ http_log (snd out) = http_log w1 ++ [(GET, p); (DELETE, p)])
      /\ (forall before after,
            rrsets w !! key = Some (before ++ token :: after) ->
            ~ In token before -> before ++ after <> [] ->
            fst out = Ok tt
            /\ rrsets (snd out) = <[key := before ++ after]> (rrsets w)
            /\ http_log (snd out) = http_log w1 ++ [(GET, p); (DELETE, p); (POST, p)])).
Proof.
  intros Hd Hz key p out.
  destruct (get_zone_name_post domain account_number w) as [Hsame Htok].
  rewrite Hz in Hsame, Htok. cbn [fst snd] in Hsame, Htok.
  destruct (Htok zone eq_refl) as [t Ht].
  destruct Hsame as (Ht1 & _ & Hrr & Hfl).
  rewrite Ht in Ht1.
  assert (Hout : out = Ultradns.delete_txt_record change_id account_number domain token w)
    by reflexivity.
  rewrite (delete_txt_record_unfold _ _ _ _ _ _ _ Hd Hz) in Hout.
  cbn zeta in Hout. fold p in Hout.
  unfold bind at 1 in Hout. unfold try_except in Hout. unfold bind at 1 in Hout.
  rewrite _get_unfold, Ht1, Hfl in Hout.
  unfold p in Hout. rewrite serve_get_rrset in Hout. fold key p in Hout.
  cbn [rrsets set_http_log] in Hout. rewrite Hrr in Hout.
  split.
  - intros Hnot. rewrite Hout. clear Hout out.
    destruct (http_fault w GET p) as [e|].
    + cbn. split; [reflexivity | exact Hrr].
    + destruct (rrsets w !! key) as [rdata|] eqn:Hl.
      * cbn. specialize (Hnot rdata eq_refl). apply remove_None in Hnot. rewrite Hnot.
        cbn. split; [reflexivity | exact Hrr].
      * cbn. split; [reflexivity | exact Hrr].
  - intros Hg Hdel Hpost. rewrite Hg in Hout.
    assert (Hrun : forall rdata rest,
               rrsets w !! key = Some rdata -> Py.remove token rdata = Some rest ->
               out = (Ultradns._delete p;;
                      if (0 <? length rest)%nat then Ultradns._post p (5, rest) else ret tt)
                       (set_http_log (fun l => l ++ [(GET, p)]) w1)).
    { intros rdata rest Hl Hrm. rewrite Hout, Hl. cbn. rewrite Hrm. reflexivity. }
    assert (Hthen : forall rest old,
               rrsets w !! key = Some old ->
               let out' := (Ultradns._delete p;;
                            if (0 <? length rest)%nat then Ultradns._post p (5, rest)
                            else ret tt)
                             (set_http_log (fun l => l ++ [(GET, p)]) w1) in
               fst out' = Ok tt
               /\ (rest = [] ->
                   rrsets (snd out') = delete key (rrsets w)
                   /\ http_log (snd out') = http_log w1 ++ [(GET, p); (DELETE, p)])
               /\ (rest <> [] ->
                   rrsets (snd out') = <[key := rest]> (rrsets w)
                   /\ http_log (snd out')
                      = http_log w1 ++ [(GET, p); (DELETE, p); (POST, p)])).
    { intros rest old Hl.
      pose proof (delete_then_post t zone (Ultradns.node_name_of domain zone) rest old
                    (set_http_log (fun l => l ++ [(GET, p)]) w1)) as H.
      cbn [token_service http_fault rrsets http_log set_http_log] in H.
      rewrite Hfl, Hrr, <- !app_assoc in H. exact (H Ht1 Hdel Hpost Hl). }
    split.
    + intros Hl. rewrite (Hrun [token] [] Hl); [|cbn; rewrite String.eqb_refl; reflexivity].
      destruct (Hthen [] [token] Hl) as (Hok & Hlast & _).
      destruct (Hlast eq_refl) as [Hr Hlog]. auto.
    + intros before after Hl Hnot Hne.
      rewrite (Hrun _ _ Hl (remove_app token before after Hnot)).
      destruct (Hthen (before ++ after) _ Hl) as (Hok & _ & Hseveral).
      destruct (Hseveral Hne) as [Hr Hlog]. auto.
Qed.

(** Two challenges share the record set of [_acme-challenge.foo] in
    [example.com]; deleting the first leaves the set with the second. *)
Lemma delete_txt_record_record_set_witness :
  fst (Ultradns.delete_txt_record [] None "_acme-challenge.foo.example.com" "T1"
         (with_record_set "example.com" "_acme-challenge.foo" ["T1"; "T2"]
            (quiet_world ["example.com"])))
  = Ok tt
  /\ rrsets (snd (Ultradns.delete_txt_record [] None "_acme-challenge.foo.example.com" "T1"
                    (with_record_set "example.com" "_acme-challenge.foo" ["T1"; "T2"]
                       (quiet_world ["example.com"]))))
     = <[("example.com", "_acme-challenge.foo") := ["T2"]]>
         (rrsets (with_record_set "example.com" "_acme-challenge.foo" ["T1"; "T2"]
                    (quiet_world ["example.com"]))).
Proof.
  pose proof (delete_txt_record_record_set [] None "_acme-challenge.foo.example.com" "T1"
                (with_record_set "example.com" "_acme-challenge.foo" ["T1"; "T2"]
                   (quiet_world ["example.com"]))
                "example.com"
                (snd (Ultradns.get_zone_name "_acme-challenge.foo.example.com" None
                        (with_record_set "example.com" "_acme-challenge.foo" ["T1"; "T2"]
                           (quiet_world ["example.com"]))))
                ltac:(discriminate) eq_refl) as H.
  cbn zeta in H. destruct H as [_ H].
  destruct (H eq_refl eq_refl eq_refl) as [_ Hseveral].
  destruct (Hseveral [] ["T2"] eq_refl ltac:(intros []) ltac:(discriminate))
    as (Hok & Hrr & _).
  split; [exact Hok | exact Hrr].
Defined.

(** ** Record creation: [create_txt_record] *)

(** C8 (as amended).  [create_txt_record] raises exactly when the zone of the
    domain is not found (the listing fails, or no zone matches), with that
    exception.  Once the zone is found it returns the change id (fqdn, token)
    whatever becomes of the POST: any exception of the POST, a duplicate or
    not, is logged and dropped. *)
Theorem create_txt_record_outcomes domain token account_number w :
  (forall e w1,
     Ultradns.get_zone_name domain account_number w = (Raise e, w1) ->
     Ultradns.create_txt_record domain token account_number w = (Raise e, w1))
  /\ (forall zone w1,
        Ultradns.get_zone_name domain account_number w = (Ok zone, w1) ->
        let node := Ultradns.node_name_of domain zone in
        let posted := Ultradns._post (rrsets_path zone "TXT" node) (5, [token]) w1 in
        exists w2,
          Ultradns.create_txt_record domain token account_number w
          = (Ok (node +:+ "." +:+ zone, token), w2)
          /\ (fst posted = Ok tt ->
              w2 = set_log (fun l => l ++ ["TXT record created"]) (snd posted))
          /\ (forall e, fst posted = Raise e ->
                w2 = set_log (fun l => l ++ ["Unable to add record. Record already exists"])
                       (snd posted))).
Proof.
  split.
  - intros e w1 Hz. unfold Ultradns.create_txt_record. unfold bind at 1.
    rewrite Hz. reflexivity.
  - intros zone w1 Hz node posted. unfold Ultradns.create_txt_record.
    unfold bind at 1. rewrite Hz. cbn zeta. fold node. fold posted.
    unfold bind at 1. unfold try_except. unfold bind at 1. fold posted.
    destruct posted as [[[]|e] w2]; cbn.
    + eexists. split; [reflexivity|]. split; [reflexivity | intros e [=]].
    + eexists. split; [reflexivity|]. split; [intros [=] | intros e' _; reflexivity].
Qed.

(** C8 as stated fails: with the zone found and every POST answered by a
    server error, no record is created, and [create_txt_record] returns a
    change id instead of raising. *)
Lemma create_txt_record_swallows_server_error :
  http_fault (with_failing_posts (HTTPError 500) (quiet_world ["example.com"]))
    POST (rrsets_path "example.com" "TXT" "_acme-challenge.foo")
  = Some (HTTPError 500)
  /\ fst (Ultradns.create_txt_record "_acme-challenge.foo.example.com" "T1" None
            (with_failing_posts (HTTPError 500) (quiet_world ["example.com"])))
     = Ok ("_acme-challenge.foo.example.com", "T1")
  /\ rrsets (snd (Ultradns.create_txt_record "_acme-challenge.foo.example.com" "T1" None
                    (with_failing_posts (HTTPError 500) (quiet_world ["example.com"]))))
     = ∅.
Proof. repeat split; vm_compute; reflexivity. Qed.

(** ** The propagation poller: [wait_for_dns_change] *)

Lemma polled_refl ns name w : polled ns name 0 w w.
Proof.
  unfold polled. cbn. rewrite app_nil_r. repeat split.
  exists []. rewrite app_nil_r. reflexivity.
Qed.

Lemma polled_trans ns name n m w1 w2 w3 :
  polled ns name n w1 w2 -> polled ns name m w2 w3 -> polled ns name (n + m) w1 w3.
Proof.
  intros (A1 & A2 & A3 & A4 & A5 & s1 & A6) (B1 & B2 & B3 & B4 & B5 & s2 & B6).
  unfold polled. repeat split; try congruence.
  - rewrite B2, A2, repeat_app, app_assoc. reflexivity.
  - exists (s1 ++ s2). rewrite B6, A6, app_assoc. reflexivity.
Qed.

Lemma queries_to_polled ns name n w w' :
  polled ns name n w w' ->
  Ultradns.queries_to ns w' = Ultradns.queries_to ns w + n.
Proof.
  intros (_ & Hq & _). unfold Ultradns.queries_to. rewrite Hq, List.filter_app, length_app.
  f_equal. clear Hq. induction n as [|n IH]; cbn; [reflexivity|].
  rewrite String.eqb_refl. cbn. rewrite IH. reflexivity.
Qed.

Lemma queries_to_polled_other ns ns' name n w w' :
  ns <> ns' ->
  polled ns name n w w' ->
  Ultradns.queries_to ns' w' = Ultradns.queries_to ns' w.
Proof.
  intros Hne (_ & Hq & _). unfold Ultradns.queries_to. rewrite Hq, List.filter_app, length_app.
  assert (H : List.filter (fun q : string * string => String.eqb (fst q) ns')
                (repeat (ns, name) n) = []).
  { clear Hq. induction n as [|n IH]; cbn; [reflexivity|].
    destruct (String.eqb_spec ns ns'); [contradiction | exact IH]. }
  rewrite H. cbn. lia.
Qed.

Lemma stub_polled ns name token n w w' i :
  polled ns name n w w' -> stub w' ns name token i = stub w ns name token (n + i).
Proof.
  intros Hp. unfold stub. rewrite (queries_to_polled _ _ _ _ _ Hp).
  destruct Hp as (-> & _). rewrite Nat.add_assoc. reflexivity.
Qed.

Lemma stub_polled_other ns ns' name name' token n w w' i :
  ns <> ns' ->
  polled ns name n w w' -> stub w' ns' name' token i = stub w ns' name' token i.
Proof.
  intros Hne Hp. unfold stub. rewrite (queries_to_polled_other _ _ _ _ _ _ Hne Hp).
  destruct Hp as (-> & _). reflexivity.
Qed.

Lemma scan_txt_records_spec txt_records token w :
  exists w',
    Ultradns.scan_txt_records txt_records token w
    = (Ok (existsb (fun txt_record => String.eqb txt_record token) txt_records), w')
    /\ polled "" "" 0 w w' /\ slept w' = slept w.
Proof.
  induction txt_records as [|r rest IH]; cbn.
  - exists w. split; [reflexivity|]. split; [apply polled_refl | reflexivity].
  - destruct (String.eqb r token); cbn.
    + eexists. split; [reflexivity|]. split; [|reflexivity].
      unfold polled. cbn. rewrite app_nil_r. repeat split. eexists. reflexivity.
    + exact IH.
Qed.

(** Decoding touches nothing: it gives the strings as they are when all of
    them are UTF-8, and raises otherwise. *)
Lemma decode_strings_spec strings : forall txt_records w,
  Ultradns.decode_strings strings txt_records w
  = (if forallb Py.is_utf8 strings then Ok (txt_records ++ strings)
     else Raise UnicodeDecodeError, w).
Proof.
  induction strings as [|b rest IH]; intros txt_records w.
  - cbn. rewrite app_nil_r. reflexivity.
  - cbn [Ultradns.decode_strings forallb]. unfold Py.decode_utf8.
    destruct (Py.is_utf8 b); cbn [andb]; [|reflexivity].
    rewrite IH, <- app_assoc. reflexivity.
Qed.

(** One query: the status is what the resolver's answer reports, and an
    answer that does not decode raises. *)
Lemma _has_dns_propagated_spec name token ns w :
  exists w',
    Ultradns._has_dns_propagated name token ns w
    = (match stub w ns name token 0 with
       | Some status => Ok status
       | None => Raise UnicodeDecodeError
       end, w')
    /\ polled ns name 1 w w' /\ slept w' = slept w.
Proof.
  unfold Ultradns._has_dns_propagated, Ultradns.resolver_query, stub. unfold bind at 1.
  rewrite Nat.add_0_r.
  destruct (resolver w ns name (Ultradns.queries_to ns w)) as [|rdatas]; cbn [reports].
  - cbn. eexists. split; [reflexivity|]. split; [|reflexivity].
    unfold polled. cbn. repeat split. eexists. reflexivity.
  - unfold bind. rewrite decode_strings_spec.
    destruct (forallb Py.is_utf8 (concat rdatas)).
    + cbn [app].
      destruct (scan_txt_records_spec (concat rdatas) token
                  (set_dns_queries (fun l => l ++ [(ns, name)]) w))
        as (w' & Hs & (R1 & R2 & R3 & R4 & R5 & sent & R6) & Hsl).
      exists w'. split; [exact Hs|]. split; [|exact Hsl].
      cbn in R1, R2, R3, R4, R5, R6. rewrite app_nil_r in R2.
      unfold polled. repeat split; try assumption. exists sent. exact R6.
    + eexists. split; [reflexivity|]. split; [|reflexivity].
      unfold polled. cbn. repeat split. exists []. rewrite app_nil_r. reflexivity.
Qed.

Lemma polled_set_log ns name n f w w' :
  polled ns name n w w' -> polled ns name n w (set_log f w').
Proof. intros H. exact H. Qed.

Lemma polled_set_slept ns name n f w w' :
  polled ns name n w w' -> polled ns name n w (set_slept f w').
Proof. intros H. exact H. Qed.

Lemma polled_set_metrics ns name n m w w' :
  polled ns name n w w' -> polled ns name n w (set_metrics (fun l => l ++ m) w').
Proof.
  intros (A1 & A2 & A3 & A4 & A5 & sent & A6).
  unfold polled. cbn. repeat split; try assumption.
  exists (sent ++ m). rewrite A6, app_assoc. reflexivity.
Qed.

(** The first phase stops at the first success, after a last sleep. *)
Lemma authoritative_phase_success n : forall k fqdn token status w,
  k < n ->
  (forall i, i < k -> stub w "156.154.64.154" fqdn token i = Some false) ->
  stub w "156.154.64.154" fqdn token k = Some true ->
  exists w',
    Ultradns.authoritative_phase n fqdn token status w = (Ok true, w')
    /\ polled "156.154.64.154" fqdn (S k) w w'
    /\ slept w' = slept w + 10 * S k.
Proof.
  induction n as [|n IH]; intros k fqdn token status w Hk Hfalse Htrue; [lia|].
  cbn [Ultradns.authoritative_phase]. unfold bind at 1.
  destruct (_has_dns_propagated_spec fqdn token "156.154.64.154" w) as (w1 & -> & Hp & Hs).
  destruct k as [|k].
  - rewrite Htrue. cbn. eexists. split; [reflexivity|]. split.
    + apply polled_set_slept, polled_set_log. exact Hp.
    + cbn. lia.
  - rewrite (Hfalse 0 ltac:(lia)). cbn beta iota.
    unfold bind at 1. unfold logger_debug at 1, modify at 1.
    unfold bind at 1. unfold time_sleep at 1, modify at 1.
    set (w2 := set_slept _ (set_log _ w1)).
    assert (Hp2 : polled "156.154.64.154" fqdn 1 w w2)
      by (apply polled_set_slept, polled_set_log; exact Hp).
    destruct (IH k fqdn token false w2 ltac:(lia)) as (w' & Hrun & Hp' & Hs').
    + intros i Hi. rewrite (stub_polled _ _ _ _ _ _ _ Hp2). apply Hfalse. lia.
    + rewrite (stub_polled _ _ _ _ _ _ _ Hp2). exact Htrue.
    + exists w'. split; [exact Hrun|]. split.
      * exact (polled_trans _ _ 1 (S k) _ _ _ Hp2 Hp').
      * rewrite Hs'. subst w2. cbn. lia.
Qed.

(** ... gives up after its budget ... *)
Lemma authoritative_phase_exhausted n : forall fqdn token w,
  never_success (stub w "156.154.64.154" fqdn token) n ->
  exists w',
    Ultradns.authoritative_phase n fqdn token false w = (Ok false, w')
    /\ polled "156.154.64.154" fqdn n w w'
    /\ slept w' = slept w + 10 * n.
Proof.
  induction n as [|n IH]; intros fqdn token w Hnever.
  - exists w. split; [reflexivity|]. split; [apply polled_refl | lia].
  - cbn [Ultradns.authoritative_phase]. unfold bind at 1.
    destruct (_has_dns_propagated_spec fqdn token "156.154.64.154" w) as (w1 & -> & Hp & Hs).
    rewrite (Hnever 0 ltac:(lia)). cbn beta iota.
    unfold bind at 1. unfold logger_debug at 1, modify at 1.
    unfold bind at 1. unfold time_sleep at 1, modify at 1.
    set (w2 := set_slept _ (set_log _ w1)).
    assert (Hp2 : polled "156.154.64.154" fqdn 1 w w2)
      by (apply polled_set_slept, polled_set_log; exact Hp).
    destruct (IH fqdn token w2) as (w' & Hrun & Hp' & Hs').
    + intros i Hi. rewrite (stub_polled _ _ _ _ _ _ _ Hp2). apply Hnever. lia.
    + exists w'. split; [exact Hrun|]. split.
      * exact (polled_trans _ _ 1 n _ _ _ Hp2 Hp').
      * rewrite Hs'. subst w2. cbn. lia.
Qed.

(** ... and is left by the exception of an answer that does not decode,
    without the sleep of that attempt. *)
Lemma authoritative_phase_undecodable n : forall k fqdn token status w,
  k < n ->
  (forall i, i < k -> stub w "156.154.64.154" fqdn token i = Some false) ->
  stub w "156.154.64.154" fqdn token k = None ->
  exists w',
    Ultradns.authoritative_phase n fqdn token status w = (Raise UnicodeDecodeError, w')
    /\ polled "156.154.64.154" fqdn (S k) w w'
    /\ slept w' = slept w + 10 * k.
Proof.
  induction n as [|n IH]; intros k fqdn token status w Hk Hfalse Hnone; [lia|].
  cbn [Ultradns.authoritative_phase]. unfold bind at 1.
  destruct (_has_dns_propagated_spec fqdn token "156.154.64.154" w) as (w1 & -> & Hp & Hs).
  destruct k as [|k].
  - rewrite Hnone. exists w1. split; [reflexivity|]. split; [exact Hp | lia].
  - rewrite (Hfalse 0 ltac:(lia)). cbn beta iota.
    unfold bind at 1. unfold logger_debug at 1, modify at 1.
    unfold bind at 1. unfold time_sleep at 1, modify at 1.
    set (w2 := set_slept _ (set_log _ w1)).
    assert (Hp2 : polled "156.154.64.154" fqdn 1 w w2)
      by (apply polled_set_slept, polled_set_log; exact Hp).
    destruct (IH k fqdn token false w2 ltac:(lia)) as (w' & Hrun & Hp' & Hs').
    + intros i Hi. rewrite (stub_polled _ _ _ _ _ _ _ Hp2). apply Hfalse. lia.
    + rewrite (stub_polled _ _ _ _ _ _ _ Hp2). exact Hnone.
    + exists w'. split; [exact Hrun|]. split.
      * exact (polled_trans _ _ 1 (S k) _ _ _ Hp2 Hp').
      * rewrite Hs'. subst w2. cbn. lia.
Qed.

(** The second phase has the same shape, at the public resolver; it does not
    sleep after the success. *)
Lemma public_phase_success n : forall k fqdn token status w,
  k < n ->
  (forall i, i < k -> stub w "8.8.8.8" fqdn token i = Some false) ->
  stub w "8.8.8.8" fqdn token k = Some true ->
  exists w',
    Ultradns.public_phase n fqdn token status w = (Ok true, w')
    /\ polled "8.8.8.8" fqdn (S k) w w'
    /\ slept w' = slept w + 10 * k.
Proof.
  induction n as [|n IH]; intros k fqdn token status w Hk Hfalse Htrue; [lia|].
  cbn [Ultradns.public_phase]. unfold bind at 1.
  destruct (_has_dns_propagated_spec fqdn token "8.8.8.8" w) as (w1 & -> & Hp & Hs).
  destruct k as [|k].
  - rewrite Htrue. cbn. eexists. split; [reflexivity|]. split.
    + apply (polled_set_metrics _ _ _ ["wait_for_dns_change_success"]), polled_set_log.
      exact Hp.
    + cbn. lia.
  - rewrite (Hfalse 0 ltac:(lia)). cbn beta iota.
    unfold bind at 1. unfold logger_debug at 1, modify at 1.
    unfold bind at 1. unfold time_sleep at 1, modify at 1.
    set (w2 := set_slept _ (set_log _ w1)).
    assert (Hp2 : polled "8.8.8.8" fqdn 1 w w2)
      by (apply polled_set_slept, polled_set_log; exact Hp).
    destruct (IH k fqdn token false w2 ltac:(lia)) as (w' & Hrun & Hp' & Hs').
    + intros i Hi. rewrite (stub_polled _ _ _ _ _ _ _ Hp2). apply Hfalse. lia.
    + rewrite (stub_polled _ _ _ _ _ _ _ Hp2). exact Htrue.
    + exists w'. split; [exact Hrun|]. split.
      * exact (polled_trans _ _ 1 (S k) _ _ _ Hp2 Hp').
      * rewrite Hs'. subst w2. cbn. lia.
Qed.

Lemma public_phase_exhausted n : forall fqdn token w,
  0 < n ->
  never_success (stub w "8.8.8.8" fqdn token) n ->
  forall status,
  exists w',
    Ultradns.public_phase n fqdn token status w = (Ok false, w')
    /\ polled "8.8.8.8" fqdn n w w'
    /\ slept w' = slept w + 10 * n.
Proof.
  induction n as [|n IH]; intros fqdn token w Hn Hnever status; [lia|].
  cbn [Ultradns.public_phase]. unfold bind at 1.
  destruct (_has_dns_propagated_spec fqdn token "8.8.8.8" w) as (w1 & -> & Hp & Hs).
  rewrite (Hnever 0 ltac:(lia)). cbn beta iota.
  unfold bind at 1. unfold logger_debug at 1, modify at 1.
  unfold bind at 1. unfold time_sleep at 1, modify at 1.
  set (w2 := set_slept _ (set_log _ w1)).
  assert (Hp2 : polled "8.8.8.8" fqdn 1 w w2)
    by (apply polled_set_slept, polled_set_log; exact Hp).
  destruct n as [|n].
  - exists w2. split; [reflexivity|]. split; [exact Hp2|]. subst w2. cbn. lia.
  - destruct (IH fqdn token w2 ltac:(lia)) with (status := false) as (w' & Hrun & Hp' & Hs').
    + intros i Hi. rewrite (stub_polled _ _ _ _ _ _ _ Hp2). apply Hnever. lia.
    + exists w'. split; [exact Hrun|]. split.
      * exact (polled_trans _ _ 1 (S n) _ _ _ Hp2 Hp').
      * rewrite Hs'. subst w2. cbn. lia.
Qed.

Lemma public_phase_undecodable n : forall k fqdn token status w,
  k < n ->
  (forall i, i < k -> stub w "8.8.8.8" fqdn token i = Some false) ->
  stub w "8.8.8.8" fqdn token k = None ->
  exists w',
    Ultradns.public_phase n fqdn token status w = (Raise UnicodeDecodeError, w')
    /\ polled "8.8.8.8" fqdn (S k) w w'
    /\ slept w' = slept w + 10 * k.
Proof.
  induction n as [|n IH]; intros k fqdn token status w Hk Hfalse Hnone; [lia|].
  cbn [Ultradns.public_phase]. unfold bind at 1.
  destruct (_has_dns_propagated_spec fqdn token "8.8.8.8" w) as (w1 & -> & Hp & Hs).
  destruct k as [|k].
  - rewrite Hnone. exists w1. split; [reflexivity|]. split; [exact Hp | lia].
  - rewrite (Hfalse 0 ltac:(lia)). cbn beta iota.
    unfold bind at 1. unfold logger_debug at 1, modify at 1.
    unfold bind at 1. unfold time_sleep at 1, modify at 1.
    set (w2 := set_slept _ (set_log _ w1)).
    assert (Hp2 : polled "8.8.8.8" fqdn 1 w w2)
      by (apply polled_set_slept, polled_set_log; exact Hp).
    destruct (IH k fqdn token false w2 ltac:(lia)) as (w' & Hrun & Hp' & Hs').
    + intros i Hi. rewrite (stub_polled _ _ _ _ _ _ _ Hp2). apply Hfalse. lia.
    + rewrite (stub_polled _ _ _ _ _ _ _ Hp2). exact Hnone.
    + exists w'. split; [exact Hrun|]. split.
      * exact (polled_trans _ _ 1 (S k) _ _ _ Hp2 Hp').
      * rewrite Hs'. subst w2. cbn. lia.
Qed.

(** Within [n] attempts a stub succeeds for the first time, or gives an
    answer that does not decode before any success, or does neither. *)
Lemma classic_first (s : nat -> option bool) n :
  (exists k, k < n /\ (forall i, i < k -> s i = Some false) /\ s k = Some true)
  \/ never_success s n
  \/ (exists k, k < n /\ (forall i, i < k -> s i = Some false) /\ s k = None).
Proof.
  induction n as [|n [(k & Hk & Hf & Ht)|[Hnever|(k & Hk & Hf & Ht)]]].
  - right. left. intros i Hi. lia.
  - left. exists k. split; [lia|]. split; assumption.
  - destruct (s n) as [[|]|] eqn:Hn.
    + left. exists n. split; [lia|]. split; [exact Hnever | exact Hn].
    + right. left. intros i Hi. destruct (Nat.eq_dec i n) as [->|Hne]; [exact Hn|].
      apply Hnever. lia.
    + right. right. exists n. split; [lia|]. split; [exact Hnever | exact Hn].
  - right. right. exists k. split; [lia|]. split; assumption.
Qed.

Lemma first_success_unique s K K' : first_success s K -> first_success s K' -> K = K'.
Proof.
  intros (H1 & Hf & Ht) (H1' & Hf' & Ht').
  destruct (Nat.lt_trichotomy K K') as [Hlt|[Heq|Hgt]]; [|exact Heq|].
  - rewrite (Hf' (K - 1)) in Ht by lia. discriminate Ht.
  - rewrite (Hf (K' - 1)) in Ht' by lia. discriminate Ht'.
Qed.

Lemma first_success_not_never s K N : first_success s K -> K <= N -> ~ never_success s N.
Proof.
  intros (H1 & _ & Ht) Hle Hnever. rewrite (Hnever (K - 1)) in Ht by lia. discriminate Ht.
Qed.

Lemma first_undecodable_not_never s K N :
  first_undecodable s K -> K <= N -> ~ never_success s N.
Proof.
  intros (H1 & _ & Ht) Hle Hnever. rewrite (Hnever (K - 1)) in Ht by lia. discriminate Ht.
Qed.

Lemma first_success_not_undecodable s K K' : first_success s K -> ~ first_undecodable s K'.
Proof.
  intros (H1 & Hf & Ht) (H1' & Hf' & Ht').
  destruct (Nat.lt_trichotomy K K') as [Hlt|[Heq|Hgt]].
  - rewrite (Hf' (K - 1)) in Ht by lia. discriminate Ht.
  - subst K'. rewrite Ht in Ht'. discriminate Ht'.
  - rewrite (Hf (K' - 1)) in Ht' by lia. discriminate Ht'.
Qed.

Lemma first_undecodable_unique s K K' :
  first_undecodable s K -> first_undecodable s K' -> K = K'.
Proof.
  intros (H1 & Hf & Ht) (H1' & Hf' & Ht').
  destruct (Nat.lt_trichotomy K K') as [Hlt|[Heq|Hgt]]; [|exact Heq|].
  - rewrite (Hf' (K - 1)) in Ht by lia. discriminate Ht.
  - rewrite (Hf (K' - 1)) in Ht' by lia. discriminate Ht'.
Qed.

(** [wait_for_dns_change] in terms of its two phases. *)
Lemma wait_for_dns_change_unfold fqdn token account_number w :
  Ultradns.wait_for_dns_change (fqdn, token) account_number w
  = match Ultradns.authoritative_phase 20 fqdn token false w with
    | (Ok false, w1) =>
        (Ok tt, set_metrics (fun l => l ++ ["wait_for_dns_change_error"])
                  (set_sentry S
                     (set_metrics (fun l => l ++ ["wait_for_dns_change_fail"]) w1)))
    | (Ok true, w1) =>
        match Ultradns.public_phase 20 fqdn token true w1 with
        | (Ok false, w2) =>
            (Ok tt, set_metrics (fun l => l ++ ["wait_for_dns_change_error"])
                      (set_sentry S
                         (set_metrics (fun l => l ++ ["wait_for_dns_change_fail"]) w2)))
        | (Ok true, w2) => (Ok tt, w2)
        | (Raise e, w2) => (Raise e, w2)
        end
    | (Raise e, w1) => (Raise e, w1)
    end.
Proof.
  unfold Ultradns.wait_for_dns_change, Ultradns.number_of_attempts. unfold bind at 1.
  destruct (Ultradns.authoritative_phase 20 fqdn token false w) as [[[|]|e] w1];
    [| reflexivity | reflexivity].
  unfold bind at 1.
  destruct (Ultradns.public_phase 20 fqdn token true w1) as [[[|]|e] w2]; reflexivity.
Qed.

(** The five ways [wait_for_dns_change] runs: both phases succeed; the first
    succeeds and the second is exhausted; the first is exhausted; an answer
    of the first phase does not decode; the first phase succeeds and an
    answer of the second does not decode. *)
Lemma wait_for_dns_change_run fqdn token account_number w :
  let auth := stub w "156.154.64.154" fqdn token in
  let pub := stub w "8.8.8.8" fqdn token in
  exists r w',
    Ultradns.wait_for_dns_change (fqdn, token) account_number w = (r, w')
    /\ resolver w' = resolver w
    /\ rrsets w' = rrsets w
    /\ http_log w' = http_log w
    /\ ((exists K J, K <= 20 /\ first_success auth K /\ J <= 20 /\ first_success pub J
                     /\ r = Ok tt
                     /\ Ultradns.queries_to "156.154.64.154" w'
                        = Ultradns.queries_to "156.154.64.154" w + K
                     /\ Ultradns.queries_to "8.8.8.8" w'
                        = Ultradns.queries_to "8.8.8.8" w + J
                     /\ slept w' = slept w + 10 * K + 10 * (J - 1)
                     /\ sentry w' = sentry w)
        \/ (exists K, K <= 20 /\ first_success auth K /\ never_success pub 20
                      /\ r = Ok tt
                      /\ Ultradns.queries_to "156.154.64.154" w'
                         = Ultradns.queries_to "156.154.64.154" w + K
                      /\ Ultradns.queries_to "8.8.8.8" w'
                         = Ultradns.queries_to "8.8.8.8" w + 20
                      /\ slept w' = slept w + 10 * K + 200
                      /\ sentry w' = S (sentry w))
        \/ (never_success auth 20
            /\ r = Ok tt
            /\ Ultradns.queries_to "156.154.64.154" w'
               = Ultradns.queries_to "156.154.64.154" w + 20
            /\ Ultradns.queries_to "8.8.8.8" w' = Ultradns.queries_to "8.8.8.8" w
            /\ slept w' = slept w + 200
            /\ sentry w' = S (sentry w))
        \/ (exists K, K <= 20 /\ first_undecodable auth K
                      /\ r = Raise UnicodeDecodeError
                      /\ Ultradns.queries_to "156.154.64.154" w'
                         = Ultradns.queries_to "156.154.64.154" w + K
                      /\ Ultradns.queries_to "8.8.8.8" w' = Ultradns.queries_to "8.8.8.8" w
                      /\ slept w' = slept w + 10 * (K - 1)
                      /\ sentry w' = sentry w)
        \/ (exists K J, K <= 20 /\ first_success auth K /\ J <= 20
                        /\ first_undecodable pub J
                        /\ r = Raise UnicodeDecodeError
                        /\ Ultradns.queries_to "156.154.64.154" w'
                           = Ultradns.queries_to "156.154.64.154" w + K
                        /\ Ultradns.queries_to "8.8.8.8" w'
                           = Ultradns.queries_to "8.8.8.8" w + J
                        /\ slept w' = slept w + 10 * K + 10 * (J - 1)
                        /\ sentry w' = sentry w)).
Proof.
  intros auth pub. rewrite wait_for_dns_change_unfold.
  assert (Hne : "156.154.64.154" <> "8.8.8.8") by discriminate.
  assert (Hne' : "8.8.8.8" <> "156.154.64.154") by discriminate.
  destruct (classic_first auth 20) as [(k & Hk & Hf & Ht)|[Hnever|(k & Hk & Hf & Ht)]].
  - destruct (authoritative_phase_success 20 k fqdn token false w Hk Hf Ht)
      as (w1 & -> & Hp1 & Hs1).
    assert (HK : first_success auth (S k)).
    { split; [lia|]. split.
      - intros i Hi. apply Hf. lia.
      - replace (S k - 1) with k by lia. exact Ht. }
    assert (Hpub : forall i, stub w1 "8.8.8.8" fqdn token i = pub i).
    { intros i.
      refine (stub_polled_other "156.154.64.154" "8.8.8.8" fqdn fqdn token _ w w1 i _ Hp1).
      discriminate. }
    assert (Hq : forall n w2, polled "8.8.8.8" fqdn n w1 w2 ->
              Ultradns.queries_to "156.154.64.154" w2
              = Ultradns.queries_to "156.154.64.154" w + S k
              /\ Ultradns.queries_to "8.8.8.8" w2 = Ultradns.queries_to "8.8.8.8" w + n
              /\ resolver w2 = resolver w /\ rrsets w2 = rrsets w
              /\ http_log w2 = http_log w /\ sentry w2 = sentry w).
    { intros n w2 Hp2.
      rewrite (queries_to_polled_other _ _ _ _ _ _ Hne' Hp2),
        (queries_to_polled _ _ _ _ _ Hp1), (queries_to_polled _ _ _ _ _ Hp2),
        (queries_to_polled_other _ _ _ _ _ _ Hne Hp1).
      destruct Hp1 as (A1 & _ & A3 & A4 & A5 & _).
      destruct Hp2 as (B1 & _ & B3 & B4 & B5 & _).
      repeat split; congruence. }
    destruct (classic_first pub 20) as [(j & Hj & Hjf & Hjt)|[Hnever|(j & Hj & Hjf & Hjt)]].
    + destruct (public_phase_success 20 j fqdn token true w1 Hj) as (w2 & -> & Hp2 & Hs2).
      * intros i Hi. rewrite Hpub. apply Hjf. exact Hi.
      * rewrite Hpub. exact Hjt.
      * destruct (Hq _ _ Hp2) as (Q1 & Q2 & Q3 & Q4 & Q5 & Q6).
        exists (Ok tt), w2. split; [reflexivity|]. split; [exact Q3|]. split; [exact Q4|].
        split; [exact Q5|]. left. exists (S k), (S j).
        split; [lia|]. split; [exact HK|]. split; [lia|]. split.
        { split; [lia|]. split.
          - intros i Hi. apply Hjf. lia.
          - replace (S j - 1) with j by lia. exact Hjt. }
        split; [reflexivity|]. split; [exact Q1|]. split; [exact Q2|].
        split; [lia | exact Q6].
    + destruct (public_phase_exhausted 20 fqdn token w1 ltac:(lia)) with (status := true)
        as (w2 & -> & Hp2 & Hs2).
      * intros i Hi. rewrite Hpub. apply Hnever. exact Hi.
      * destruct (Hq _ _ Hp2) as (Q1 & Q2 & Q3 & Q4 & Q5 & Q6).
        eexists _, _. split; [reflexivity|]. cbn.
        split; [exact Q3|]. split; [exact Q4|]. split; [exact Q5|].
        right. left. exists (S k).
        split; [lia|]. split; [exact HK|]. split; [exact Hnever|]. split; [reflexivity|].
        split; [exact Q1|]. split; [exact Q2|]. split; [lia | congruence].
    + destruct (public_phase_undecodable 20 j fqdn token true w1 Hj) as (w2 & -> & Hp2 & Hs2).
      * intros i Hi. rewrite Hpub. apply Hjf. exact Hi.
      * rewrite Hpub. exact Hjt.
      * destruct (Hq _ _ Hp2) as (Q1 & Q2 & Q3 & Q4 & Q5 & Q6).
        eexists _, _. split; [reflexivity|].
        split; [exact Q3|]. split; [exact Q4|]. split; [exact Q5|].
        right. right. right. right. exists (S k), (S j).
        split; [lia|]. split; [exact HK|]. split; [lia|]. split.
        { split; [lia|]. split.
          - intros i Hi. apply Hjf. lia.
          - replace (S j - 1) with j by lia. exact Hjt. }
        split; [reflexivity|]. split; [exact Q1|]. split; [exact Q2|].
        split; [lia | exact Q6].
  - destruct (authoritative_phase_exhausted 20 fqdn token w Hnever) as (w1 & -> & Hp1 & Hs1).
    eexists _, _. split; [reflexivity|]. cbn.
    pose proof (queries_to_polled _ _ _ _ _ Hp1) as Q1.
    pose proof (queries_to_polled_other _ _ _ _ _ _ Hne Hp1) as Q2.
    destruct Hp1 as (R1 & _ & R3 & R4 & R5 & _).
    split; [exact R1|]. split; [exact R3|]. split; [exact R4|].
    right. right. left. split; [exact Hnever|]. split; [reflexivity|].
    split; [exact Q1|]. split; [exact Q2|]. split; [lia | congruence].
  - destruct (authoritative_phase_undecodable 20 k fqdn token false w Hk Hf Ht)
      as (w1 & -> & Hp1 & Hs1).
    exists (Raise UnicodeDecodeError), w1. split; [reflexivity|].
    pose proof (queries_to_polled _ _ _ _ _ Hp1) as Q1.
    pose proof (queries_to_polled_other _ _ _ _ _ _ Hne Hp1) as Q2.
    destruct Hp1 as (R1 & _ & R3 & R4 & R5 & _).
    split; [exact R1|]. split; [exact R3|]. split; [exact R4|].
    right. right. right. left. exists (S k).
    split; [lia|]. split.
    { split; [lia|]. split.
      - intros i Hi. apply Hf. lia.
      - replace (S k - 1) with k by lia. exact Ht. }
    split; [reflexivity|]. split; [exact Q1|]. split; [exact Q2|].
    split; [lia | exact R5].
Qed.




(** ** Exhausted budgets: what the poller's caller sees *)

Lemma in_world_run {A} (m : M world A) h :
  in_world m h = (fst (m (env h)), set_env (snd (m (env h))) h).
Proof. unfold in_world. destruct (m (env h)). reflexivity. Qed.

Lemma decodable_reports r token : decodable r = true -> reports r token <> None.
Proof.
  destruct r as [|rdatas]; cbn; [discriminate|]. intros ->. discriminate.
Qed.

(** From a world whose resolvers only give answers that decode, the poller
    returns normally, and leaves the resolvers as they are. *)
Lemma wait_for_dns_change_decodable change_id account_number w :
  decodable_world w ->
  exists w',
    Ultradns.wait_for_dns_change change_id account_number w = (Ok tt, w')
    /\ resolver w' = resolver w.
Proof.
  intros Hw. destruct change_id as [fqdn token].
  destruct (wait_for_dns_change_run fqdn token account_number w)
    as (r & w' & Hrun & Hres & _ & _ & Hcases).
  assert (Hsome : forall ns i, stub w ns fqdn token i <> None)
    by (intros ns i; apply decodable_reports, Hw).
  exists w'. split; [|exact Hres]. rewrite Hrun. f_equal.
  destruct Hcases as [(K & J & _ & _ & _ & _ & -> & _)
                     |[(K & _ & _ & _ & -> & _)
                      |[(_ & -> & _)
                       |[(K & _ & (_ & _ & Hnone) & _)
                        |(K & J & _ & _ & _ & (_ & _ & Hnone) & _)]]]];
    try reflexivity; exfalso; exact (Hsome _ _ Hnone).
Qed.

(** C5 (as amended).  When a budget is exhausted -- the authoritative stub
    never succeeds, or it does and the public one never does -- the poller
    returns normally: the outcome is reported as the metrics
    [wait_for_dns_change_fail] and [wait_for_dns_change_error] and one capture
    of the error tracker, and no exception reaches the caller, whose loop over
    the change ids leaves the handler with the call recorded and the world as
    the poller left it, without taking its exception path.  The poller has
    sent no request to the provider: the record sets are as they were. *)
Theorem wait_for_dns_change_timeout_reported fqdn token account_number w :
  never_success (stub w "156.154.64.154" fqdn token) 20
  \/ (exists K, K <= 20 /\ first_success (stub w "156.154.64.154" fqdn token) K
                /\ never_success (stub w "8.8.8.8" fqdn token) 20) ->
  exists w' sent,
    Ultradns.wait_for_dns_change (fqdn, token) account_number w = (Ok tt, w')
    /\ metrics w'
       = metrics w ++ sent ++ ["wait_for_dns_change_fail"; "wait_for_dns_change_error"]
    /\ sentry w' = S (sentry w)
    /\ rrsets w' = rrsets w
    /\ http_log w' = http_log w
    /\ forall others calls_before handler,
         AcmeHandlers.wait_for_changes others ultradns account_number [(fqdn, token)]
           {| self := handler; calls := calls_before; env := w |}
         = (Ok tt,
            {| self := handler;
               calls := calls_before ++ [WaitForDnsChange ultradns (fqdn, token) account_number];
               env := w' |}).
Proof.
  intros Hex.
  assert (Hrun : exists w' sent,
             Ultradns.wait_for_dns_change (fqdn, token) account_number w = (Ok tt, w')
             /\ metrics w'
                = metrics w ++ sent ++ ["wait_for_dns_change_fail"; "wait_for_dns_change_error"]
             /\ sentry w' = S (sentry w)
             /\ rrsets w' = rrsets w
             /\ http_log w' = http_log w).
  { rewrite wait_for_dns_change_unfold.
    assert (Hne : "156.154.64.154" <> "8.8.8.8") by discriminate.
    destruct Hex as [Hnever|(K & HK & (HK1 & Hf & Ht) & Hnever)].
    + destruct (authoritative_phase_exhausted 20 fqdn token w Hnever)
        as (w1 & -> & (_ & _ & Hrr & Hlog & Hs & sent & Hm) & _).
      eexists. exists sent. split; [reflexivity|]. cbn.
      rewrite Hm, Hs, <- !app_assoc. auto.
    + destruct (authoritative_phase_success 20 (K - 1) fqdn token false w ltac:(lia) Hf Ht)
        as (w1 & -> & Hp & _).
      destruct (public_phase_exhausted 20 fqdn token w1 ltac:(lia)) with (status := true)
        as (w2 & -> & (_ & _ & Hrr2 & Hlog2 & Hs2 & sent2 & Hm2) & _).
      { intros i Hi. rewrite (stub_polled_other _ _ _ _ _ _ _ _ i Hne Hp).
        apply Hnever. exact Hi. }
      destruct Hp as (_ & _ & Hrr & Hlog & Hs & sent & Hm).
      eexists. exists (sent ++ sent2). split; [reflexivity|]. cbn.
      rewrite Hm2, Hm, Hs2, Hs, Hrr2, Hrr, Hlog2, Hlog, <- !app_assoc. auto. }
  destruct Hrun as (w' & sent & Hrun & Hm & Hs & Hrr & Hlog).
  exists w', sent. repeat (split; [assumption|]).
  intros others calls_before handler.
  unfold AcmeHandlers.wait_for_changes. cbn [for_each].
  unfold bind at 1. unfold try_except.
  unfold AcmeHandlers.call_wait_for_dns_change. unfold bind at 1.
  unfold record_call, modify. rewrite in_world_run. cbn [fst snd].
  cbn [AcmeHandlers.plugin_of wait_for_dns_change ultradns_plugin env].
  rewrite Hrun. reflexivity.
Qed.

(** ** Cleanup: [cleanup_dns_challenges] *)

(** A call of a provider's deletion is recorded, and touches nothing of the
    handler but the world. *)
Lemma call_delete_txt_record_spec others m change_id account_number host token h :
  exists r w,
    AcmeHandlers.call_delete_txt_record others m change_id account_number host token h
    = (r, {| self := self h;
             calls := calls h ++ [DeleteTxtRecord m change_id account_number host token];
             env := w |}).
Proof.
  unfold AcmeHandlers.call_delete_txt_record, record_call, modify. unfold bind.
  rewrite in_world_run. cbn. eauto.
Qed.

Lemma call_create_txt_record_spec others m host token account_number h :
  exists r w,
    AcmeHandlers.call_create_txt_record others m host token account_number h
    = (r, {| self := self h;
             calls := calls h ++ [CreateTxtRecord m host token account_number];
             env := w |}).
Proof.
  unfold AcmeHandlers.call_create_txt_record, record_call, modify. unfold bind.
  rewrite in_world_run. cbn. eauto.
Qed.

(** The loop over the challenges makes every call it owes, and returns. *)
Lemma delete_records_spec others acme_client authz_record account_number m :
  forall dns_challenges host h,
  exists w,
    AcmeHandlers.delete_records others acme_client authz_record account_number m
      dns_challenges host h
    = (Ok tt,
       {| self := self h;
          calls := calls h
                   ++ map (fun target =>
                             DeleteTxtRecord m (AuthorizationRecord.change_id authz_record)
                               account_number (fst target) (snd target))
                          (record_targets (AcmeClient.key acme_client)
                             (delegated authz_record) host dns_challenges);
          env := w |}).
Proof.
  induction dns_challenges as [|c rest IH]; intros host h.
  - exists (env h). cbn. rewrite app_nil_r. destruct h. reflexivity.
  - cbn [AcmeHandlers.delete_records record_targets map]. unfold delegated.
    set (host' := if String.eqb _ _ then validation_domain_name host else host).
    replace (if negb _ then host else validation_domain_name host) with host'
      by (subst host'; destruct (String.eqb _ _); reflexivity).
    unfold bind at 1. unfold try_except.
    destruct (call_delete_txt_record_spec others m
                (AuthorizationRecord.change_id authz_record) account_number host'
                (ChallengeBody.validation c (AcmeClient.key acme_client)) h)
      as (r & w1 & ->).
    destruct r as [[]|e].
    + match goal with
      | |- context [AcmeHandlers.delete_records _ _ _ _ _ _ _ ?h1] =>
          destruct (IH host' h1) as (w2 & ->)
      end.
      exists w2. cbn [self calls]. rewrite <- app_assoc. reflexivity.
    + unfold bind at 1. rewrite !in_world_run.
      unfold metrics_send, sentry_captureException, modify.
      cbn [fst snd set_env self calls env].
      match goal with
      | |- context [AcmeHandlers.delete_records _ _ _ _ _ _ _ ?h1] =>
          destruct (IH host' h1) as (w2 & ->)
      end.
      exists w2. unfold set_env. cbn [self calls env]. rewrite <- app_assoc. reflexivity.
Qed.

Lemma cleanup_for_provider_spec others acme_client authz_record dns_provider h :
  usable dns_provider ->
  exists w,
    AcmeHandlers.cleanup_for_provider others acme_client authz_record dns_provider h
    = (Ok tt,
       {| self := self h;
          calls := calls h ++ deletions_of acme_client authz_record dns_provider;
          env := w |}).
Proof.
  intros [[opts Hc] [m Hm]].
  unfold AcmeHandlers.cleanup_for_provider, AcmeHandlers.json_loads_credentials,
    AcmeHandlers.get_dns_provider, deletions_of.
  rewrite Hc, Hm. unfold bind at 1. unfold ret at 1. unfold bind at 1. unfold ret at 1.
  apply delete_records_spec.
Qed.

Lemma for_each_cleanup_spec others acme_client authz_record :
  forall dns_providers h,
  Forall usable dns_providers ->
  exists w,
    for_each dns_providers (AcmeHandlers.cleanup_for_provider others acme_client authz_record) h
    = (Ok tt,
       {| self := self h;
          calls := calls h ++ flat_map (deletions_of acme_client authz_record) dns_providers;
          env := w |}).
Proof.
  induction dns_providers as [|p ps IH]; intros h Hall.
  - exists (env h). cbn. rewrite app_nil_r. destruct h. reflexivity.
  - inversion Hall as [|? ? Hp Hps]; subst. cbn [for_each flat_map]. unfold bind.
    destruct (cleanup_for_provider_spec others acme_client authz_record p h Hp) as (w1 & ->).
    match goal with
    | |- context [for_each ps _ ?h1] => destruct (IH h1 Hps) as (w2 & ->)
    end.
    exists w2. cbn [self calls]. rewrite <- app_assoc. reflexivity.
Qed.

Lemma cleanup_record_spec others acme_client authz_record h :
  resolved (self h) authz_record ->
  exists w,
    AcmeHandlers.for_each_provider_of
      (AuthorizationRecord.target_domain authz_record)
      (AcmeHandlers.cleanup_for_provider others acme_client authz_record) h
    = (Ok tt,
       {| self := self h;
          calls := calls h
                   ++ flat_map (deletions_of acme_client authz_record)
                               (providers_of (self h) authz_record);
          env := w |}).
Proof.
  intros (ps & Hl & Hps).
  unfold AcmeHandlers.for_each_provider_of, providers_of. unfold bind, gets.
  rewrite Hl. cbn [default]. apply for_each_cleanup_spec. exact Hps.
Qed.

Lemma cleanup_dns_challenges_spec others acme_client :
  forall authorizations h,
  Forall (resolved (self h)) authorizations ->
  exists w,
    AcmeHandlers.cleanup_dns_challenges others acme_client authorizations h
    = (Ok tt,
       {| self := self h;
          calls := calls h
                   ++ flat_map (fun authz_record =>
                                  flat_map (deletions_of acme_client authz_record)
                                           (providers_of (self h) authz_record))
                               authorizations;
          env := w |}).
Proof.
  unfold AcmeHandlers.cleanup_dns_challenges.
  induction authorizations as [|r rs IH]; intros h Hall.
  - exists (env h). cbn. rewrite app_nil_r. destruct h. reflexivity.
  - inversion Hall as [|? ? Hr Hrs]; subst.
    cbn [for_each flat_map]. unfold bind at 1.
    destruct (cleanup_record_spec others acme_client r h Hr) as (w1 & ->).
    match goal with
    | |- context [for_each rs _ ?h1] => destruct (IH h1 Hrs) as (w2 & ->)
    end.
    exists w2. cbn [self calls]. rewrite <- app_assoc. reflexivity.
Qed.

(** The loop of [start_dns_challenge] makes its calls at the same hosts. *)
Lemma create_records_spec others acme_client account_number domain target_domain m :
  forall dns_challenges host change_ids h change_ids' h',
  AcmeHandlers.create_records others acme_client account_number domain target_domain m
    dns_challenges host change_ids h = (Ok change_ids', h') ->
  self h' = self h
  /\ calls h'
     = calls h
       ++ map (fun target => CreateTxtRecord m (fst target) (snd target) account_number)
              (record_targets (AcmeClient.key acme_client)
                 (negb (String.eqb domain target_domain)) host dns_challenges)
  /\ length change_ids' = length change_ids + length dns_challenges.
Proof.
  induction dns_challenges as [|c rest IH]; intros host change_ids h change_ids' h' Hrun.
  - cbn in Hrun. injection Hrun as <- <-. cbn. rewrite app_nil_r. auto.
  - cbn [AcmeHandlers.create_records record_targets map] in Hrun |- *.
    set (host' := if String.eqb domain target_domain
                  then validation_domain_name host else host) in *.
    replace (if negb _ then host else validation_domain_name host) with host'
      by (subst host'; destruct (String.eqb domain target_domain); reflexivity).
    unfold bind at 1 in Hrun.
    destruct (call_create_txt_record_spec others m host'
                (ChallengeBody.validation c (AcmeClient.key acme_client))
                account_number h) as (r & w1 & Hcall).
    rewrite Hcall in Hrun. destruct r as [change_id|e]; [|discriminate].
    apply IH in Hrun. destruct Hrun as (Hs & Hc & Hlen). cbn [self calls] in Hs, Hc.
    split; [exact Hs|]. split; [rewrite Hc, <- app_assoc; reflexivity|].
    rewrite Hlen, length_app. cbn. lia.
Qed.

Lemma start_dns_challenge_spec others acme_client account_number domain target_domain m
    order dns_provider_options h authz_record h' :
  AcmeHandlers.start_dns_challenge others acme_client account_number domain target_domain m
    order dns_provider_options h = (Ok authz_record, h') ->
  AuthorizationRecord.domain authz_record = domain
  /\ AuthorizationRecord.target_domain authz_record = target_domain
  /\ AuthorizationRecord.dns_challenge authz_record
     = AcmeHandlers.get_dns_challenges domain (Order.authorizations order)
  /\ self h' = self h
  /\ calls h'
     = calls h
       ++ map (fun target => CreateTxtRecord m (fst target) (snd target) account_number)
              (record_targets (AcmeClient.key acme_client)
                 (negb (String.eqb domain target_domain))
                 (AcmeHandlers.maybe_add_extension
                    (fst (AcmeHandlers.strip_wildcard target_domain)) dns_provider_options)
                 (AuthorizationRecord.dns_challenge authz_record))
  /\ length (AuthorizationRecord.change_id authz_record)
     = length (AuthorizationRecord.dns_challenge authz_record).
Proof.
  unfold AcmeHandlers.start_dns_challenge. unfold bind at 1. rewrite in_world_run.
  cbn [fst snd logger_debug modify]. cbn zeta.
  destruct (AcmeHandlers.get_dns_challenges domain (Order.authorizations order))
    as [|c cs] eqn:Hch.
  - unfold bind. rewrite !in_world_run. cbn. discriminate.
  - unfold bind at 1.
    destruct (AcmeHandlers.create_records _ _ _ _ _ _ _ _ _ _) as [[ids|e] h1] eqn:Hrun;
      [|discriminate].
    intros [= <- <-]. cbn [AuthorizationRecord.domain AuthorizationRecord.target_domain
                           AuthorizationRecord.dns_challenge AuthorizationRecord.change_id].
    apply create_records_spec in Hrun. destruct Hrun as (Hs & Hc & Hlen).
    unfold set_env in Hs, Hc. cbn [self calls] in Hs, Hc. cbn [length] in Hlen.
    repeat split; auto.
Qed.

Lemma record_targets_delegated key host dns_challenges :
  record_targets key true host dns_challenges
  = map (fun dns_challenge => (host, ChallengeBody.validation dns_challenge key))
        dns_challenges.
Proof.
  induction dns_challenges as [|c rest IH]; cbn [record_targets map]; [reflexivity|].
  rewrite IH. reflexivity.
Qed.

(** Where [start_dns_challenge] creates records when it returns: under
    delegation every record is created at the target host (wildcard prefix
    removed, extension added) with no challenge label; without delegation and
    with a single DNS-01 challenge, one record is created, at the challenge
    label in front of that host, and one change id is kept. *)
Theorem start_dns_challenge_hosts others acme_client account_number domain target_domain m
    order dns_provider_options h authz_record h' :
  AcmeHandlers.start_dns_challenge others acme_client account_number domain target_domain m
    order dns_provider_options h = (Ok authz_record, h') ->
  let host := AcmeHandlers.maybe_add_extension
                (fst (AcmeHandlers.strip_wildcard target_domain)) dns_provider_options in
  (domain <> target_domain ->
   calls h'
   = calls h
     ++ map (fun dns_challenge =>
               CreateTxtRecord m host
                 (ChallengeBody.validation dns_challenge (AcmeClient.key acme_client))
                 account_number)
            (AuthorizationRecord.dns_challenge authz_record))
  /\ (domain = target_domain ->
      forall dns_challenge,
        AuthorizationRecord.dns_challenge authz_record = [dns_challenge] ->
        calls h'
        = calls h
          ++ [CreateTxtRecord m ("_acme-challenge." +:+ host)
                (ChallengeBody.validation dns_challenge (AcmeClient.key acme_client))
                account_number]
        /\ length (AuthorizationRecord.change_id authz_record) = 1).
Proof.
  intros Hstart host. apply start_dns_challenge_spec in Hstart.
  destruct Hstart as (_ & _ & _ & _ & Hcalls & Hlen). fold host in Hcalls. split.
  - intros Hne. rewrite Hcalls.
    destruct (String.eqb_spec domain target_domain) as [Heq|_]; [contradiction|].
    cbn [negb]. rewrite record_targets_delegated, map_map. reflexivity.
  - intros Heq c Hc. rewrite Hcalls, Hlen, Hc.
    destruct (String.eqb_spec domain target_domain) as [_|Hne]; [|contradiction].
    split; reflexivity.
Qed.

(** C6 fails on the code.  [get_authorizations] hands [start_dns_challenge]
    the provider's [options], and the record is created at the host with the
    extension of these options; [cleanup_dns_challenges] reads the extension
    from the provider's credentials instead, which have none.  For the record
    made for [foo.example.com] with such a provider, cleanup returns without
    raising, but its one deletion call is aimed at
    [_acme-challenge.foo.example.com], where nothing was created, and the
    record created at [_acme-challenge.foo.example.com.acme.example.net] is
    still there afterwards: the deletion attempted is not one for the created
    record. *)
Theorem cleanup_dns_challenges_misses_created_record :
  let created :=
    AcmeHandlers.get_authorizations (fun _ => ultradns_plugin) false
      (fun _ _ => CnameException) example_client example_order ["foo.example.com"]
      (no_lookups (extension_handler (quiet_world ["example.net"]))) in
  let cleaned :=
    AcmeHandlers.cleanup_dns_challenges (fun _ => ultradns_plugin) example_client
      [extension_record] (handler (snd created)) in
  fst created = Ok [extension_record]
  /\ calls (handler (snd created))
     = [CreateTxtRecord ultradns "_acme-challenge.foo.example.com.acme.example.net" "T1"
          (Some "1")]
  /\ rrsets (env (handler (snd created)))
     !! ("example.net", "_acme-challenge.foo.example.com.acme") = Some ["T1"]
  /\ fst cleaned = Ok tt
  /\ calls (snd cleaned)
     = [CreateTxtRecord ultradns "_acme-challenge.foo.example.com.acme.example.net" "T1"
          (Some "1");
        DeleteTxtRecord ultradns (AuthorizationRecord.change_id extension_record) (Some "1")
          "_acme-challenge.foo.example.com" "T1"]
  /\ rrsets (env (snd cleaned))
     !! ("example.net", "_acme-challenge.foo.example.com.acme") = Some ["T1"].
Proof.
  cbn zeta. repeat split; vm_compute; reflexivity.
Qed.

(** ** The provider resolver: [autodetect_dns_providers] *)

Lemma match_names_detected domain d0 p : forall names visited st,
  detected domain d0 visited st ->
  detected domain d0 (visited ++ map (pair p) names)
    (AcmeHandlers.match_names domain p names st).
Proof.
  induction names as [|name rest IH]; intros visited st Hinv.
  - cbn. rewrite app_nil_r. exact Hinv.
  - cbn [map]. replace (visited ++ (p, name) :: map (pair p) rest)
      with ((visited ++ [(p, name)]) ++ map (pair p) rest)
      by (rewrite <- app_assoc; reflexivity).
    cbn [AcmeHandlers.match_names]. destruct st as [d match_length].
    destruct Hinv as (found & Hl & Hin & Hmax & Hatt & Hframe). cbn [fst snd] in *.
    destruct (AcmeHandlers.owns_suffix name domain) eqn:Hown.
    + destruct (Nat.ltb_spec match_length (String.length name)) as [Hlt|Hge].
      * apply IH. exists [p]. cbn [fst snd]. split; [apply lookup_insert_eq|].
        split; [|split; [|split]].
        -- intros q. split.
           ++ intros [<-|[]]. exists name. split; [|auto].
              apply in_or_app. right. left. reflexivity.
           ++ intros (n & Hn & Ho & Hlen). apply in_app_or in Hn.
              destruct Hn as [Hn|[[= <- <-]|[]]]; [|left; reflexivity].
              specialize (Hmax _ _ Hn Ho). lia.
        -- intros q n Hn Ho. apply in_app_or in Hn.
           destruct Hn as [Hn|[[= <- <-]|[]]]; [|lia].
           specialize (Hmax _ _ Hn Ho). lia.
        -- right. exists p, name. split; [|auto]. apply in_or_app. right. left. reflexivity.
        -- intros other Hne. rewrite lookup_insert_ne by congruence. apply Hframe, Hne.
      * destruct (Nat.eqb_spec (String.length name) match_length) as [Heq|Hneq].
        -- apply IH. exists (found ++ [p]). cbn [fst snd].
           split; [rewrite lookup_alter_eq, Hl; reflexivity|].
           split; [|split; [|split]].
           ++ intros q. rewrite in_app_iff, Hin. split.
              ** intros [(n & Hn & Ho & Hlen)|[<-|[]]].
                 --- exists n. split; [apply in_or_app; left; exact Hn | auto].
                 --- exists name. split; [|auto]. apply in_or_app. right. left. reflexivity.
              ** intros (n & Hn & Ho & Hlen). apply in_app_or in Hn.
                 destruct Hn as [Hn|[[= <- <-]|[]]]; [left; eauto | right; left; reflexivity].
           ++ intros q n Hn Ho. apply in_app_or in Hn.
              destruct Hn as [Hn|[[= <- <-]|[]]]; [exact (Hmax _ _ Hn Ho) | lia].
           ++ right. exists p, name. split; [|auto]. apply in_or_app. right. left. reflexivity.
           ++ intros other Hne. rewrite lookup_alter_ne by congruence. apply Hframe, Hne.
        -- apply IH. exists found. cbn [fst snd]. split; [exact Hl|].
           split; [|split; [|split]].
           ++ intros q. rewrite Hin. split.
              ** intros (n & Hn & Ho & Hlen). exists n.
                 split; [apply in_or_app; left; exact Hn | auto].
              ** intros (n & Hn & Ho & Hlen). apply in_app_or in Hn.
                 destruct Hn as [Hn|[[= <- <-]|[]]]; [eauto | lia].
           ++ intros q n Hn Ho. apply in_app_or in Hn.
              destruct Hn as [Hn|[[= <- <-]|[]]]; [exact (Hmax _ _ Hn Ho) | lia].
           ++ destruct Hatt as [Hz|(q & n & Hn & Ho & Hlen)]; [lia|].
              right. exists q, n. split; [apply in_or_app; left; exact Hn | auto].
           ++ exact Hframe.
    + apply IH. exists found. cbn [fst snd]. split; [exact Hl|].
      split; [|split; [|split]].
      * intros q. rewrite Hin. split.
        -- intros (n & Hn & Ho & Hlen). exists n.
           split; [apply in_or_app; left; exact Hn | auto].
        -- intros (n & Hn & Ho & Hlen). apply in_app_or in Hn.
           destruct Hn as [Hn|[[= <- <-]|[]]]; [eauto | congruence].
      * intros q n Hn Ho. apply in_app_or in Hn.
        destruct Hn as [Hn|[[= <- <-]|[]]]; [exact (Hmax _ _ Hn Ho) | congruence].
      * destruct Hatt as [Hz|(q & n & Hn & Ho & Hlen)]; [left; exact Hz|].
        right. exists q, n. split; [apply in_or_app; left; exact Hn | auto].
      * exact Hframe.
Qed.

Lemma match_providers_detected domain d0 : forall providers visited st,
  detected domain d0 visited st ->
  detected domain d0 (visited ++ owned_names providers)
    (AcmeHandlers.match_providers domain providers st).
Proof.
  induction providers as [|p rest IH]; intros visited st Hinv.
  - cbn. rewrite app_nil_r. exact Hinv.
  - cbn [AcmeHandlers.match_providers owned_names flat_map].
    fold (owned_names rest). rewrite app_assoc.
    destruct (DnsProvider.domains p) as [|name names] eqn:Hd.
    + cbn [map]. rewrite app_nil_r. apply IH. exact Hinv.
    + apply IH. apply match_names_detected. exact Hinv.
Qed.

Lemma in_owned_names providers p name :
  In (p, name) (owned_names providers)
  <-> In p providers /\ In name (DnsProvider.domains p).
Proof.
  unfold owned_names. rewrite in_flat_map. split.
  - intros (q & Hq & Hin). apply in_map_iff in Hin.
    destruct Hin as (n & [= <- <-] & Hn). auto.
  - intros [Hp Hn]. exists p. split; [exact Hp|]. apply in_map. exact Hn.
Qed.

(** C2.  [autodetect_dns_providers] returns the handler's dictionary, whose
    entry for the domain holds exactly the providers that own a suffix of the
    domain of the greatest length any provider owns one at: a provider that
    only owns shorter suffixes is not in it, and the entry is empty exactly
    when no provider owns a suffix of the domain.  The other entries and the
    list of providers are as before. *)
Theorem autodetect_dns_providers_longest_suffix domain h :
  exists found,
    fst (AcmeHandlers.autodetect_dns_providers domain h)
    = Ok (dns_providers_for_domain (self (snd (AcmeHandlers.autodetect_dns_providers domain h))))
    /\ dns_providers_for_domain (self (snd (AcmeHandlers.autodetect_dns_providers domain h)))
       !! domain = Some found
    /\ (forall p,
          In p found <->
          In p (all_dns_providers (self h))
          /\ exists name,
               In name (DnsProvider.domains p)
               /\ AcmeHandlers.owns_suffix name domain = true
               /\ forall q name',
                    In q (all_dns_providers (self h)) ->
                    In name' (DnsProvider.domains q) ->
                    AcmeHandlers.owns_suffix name' domain = true ->
                    String.length name' <= String.length name)
    /\ (found = [] <->
        forall p name,
          In p (all_dns_providers (self h)) ->
          In name (DnsProvider.domains p) ->
          AcmeHandlers.owns_suffix name domain = false)
    /\ (forall other, other <> domain ->
          dns_providers_for_domain (self (snd (AcmeHandlers.autodetect_dns_providers domain h)))
          !! other = dns_providers_for_domain (self h) !! other)
    /\ all_dns_providers (self (snd (AcmeHandlers.autodetect_dns_providers domain h)))
       = all_dns_providers (self h).
Proof.
  pose proof (match_providers_detected domain (dns_providers_for_domain (self h))
                (all_dns_providers (self h)) []
                (<[domain := []]> (dns_providers_for_domain (self h)), 0)) as Hinv.
  cbn [app] in Hinv.
  destruct Hinv as (found & Hl & Hin & Hmax & Hatt & Hframe).
  { exists []. cbn [fst snd]. split; [apply lookup_insert_eq|].
    split; [|split; [|split]].
    - intros p. split; [intros [] | intros (n & [] & _)].
    - intros p n [].
    - left. reflexivity.
    - intros other Hne. apply lookup_insert_ne. congruence. }
  set (st := AcmeHandlers.match_providers domain (all_dns_providers (self h))
               (<[domain := []]> (dns_providers_for_domain (self h)), 0)) in *.
  assert (Hout : AcmeHandlers.autodetect_dns_providers domain h
                 = (Ok (fst st),
                    {| self := {| dns_providers_for_domain := fst st;
                                  all_dns_providers := all_dns_providers (self h) |};
                       calls := calls h; env := env h |})) by reflexivity.
  rewrite Hout. cbn [fst snd self dns_providers_for_domain all_dns_providers].
  exists found. split; [reflexivity|]. split; [exact Hl|].
  split; [|split; [|split; [exact Hframe | reflexivity]]].
  - intros p. rewrite Hin. split.
    + intros (name & Hn & Ho & Hlen). apply in_owned_names in Hn. destruct Hn as [Hp Hn].
      split; [exact Hp|]. exists name. split; [exact Hn|]. split; [exact Ho|].
      intros q name' Hq Hn' Ho'. rewrite Hlen.
      apply (Hmax q name'); [apply in_owned_names; auto | exact Ho'].
    + intros (Hp & name & Hn & Ho & Hbest). exists name.
      split; [apply in_owned_names; auto|]. split; [exact Ho|].
      assert (Hle : String.length name <= snd st)
        by (apply (Hmax p name); [apply in_owned_names; auto | exact Ho]).
      destruct Hatt as [Hz|(q & n & Hqn & Hno & Hnl)]; [lia|].
      apply in_owned_names in Hqn. destruct Hqn as [Hq Hqn].
      specialize (Hbest q n Hq Hqn Hno). lia.
  - split.
    + intros -> p name Hp Hn. destruct (AcmeHandlers.owns_suffix name domain) eqn:Ho;
        [exfalso | reflexivity].
      assert (Hle : String.length name <= snd st)
        by (apply (Hmax p name); [apply in_owned_names; auto | exact Ho]).
      destruct Hatt as [Hz|(q & n & Hqn & Hno & Hnl)].
      * apply (proj2 (Hin p)). exists name.
        split; [apply in_owned_names; auto|]. split; [exact Ho | lia].
      * apply (proj2 (Hin q)). exists n. auto.
    + intros Hnone. destruct found as [|p found]; [reflexivity|]. exfalso.
      destruct (proj1 (Hin p) ltac:(left; reflexivity)) as (name & Hn & Ho & _).
      apply in_owned_names in Hn. destruct Hn as [Hp Hn].
      rewrite (Hnone p name Hp Hn) in Ho. discriminate.
Qed.

(** ** Challenge selection: [get_dns_challenges] *)

Lemma select_challenges_In domain_to_validate is_wildcard authorizations combo :
  In combo (AcmeHandlers.select_challenges domain_to_validate is_wildcard authorizations)
  <-> exists authz,
        In authz authorizations
        /\ In combo (AuthorizationResource.challenges authz)
        /\ ChallengeBody.chall combo = DNS01
        /\ AuthorizationResource.wildcard authz = is_wildcard
        /\ Py.lower (AuthorizationResource.identifier_value authz)
           = Py.lower domain_to_validate.
Proof.
  induction authorizations as [|a rest IH]; cbn [AcmeHandlers.select_challenges].
  - split; [intros [] | intros (authz & [] & _)].
  - assert (Hskip : (AuthorizationResource.wildcard a <> is_wildcard
                     \/ Py.lower (AuthorizationResource.identifier_value a)
                        <> Py.lower domain_to_validate) ->
                    (In combo (AcmeHandlers.select_challenges domain_to_validate
                                 is_wildcard rest)
                     <-> exists authz,
                           In authz (a :: rest)
                           /\ In combo (AuthorizationResource.challenges authz)
                           /\ ChallengeBody.chall combo = DNS01
                           /\ AuthorizationResource.wildcard authz = is_wildcard
                           /\ Py.lower (AuthorizationResource.identifier_value authz)
                              = Py.lower domain_to_validate)).
    { intros Hno. rewrite IH. split.
      - intros (authz & Hin & H). exists authz. split; [right; exact Hin | exact H].
      - intros (authz & [<-|Hin] & Hc & Hd & Hw & Hl).
        + destruct Hno; contradiction.
        + exists authz. auto. }
    destruct (String.eqb_spec (Py.lower (AuthorizationResource.identifier_value a))
                (Py.lower domain_to_validate)) as [Heq|Hne]; cbn [negb].
    + destruct is_wildcard, (AuthorizationResource.wildcard a) eqn:Hw; cbn [andb negb];
        try (apply Hskip; left; congruence).
      * rewrite in_app_iff, filter_In, IH. split.
        -- intros [[Hc Hd]|(authz & Hin & H)].
           ++ exists a. split; [left; reflexivity|]. split; [exact Hc|].
              split; [destruct (ChallengeBody.chall combo); try discriminate; reflexivity|].
              auto.
           ++ exists authz. split; [right; exact Hin | exact H].
        -- intros (authz & [<-|Hin] & Hc & Hd & Hw' & Hl).
           ++ left. split; [exact Hc | rewrite Hd; reflexivity].
           ++ right. exists authz. auto.
      * rewrite in_app_iff, filter_In, IH. split.
        -- intros [[Hc Hd]|(authz & Hin & H)].
           ++ exists a. split; [left; reflexivity|]. split; [exact Hc|].
              split; [destruct (ChallengeBody.chall combo); try discriminate; reflexivity|].
              auto.
           ++ exists authz. split; [right; exact Hin | exact H].
        -- intros (authz & [<-|Hin] & Hc & Hd & Hw' & Hl).
           ++ left. split; [exact Hc | rewrite Hd; reflexivity].
           ++ right. exists authz. auto.
    + apply Hskip. right. exact Hne.
Qed.

Lemma strip_wildcard_prefixed d :
  AcmeHandlers.strip_wildcard ("*." +:+ d) = (d, true).
Proof. destruct d; reflexivity. Qed.

Lemma strip_wildcard_plain host :
  Py.startswith host "*." = false -> AcmeHandlers.strip_wildcard host = (host, false).
Proof. intros H. unfold AcmeHandlers.strip_wildcard. rewrite H. reflexivity. Qed.

Lemma get_dns_challenges_In host authorizations combo :
  In combo (AcmeHandlers.get_dns_challenges host authorizations)
  <-> exists authz,
        In authz authorizations
        /\ In combo (AuthorizationResource.challenges authz)
        /\ ChallengeBody.chall combo = DNS01
        /\ AuthorizationResource.wildcard authz = snd (AcmeHandlers.strip_wildcard host)
        /\ Py.lower (AuthorizationResource.identifier_value authz)
           = Py.lower (fst (AcmeHandlers.strip_wildcard host)).
Proof.
  unfold AcmeHandlers.get_dns_challenges.
  destruct (AcmeHandlers.strip_wildcard host) as [d w]. apply select_challenges_In.
Qed.

(** C9.  A challenge is selected for a host only from an authorization whose
    wildcard flag is the presence of the wildcard prefix on the host and whose
    identifier is the host without that prefix (compared in lower case); so a
    host [*.d] selects only from authorizations with the wildcard flag set and
    identifier [d], and a host [d] without the prefix only from authorizations
    with the flag unset and identifier [d]. *)
Theorem get_dns_challenges_wildcard_agreement host authorizations combo :
  (In combo (AcmeHandlers.get_dns_challenges host authorizations)
   <-> exists authz,
         In authz authorizations
         /\ In combo (AuthorizationResource.challenges authz)
         /\ ChallengeBody.chall combo = DNS01
         /\ AuthorizationResource.wildcard authz = snd (AcmeHandlers.strip_wildcard host)
         /\ Py.lower (AuthorizationResource.identifier_value authz)
            = Py.lower (fst (AcmeHandlers.strip_wildcard host)))
  /\ (forall d,
        host = "*." +:+ d ->
        In combo (AcmeHandlers.get_dns_challenges host authorizations) ->
        exists authz,
          In authz authorizations
          /\ In combo (AuthorizationResource.challenges authz)
          /\ AuthorizationResource.wildcard authz = true
          /\ Py.lower (AuthorizationResource.identifier_value authz) = Py.lower d)
  /\ (Py.startswith host "*." = false ->
      In combo (AcmeHandlers.get_dns_challenges host authorizations) ->
      exists authz,
        In authz authorizations
        /\ In combo (AuthorizationResource.challenges authz)
        /\ AuthorizationResource.wildcard authz = false
        /\ Py.lower (AuthorizationResource.identifier_value authz) = Py.lower host).
Proof.
  pose proof (get_dns_challenges_In host authorizations combo) as Hgen.
  split; [exact Hgen|]. split.
  - intros d -> Hin. apply Hgen in Hin. rewrite strip_wildcard_prefixed in Hin.
    destruct Hin as (authz & Ha & Hc & _ & Hw & Hl). exists authz. auto.
  - intros Hplain Hin. apply Hgen in Hin. rewrite (strip_wildcard_plain _ Hplain) in Hin.
    destruct Hin as (authz & Ha & Hc & _ & Hw & Hl). exists authz. auto.
Qed.

(** The wildcard prefix has no letters: lower-casing does not touch it. *)
Lemma eqb_star_lower a : Ascii.eqb a "*" = Ascii.eqb (Py.lower_char a) "*".
Proof. destruct a as [[] [] [] [] [] [] [] []]; reflexivity. Qed.

Lemma eqb_dot_lower a : Ascii.eqb a "." = Ascii.eqb (Py.lower_char a) ".".
Proof. destruct a as [[] [] [] [] [] [] [] []]; reflexivity. Qed.

Lemma startswith_wildcard a b s :
  Py.startswith (String a (String b s)) "*." = Ascii.eqb a "*" && Ascii.eqb b ".".
Proof.
  unfold Py.startswith. cbn [String.prefix].
  destruct (ascii_dec "*" a) as [<-|Ha].
  - destruct (ascii_dec "." b) as [<-|Hb].
    + destruct s; reflexivity.
    + destruct (Ascii.eqb_spec b "."); [congruence | reflexivity].
  - destruct (Ascii.eqb_spec a "*"); [congruence | reflexivity].
Qed.

Lemma strip_wildcard_lower host host' :
  Py.lower host = Py.lower host' ->
  snd (AcmeHandlers.strip_wildcard host) = snd (AcmeHandlers.strip_wildcard host')
  /\ Py.lower (fst (AcmeHandlers.strip_wildcard host))
     = Py.lower (fst (AcmeHandlers.strip_wildcard host')).
Proof.
  intros H.
  assert (Hone : forall c, Py.startswith (String c "") "*." = false)
    by (intros c; unfold Py.startswith; cbn [String.prefix];
        destruct (ascii_dec "*" c); reflexivity).
  destruct host as [|a [|b s]], host' as [|a' [|b' s']]; cbn [Py.lower] in H;
    try discriminate H.
  - split; reflexivity.
  - unfold AcmeHandlers.strip_wildcard. rewrite !Hone. split; [reflexivity | exact H].
  - injection H; intros Hs Hb Ha.
    unfold AcmeHandlers.strip_wildcard. rewrite !startswith_wildcard.
    rewrite (eqb_star_lower a), (eqb_star_lower a'), (eqb_dot_lower b), (eqb_dot_lower b').
    rewrite Ha, Hb.
    destruct (Ascii.eqb (Py.lower_char a') "*" && Ascii.eqb (Py.lower_char b') ".");
      cbn [fst snd Py.slice_from String.length Py.lower].
    + split; [reflexivity | exact Hs].
    + split; [reflexivity|]. rewrite Ha, Hb, Hs. reflexivity.
Qed.

Lemma select_challenges_case d d' is_wildcard authorizations authorizations' :
  Py.lower d = Py.lower d' ->
  Forall2 same_up_to_case authorizations authorizations' ->
  AcmeHandlers.select_challenges d is_wildcard authorizations
  = AcmeHandlers.select_challenges d' is_wildcard authorizations'.
Proof.
  intros Hd Hall. induction Hall as [|a a' rest rest' (Hi & Hw & Hc) _ IH].
  - reflexivity.
  - cbn [AcmeHandlers.select_challenges]. rewrite Hi, Hd, Hw, Hc, IH. reflexivity.
Qed.

(** C10.  The identifier of an authorization is compared with the host
    (without its wildcard prefix) in lower case: an authorization whose
    identifier differs from it only in letter case, and whose wildcard flag
    fits, has its DNS-01 challenges selected; and the selection is the same
    for two hosts, and for two lists of authorizations, that differ only in
    letter case. *)
Theorem get_dns_challenges_case_insensitive host authorizations :
  (forall authz combo,
     In authz authorizations ->
     Py.lower (AuthorizationResource.identifier_value authz)
     = Py.lower (fst (AcmeHandlers.strip_wildcard host)) ->
     AuthorizationResource.wildcard authz = snd (AcmeHandlers.strip_wildcard host) ->
     In combo (AuthorizationResource.challenges authz) ->
     ChallengeBody.chall combo = DNS01 ->
     In combo (AcmeHandlers.get_dns_challenges host authorizations))
  /\ (forall host' authorizations',
        Py.lower host = Py.lower host' ->
        Forall2 same_up_to_case authorizations authorizations' ->
        AcmeHandlers.get_dns_challenges host authorizations
        = AcmeHandlers.get_dns_challenges host' authorizations').
Proof.
  split.
  - intros authz combo Hin Hl Hw Hc Hd.
    apply get_dns_challenges_In. exists authz. auto.
  - intros host' authorizations' Hh Hall.
    destruct (strip_wildcard_lower host host' Hh) as [Hw Hd].
    unfold AcmeHandlers.get_dns_challenges.
    destruct (AcmeHandlers.strip_wildcard host) as [d w].
    destruct (AcmeHandlers.strip_wildcard host') as [d' w'].
    cbn [fst snd] in Hw, Hd. subst w'.
    apply select_challenges_case; assumption.
Qed.

(** ** Examples *)

(** With the zone found and nothing failing, the record is created and its
    change id returned. *)
Lemma create_txt_record_outcomes_witness :
  exists w2,
    Ultradns.create_txt_record "_acme-challenge.foo.example.com" "T1" None
      (quiet_world ["example.com"])
    = (Ok ("_acme-challenge.foo" +:+ "." +:+ "example.com", "T1"), w2)
    /\ rrsets w2 = {[ ("example.com", "_acme-challenge.foo") := ["T1"] ]}.
Proof.
  destruct (proj2 (create_txt_record_outcomes "_acme-challenge.foo.example.com" "T1" None
                     (quiet_world ["example.com"]))
              "example.com"
              (snd (Ultradns.get_zone_name "_acme-challenge.foo.example.com" None
                      (quiet_world ["example.com"])))
              eq_refl)
    as (w2 & Hrun & Hok & _).
  exists w2. split; [exact Hrun|]. rewrite (Hok eq_refl). reflexivity.
Defined.

(** No resolver ever answers: the poller reports the failure and returns. *)
Lemma wait_for_dns_change_timeout_reported_witness :
  exists w' sent,
    Ultradns.wait_for_dns_change ("_acme-challenge.foo.example.com", "T1") None
      (quiet_world ["example.com"])
    = (Ok tt, w')
    /\ metrics w'
       = metrics (quiet_world ["example.com"]) ++ sent
         ++ ["wait_for_dns_change_fail"; "wait_for_dns_change_error"]
    /\ sentry w' = S (sentry (quiet_world ["example.com"]))
    /\ rrsets w' = rrsets (quiet_world ["example.com"])
    /\ http_log w' = http_log (quiet_world ["example.com"])
    /\ AcmeHandlers.wait_for_changes (fun _ => ultradns_plugin) ultradns None
         [("_acme-challenge.foo.example.com", "T1")]
         (resolved_handler (quiet_world ["example.com"]))
       = (Ok tt,
          {| self := self (resolved_handler (quiet_world ["example.com"]));
             calls := [WaitForDnsChange ultradns ("_acme-challenge.foo.example.com", "T1")
                         None];
             env := w' |}).
Proof.
  destruct (wait_for_dns_change_timeout_reported "_acme-challenge.foo.example.com" "T1"
              None (quiet_world ["example.com"]))
    as (w' & sent & H1 & H2 & H3 & H4 & H5 & H6).
  - left. intros i Hi. reflexivity.
  - exists w', sent. repeat (split; [assumption|]).
    exact (H6 (fun _ => ultradns_plugin) []
              (self (resolved_handler (quiet_world ["example.com"])))).
Defined.

(** C5 as stated fails: the authoritative resolver never answers, the budget
    of 20 attempts is exhausted, and the poller returns to its caller without
    an exception; [complete_dns_challenge] goes on and answers the challenge. *)
Lemma wait_for_dns_change_timeout_not_raised :
  never_success
    (stub (quiet_world ["example.com"]) "156.154.64.154"
       "_acme-challenge.foo.example.com" "T1") 20
  /\ fst (Ultradns.wait_for_dns_change ("_acme-challenge.foo.example.com", "T1") None
            (quiet_world ["example.com"]))
     = Ok tt
  /\ fst (AcmeHandlers.complete_dns_challenge (fun _ => ultradns_plugin) example_client
            example_record (resolved_handler (quiet_world ["example.com"])))
     = Ok tt
  /\ calls (snd (AcmeHandlers.complete_dns_challenge (fun _ => ultradns_plugin)
                   example_client example_record
                   (resolved_handler (quiet_world ["example.com"]))))
     = [WaitForDnsChange ultradns ("_acme-challenge.foo.example.com", "T1") (Some "1");
        AnswerChallenge "T1"].
Proof.
  split; [intros i Hi; reflexivity|].
  split; [vm_compute; reflexivity|].
  split; vm_compute; reflexivity.
Qed.

(** C3 fails on the code: with two DNS-01 challenges for [foo.example.com]
    and no delegation, the second record is created with the challenge label
    in front twice. *)
Lemma start_dns_challenge_label_twice :
  calls (snd (AcmeHandlers.start_dns_challenge (fun _ => ultradns_plugin) example_client
                (Some "1") "foo.example.com" "foo.example.com" ultradns
                {| Order.uri := "https://acme.example/order/1";
                   Order.authorizations := [authz_for "foo.example.com" false ["T1"; "T2"]] |}
                None (resolved_handler (quiet_world ["example.com"]))))
  = [CreateTxtRecord ultradns "_acme-challenge.foo.example.com" "T1" (Some "1");
     CreateTxtRecord ultradns "_acme-challenge._acme-challenge.foo.example.com" "T2"
       (Some "1")].
Proof. vm_compute. reflexivity. Qed.

(** The wildcard host [*.example.com] selects from the wildcard authorization
    only; the challenge it selects is the one of that authorization. *)
Lemma get_dns_challenges_wildcard_agreement_witness :
  exists authz,
    In authz [authz_for "example.com" false ["T1"]; authz_for "Example.com" true ["T2"]]
    /\ In (dns01 "T2") (AuthorizationResource.challenges authz)
    /\ AuthorizationResource.wildcard authz = true
    /\ Py.lower (AuthorizationResource.identifier_value authz) = Py.lower "example.com".
Proof.
  apply (proj1 (proj2 (get_dns_challenges_wildcard_agreement "*.example.com"
                         [authz_for "example.com" false ["T1"];
                          authz_for "Example.com" true ["T2"]]
                         (dns01 "T2")))
           "example.com" eq_refl).
  left. reflexivity.
Defined.

(** Letter case of the host and of the identifier makes no difference. *)
Lemma get_dns_challenges_case_insensitive_witness :
  AcmeHandlers.get_dns_challenges "*.Example.COM" [authz_for "EXAMPLE.com" true ["T1"]]
  = AcmeHandlers.get_dns_challenges "*.example.com" [authz_for "example.com" true ["T1"]].
Proof.
  apply (proj2 (get_dns_challenges_case_insensitive "*.Example.COM"
                  [authz_for "EXAMPLE.com" true ["T1"]])
           "*.example.com" [authz_for "example.com" true ["T1"]] eq_refl).
  constructor; [|constructor]. repeat split.
Defined.

(** The scenario of the specification: [foo.example.com], one DNS-01
    challenge, no delegation: one record at [_acme-challenge.foo.example.com]. *)
Lemma start_dns_challenge_hosts_witness :
  calls (snd (AcmeHandlers.start_dns_challenge (fun _ => ultradns_plugin) example_client
                (Some "1") "foo.example.com" "foo.example.com" ultradns
                {| Order.uri := "https://acme.example/order/1";
                   Order.authorizations := [authz_for "foo.example.com" false ["T1"]] |}
                None (resolved_handler (quiet_world ["example.com"]))))
  = calls (resolved_handler (quiet_world ["example.com"]))
    ++ [CreateTxtRecord ultradns ("_acme-challenge." +:+ "foo.example.com") "T1" (Some "1")]
  /\ length (AuthorizationRecord.change_id example_record) = 1.
Proof.
  apply (proj2 (start_dns_challenge_hosts (fun _ => ultradns_plugin) example_client
                  (Some "1") "foo.example.com" "foo.example.com" ultradns
                  {| Order.uri := "https://acme.example/order/1";
                     Order.authorizations := [authz_for "foo.example.com" false ["T1"]] |}
                  None (resolved_handler (quiet_world ["example.com"]))
                  example_record _ eq_refl)
           eq_refl (dns01 "T1") eq_refl).
Defined.

(** An account with three zones, one of them not active: the listing returns
    the other two. *)
Lemma get_zones_healthy_witness :
  fst (Ultradns.get_zones None
           {| token_service := Ok "token";
               remote_zones := [active_zone "example.com";
                                {| Zone.name := "old.example.com";
                                   Zone.authoritative_type := "PRIMARY";
                                   Zone.status := "SUSPENDED" |};
                                active_zone "example.net"];
               rrsets := ∅;
               http_fault := fun _ _ => None;
               http_log := [];
               resolver := fun _ _ _ => DNSException;
               dns_queries := [];
               slept := 0;
               metrics := [];
               sentry := 0;
               log := [] |})
  = Ok ["example.com"; "example.net"].
Proof.
  apply (get_zones_healthy "token" None
           {| token_service := Ok "token";
              remote_zones := [active_zone "example.com";
                               {| Zone.name := "old.example.com";
                                  Zone.authoritative_type := "PRIMARY";
                                  Zone.status := "SUSPENDED" |};
                               active_zone "example.net"];
              rrsets := ∅;
              http_fault := fun _ _ => None;
              http_log := [];
              resolver := fun _ _ _ => DNSException;
              dns_queries := [];
              slept := 0;
              metrics := [];
              sentry := 0;
              log := [] |});
    reflexivity.
Defined.

(** * More of the code *)

(** ** [get_zone_name]: which zone, exactly *)

(** Two ways to point at an item of a list: at the same item, or one before
    the other. *)
Lemma split_meet {A} (pre : list A) : forall x post pre' y post',
  pre ++ x :: post = pre' ++ y :: post' ->
  x = y \/ (In x pre' /\ In y post) \/ (In y pre /\ In x post').
Proof.
  induction pre as [|p pre IH]; intros x post pre' y post' H;
    destruct pre' as [|p' pre']; cbn [app] in H; injection H; intros Hrest Hhead.
  - left. exact Hhead.
  - right. left. subst. split; [left; reflexivity|].
    apply in_or_app. right. left. reflexivity.
  - right. right. subst. split; [left; reflexivity|].
    apply in_or_app. right. left. reflexivity.
  - destruct (IH _ _ _ _ _ Hrest) as [Heq|[[Hx Hy]|[Hy Hx]]].
    + left. exact Heq.
    + right. left. split; [right; exact Hx | exact Hy].
    + right. right. split; [right; exact Hy | exact Hx].
Qed.

Lemma most_specific_first domain zones : forall zone_name,
  let r := Ultradns.most_specific domain zones zone_name in
  (r = zone_name
   /\ forall z, In z zones -> Py.endswith domain z = true ->
        Py.count "." z <= Py.count "." zone_name)
  \/ (exists before after,
        zones = before ++ r :: after
        /\ Py.endswith domain r = true
        /\ Py.count "." zone_name < Py.count "." r
        /\ (forall z, In z before -> Py.endswith domain z = true ->
              Py.count "." z < Py.count "." r)
        /\ (forall z, In z after -> Py.endswith domain z = true ->
              Py.count "." z <= Py.count "." r)).
Proof.
  induction zones as [|z zones IH]; intros zone_name; cbn [Ultradns.most_specific]; cbn zeta.
  - left. split; [reflexivity | intros z []].
  - destruct (Py.endswith domain z && (Py.count "." zone_name <? Py.count "." z)%nat)
      eqn:Htake.
    + apply andb_true_iff in Htake. destruct Htake as [Hz Hlt].
      apply Nat.ltb_lt in Hlt. right.
      destruct (IH z) as [[Hr Hall]|(before & after & Hsplit & He & Hc & Hb & Ha)].
      * exists [], zones. cbn zeta in Hr. rewrite Hr. cbn [app].
        split; [reflexivity|]. split; [exact Hz|]. split; [exact Hlt|].
        split; [intros z' [] | exact Hall].
      * exists (z :: before), after. cbn zeta in *.
        split; [rewrite Hsplit at 1; reflexivity|]. split; [exact He|].
        split; [lia|]. split; [|exact Ha].
        intros z' [<-|Hin] Hz'; [exact Hc | exact (Hb z' Hin Hz')].
    + assert (Hskip : Py.endswith domain z = true ->
                      Py.count "." z <= Py.count "." zone_name).
      { intros Hz. rewrite Hz in Htake. cbn [andb] in Htake.
        apply Nat.ltb_ge in Htake. exact Htake. }
      destruct (IH zone_name) as [[Hr Hall]|(before & after & Hsplit & He & Hc & Hb & Ha)].
      * left. split; [exact Hr|].
        intros z' [<-|Hin] Hz'; [exact (Hskip Hz') | exact (Hall z' Hin Hz')].
      * right. exists (z :: before), after. cbn zeta in *.
        split; [rewrite Hsplit at 1; reflexivity|]. split; [exact He|].
        split; [exact Hc|]. split; [|exact Ha].
        intros z' [<-|Hin] Hz'; [specialize (Hskip Hz'); lia | exact (Hb z' Hin Hz')].
Qed.

(** Whatever the listing returns, [get_zone_name] returns the first of the
    zones with the most dots among those the domain ends with, provided that
    zone has a dot; it raises exactly when every zone the domain ends with
    has no dot (a single-label zone is never returned). *)
Theorem get_zone_name_first_most_dots domain account_number w zones w1 :
  Ultradns.get_zones account_number w = (Ok zones, w1) ->
  (forall r, fst (Ultradns.get_zone_name domain account_number w) = Ok r <->
             first_most_specific domain zones r)
  /\ (fst (Ultradns.get_zone_name domain account_number w)
      = Raise (Ultradns.no_zone_found domain)
      <-> forall z, In z zones -> Py.endswith domain z = true -> Py.count "." z = 0).
Proof.
  intros Hz. rewrite (get_zone_name_unfold domain _ _ _ _ Hz).
  pose proof (most_specific_first domain zones "") as Hms. cbn zeta in Hms.
  set (best := Ultradns.most_specific domain zones "") in *.
  assert (Hempty : forall s, Py.count "." s > 0 -> String.eqb s "" = false).
  { intros s Hs. destruct s; [cbn in Hs; lia | reflexivity]. }
  destruct Hms as [[Hr Hall]|(before & after & Hsplit & He & Hc & Hb & Ha)].
  - rewrite Hr. cbn [String.eqb fst]. split.
    + intros r. split; [intros [=]|].
      intros (b & a & Hs & Hre & Hrc & _). exfalso.
      assert (Hin : In r zones) by (rewrite Hs; apply in_or_app; right; left; reflexivity).
      specialize (Hall r Hin Hre). cbn in Hall. lia.
    + split; [|reflexivity]. intros _ z Hin Hze. specialize (Hall z Hin Hze).
      cbn in Hall. lia.
  - cbn in Hc. rewrite (Hempty best) by lia. cbn [fst]. split.
    + intros r. split.
      * intros [= <-]. exists before, after. auto.
      * intros (b & a & Hs & Hre & Hrc & Hrb & Hra). f_equal.
        rewrite Hs in Hsplit.
        destruct (split_meet _ _ _ _ _ _ Hsplit) as [Heq|[[Hrin Hbin]|[Hbin Hrin]]].
        -- symmetry. exact Heq.
        -- specialize (Hb r Hrin Hre). specialize (Hra best Hbin He). lia.
        -- specialize (Hrb best Hbin He). specialize (Ha r Hrin Hre). lia.
    + split; [intros [=]|]. intros Hall. exfalso.
      assert (Hin : In best zones)
        by (rewrite Hsplit; apply in_or_app; right; left; reflexivity).
      specialize (Hall best Hin He). lia.
Qed.

Lemma get_zone_name_first_most_dots_witness :
  fst (Ultradns.get_zone_name "a.b.example.com" None
         (quiet_world ["com"; "example.com"; "b.example.com"; "x.example.com"]))
  = Ok "b.example.com".
Proof.
  apply (proj1 (get_zone_name_first_most_dots "a.b.example.com" None
                  (quiet_world ["com"; "example.com"; "b.example.com"; "x.example.com"])
                  ["com"; "example.com"; "b.example.com"; "x.example.com"] _ eq_refl)).
  exists ["com"; "example.com"], ["x.example.com"].
  split; [reflexivity|]. split; [reflexivity|]. split; [cbn; lia|].
  split.
  - intros z [<-|[<-|[]]] _; cbn; lia.
  - intros z [<-|[]] H. discriminate H.
Defined.

(** ** The owner name and the change id of [create_txt_record] *)

Lemma join_cons sep x y rest :
  Py.join sep (x :: y :: rest) = x +:+ sep +:+ Py.join sep (y :: rest).
Proof. reflexivity. Qed.

Lemma join_String a piece pieces :
  Py.join "." (String a piece :: pieces) = String a (Py.join "." (piece :: pieces)).
Proof. destruct pieces; reflexivity. Qed.

Lemma join_split s : Py.join "." (Py.split "." s) = s.
Proof.
  induction s as [|a s IH]; [reflexivity|].
  cbn [Py.split]. destruct (Ascii.eqb_spec a ".") as [->|Hne].
  - destruct (Py.split "." s) as [|piece pieces] eqn:E.
    + exfalso. exact (split_nonempty _ _ E).
    + rewrite join_cons, IH. reflexivity.
  - destruct (Py.split "." s) as [|piece pieces] eqn:E.
    + exfalso. exact (split_nonempty _ _ E).
    + rewrite join_String, IH. reflexivity.
Qed.

Lemma split_app_dot p z :
  Py.split "." (p +:+ "." +:+ z) = Py.split "." p ++ Py.split "." z.
Proof.
  induction p as [|a p IH].
  - reflexivity.
  - change (String a p +:+ "." +:+ z) with (String a (p +:+ "." +:+ z)).
    cbn [Py.split]. rewrite IH. destruct (Ascii.eqb a "."); [reflexivity|].
    destruct (Py.split "." p) as [|piece pieces] eqn:E.
    + exfalso. exact (split_nonempty _ _ E).
    + reflexivity.
Qed.

Lemma drop_last_app {A} (l1 l2 : list A) : Py.drop_last (length l2) (l1 ++ l2) = l1.
Proof.
  unfold Py.drop_last. rewrite length_app.
  replace (length l1 + length l2 - length l2) with (length l1) by lia.
  rewrite firstn_app, Nat.sub_diag, firstn_all. cbn. apply app_nil_r.
Qed.

Lemma node_name_of_subdomain p zone :
  Ultradns.node_name_of (p +:+ "." +:+ zone) zone = p.
Proof.
  unfold Ultradns.node_name_of. rewrite split_app_dot, drop_last_app. apply join_split.
Qed.

Lemma node_name_of_short domain zone :
  labels domain <= labels zone -> Ultradns.node_name_of domain zone = "".
Proof.
  unfold Ultradns.node_name_of, labels, Py.drop_last. intros H.
  replace (length (Py.split "." domain) - length (Py.split "." zone)) with 0 by lia.
  reflexivity.
Qed.

Lemma create_txt_record_change_id domain token account_number w zone w1 :
  Ultradns.get_zone_name domain account_number w = (Ok zone, w1) ->
  fst (Ultradns.create_txt_record domain token account_number w)
  = Ok (Ultradns.node_name_of domain zone +:+ "." +:+ zone, token).
Proof.
  intros Hz. unfold Ultradns.create_txt_record. unfold bind at 1. rewrite Hz. cbn zeta.
  unfold bind at 1. unfold try_except. unfold bind at 1.
  destruct (Ultradns._post _ _ w1) as [[[]|e] w2]; reflexivity.
Qed.

(** The change id [create_txt_record] returns names the domain it was asked
    for when the zone found is the domain's last labels, after a dot; when
    the domain has no more labels than the zone found (the domain is the zone,
    or only ends with it inside a label), the owner name is empty and the
    change id names the zone after a leading dot. *)
Theorem create_txt_record_fqdn domain token account_number w zone w1 :
  Ultradns.get_zone_name domain account_number w = (Ok zone, w1) ->
  (forall p, domain = p +:+ "." +:+ zone ->
     fst (Ultradns.create_txt_record domain token account_number w) = Ok (domain, token))
  /\ (labels domain <= labels zone ->
      fst (Ultradns.create_txt_record domain token account_number w)
      = Ok ("." +:+ zone, token)).
Proof.
  intros Hz. rewrite (create_txt_record_change_id _ _ _ _ _ _ Hz). split.
  - intros p ->. rewrite node_name_of_subdomain. reflexivity.
  - intros Hl. rewrite (node_name_of_short _ _ Hl). reflexivity.
Qed.

Lemma create_txt_record_fqdn_witness :
  fst (Ultradns.create_txt_record "_acme-challenge.foo.example.com" "T1" None
         (quiet_world ["example.com"]))
  = Ok ("_acme-challenge.foo.example.com", "T1")
  /\ fst (Ultradns.create_txt_record "badexample.com" "T1" None
            (quiet_world ["example.com"]))
     = Ok ("." +:+ "example.com", "T1").
Proof.
  split.
  - exact (proj1 (create_txt_record_fqdn "_acme-challenge.foo.example.com" "T1" None
                    (quiet_world ["example.com"]) "example.com" _ eq_refl)
             "_acme-challenge.foo" eq_refl).
  - apply (proj2 (create_txt_record_fqdn "badexample.com" "T1" None
                    (quiet_world ["example.com"]) "example.com" _ eq_refl)).
    cbn. lia.
Defined.

(** ** The zone lookup only depends on the token service, the zones and the faults *)

Lemma same_service_refl w : same_service w w.
Proof. repeat split. Qed.

Lemma same_service_of_remote w w' : same_remote w w' -> same_service w w'.
Proof. intros (A & B & _ & D). repeat split; congruence. Qed.

Lemma same_service_trans w1 w2 w3 :
  same_service w1 w2 -> same_service w2 w3 -> same_service w1 w3.
Proof. intros (A & B & C) (A' & B' & C'). repeat split; congruence. Qed.

Lemma same_service_sym w1 w2 : same_service w1 w2 -> same_service w2 w1.
Proof. intros (A & B & C). repeat split; congruence. Qed.

Lemma agree_bind {A B} (R : world -> world -> Prop) (m : M world A) (k : A -> M world B)
    w w' :
  agree R (m w) (m w') ->
  (forall a w1 w1', R w1 w1' -> agree R (k a w1) (k a w1')) ->
  agree R (bind m k w) (bind m k w').
Proof.
  intros [Hf Hs] Hk. unfold bind.
  destruct (m w) as [r w1]. destruct (m w') as [r' w1']. cbn [fst snd] in Hf, Hs.
  subst r'. destruct r as [a|e]; [apply Hk; exact Hs | split; [reflexivity | exact Hs]].
Qed.

Lemma agree_pure {A} (R : world -> world -> Prop) (r : result A) w w' :
  R w w' -> agree R (r, w) (r, w').
Proof. intros H. split; [reflexivity | exact H]. Qed.

Lemma _get_zones_rel params w w' :
  same_service w w' ->
  agree same_service (Ultradns._get zones_path params w) (Ultradns._get zones_path params w').
Proof.
  intros (Ht & Hz & Hf). unfold agree. rewrite !_get_unfold, <- Ht, <- Hf.
  destruct (token_service w) as [t|e] eqn:Et.
  - destruct (http_fault w GET zones_path) eqn:Ef.
    + cbn. split; [reflexivity | repeat split; cbn; congruence].
    + destruct params as [[o l]|]; cbn; rewrite <- Hz;
        (split; [reflexivity | repeat split; cbn; congruence]).
  - cbn. split; [reflexivity | repeat split; cbn; congruence].
Qed.

Lemma map_m_pages_rel indices : forall w w',
  same_service w w' ->
  agree same_service
    (map_m (fun index =>
              resp <- Ultradns._get zones_path (Some (index, 100));;
              match resp with
              | ZonesPage _ zones => ret zones
              | RRSets _ => raise (KeyError "zones")
              end) indices w)
    (map_m (fun index =>
              resp <- Ultradns._get zones_path (Some (index, 100));;
              match resp with
              | ZonesPage _ zones => ret zones
              | RRSets _ => raise (KeyError "zones")
              end) indices w').
Proof.
  induction indices as [|i indices IH]; intros w w' Hs; cbn [map_m].
  - apply agree_pure. exact Hs.
  - apply agree_bind.
    + apply agree_bind; [apply _get_zones_rel; exact Hs|].
      intros resp w1 w1' H1. destruct resp; apply agree_pure; exact H1.
    + intros zs w1 w1' H1. apply agree_bind; [apply IH; exact H1|].
      intros ys w2 w2' H2. apply agree_pure. exact H2.
Qed.

Lemma get_zones_rel account_number w w' :
  same_service w w' ->
  agree same_service (Ultradns.get_zones account_number w)
                     (Ultradns.get_zones account_number w').
Proof.
  intros Hs. unfold Ultradns.get_zones, Ultradns._paginate.
  apply agree_bind.
  - apply agree_bind; [apply _get_zones_rel; exact Hs|].
    intros resp w1 w1' H1. destruct resp.
    + apply map_m_pages_rel. exact H1.
    + apply agree_pure. exact H1.
  - intros pages w1 w1' H1. apply agree_pure. exact H1.
Qed.

Lemma get_zone_name_rel domain account_number w w' :
  same_service w w' ->
  fst (Ultradns.get_zone_name domain account_number w)
  = fst (Ultradns.get_zone_name domain account_number w').
Proof.
  intros Hs.
  assert (H : agree same_service (Ultradns.get_zone_name domain account_number w)
                (Ultradns.get_zone_name domain account_number w')).
  { unfold Ultradns.get_zone_name. apply agree_bind; [apply get_zones_rel; exact Hs|].
    intros zones w1 w1' H1.
    destruct (String.eqb (Ultradns.most_specific domain zones "") "").
    - apply agree_bind.
      + unfold metrics_send, modify. apply agree_pure.
        destruct H1 as (A & B & C). repeat split; assumption.
      + intros [] w2 w2' H2. apply agree_pure. exact H2.
    - apply agree_pure. exact H1. }
  exact (proj1 H).
Qed.

(** [delete_txt_record] with the zone found, the record set read and the
    token in it: the DELETE and the POST are left to run. *)
Lemma delete_txt_record_present change_id account_number domain token w zone w1 rdata rest :
  domain <> "" ->
  Ultradns.get_zone_name domain account_number w = (Ok zone, w1) ->
  http_fault w GET (rrsets_path zone "16" (Ultradns.node_name_of domain zone)) = None ->
  rrsets w !! (zone, Ultradns.node_name_of domain zone) = Some rdata ->
  Py.remove token rdata = Some rest ->
  Ultradns.delete_txt_record change_id account_number domain token w
  = (Ultradns._delete (rrsets_path zone "16" (Ultradns.node_name_of domain zone));;
     if (0 <? length rest)%nat
     then Ultradns._post (rrsets_path zone "16" (Ultradns.node_name_of domain zone)) (5, rest)
     else ret tt)
      (set_http_log
         (fun l => l ++ [(GET, rrsets_path zone "16" (Ultradns.node_name_of domain zone))]) w1)
  /\ same_remote w w1
  /\ exists t, token_service w = Ok t.
Proof.
  intros Hd Hz Hg Hl Hrm.
  destruct (get_zone_name_post domain account_number w) as [Hsame Htok].
  rewrite Hz in Hsame, Htok. cbn [fst snd] in Hsame, Htok.
  destruct (Htok zone eq_refl) as [t Ht].
  split; [|split; [exact Hsame | eauto]].
  destruct Hsame as (Ht1 & _ & Hrr & Hfl). rewrite Ht in Ht1.
  rewrite (delete_txt_record_unfold _ _ _ _ _ _ _ Hd Hz). cbn zeta.
  unfold bind at 1. unfold try_except. unfold bind at 1.
  rewrite _get_unfold, Ht1, Hfl, Hg, serve_get_rrset.
  cbn [rrsets set_http_log]. rewrite Hrr, Hl. cbn. rewrite Hrm. reflexivity.
Qed.

(** ** Creating and deleting, together *)

Lemma existsb_eqb_false token values :
  ~ In token values -> existsb (String.eqb token) values = false.
Proof.
  intros Hn. induction values as [|v values IH]; [reflexivity|]. cbn.
  destruct (String.eqb_spec token v) as [->|_].
  - exfalso. apply Hn. left. reflexivity.
  - apply IH. intros Hin. apply Hn. right. exact Hin.
Qed.

Lemma create_txt_record_snd domain token account_number w zone w1 :
  Ultradns.get_zone_name domain account_number w = (Ok zone, w1) ->
  exists msg,
    snd (Ultradns.create_txt_record domain token account_number w)
    = set_log (fun l => l ++ [msg])
        (snd (Ultradns._post (rrsets_path zone "TXT" (Ultradns.node_name_of domain zone))
                (5, [token]) w1)).
Proof.
  intros Hz. unfold Ultradns.create_txt_record. unfold bind at 1. rewrite Hz. cbn zeta.
  unfold bind at 1. unfold try_except. unfold bind at 1.
  destruct (Ultradns._post _ _ w1) as [[[]|e] w2]; cbn; eexists; reflexivity.
Qed.

(** The world [create_txt_record] leaves behind when nothing fails. *)
Lemma create_txt_record_world domain token account_number w zone w1 :
  healthy w ->
  Ultradns.get_zone_name domain account_number w = (Ok zone, w1) ->
  same_service w (snd (Ultradns.create_txt_record domain token account_number w))
  /\ rrsets (snd (Ultradns.create_txt_record domain token account_number w))
     = match rrsets w !! (zone, Ultradns.node_name_of domain zone) with
       | None => <[(zone, Ultradns.node_name_of domain zone) := [token]]> (rrsets w)
       | Some values =>
           if existsb (String.eqb token) values then rrsets w
           else <[(zone, Ultradns.node_name_of domain zone) := values ++ [token]]> (rrsets w)
       end.
Proof.
  intros [[t Ht] Hno] Hz.
  destruct (get_zone_name_post domain account_number w) as [Hsame _].
  rewrite Hz in Hsame. cbn [snd] in Hsame.
  pose proof (same_service_of_remote _ _ Hsame) as (A & B & C).
  destruct Hsame as (Ht1 & _ & Hrr & Hfl). rewrite Ht in Ht1.
  destruct (create_txt_record_snd domain token account_number w zone w1 Hz) as [msg ->].
  rewrite _post_unfold, Ht1, Hfl, Hno.
  unfold Ultradns.serve_post.
  change (Ultradns.is_txt "TXT") with true. cbn iota.
  cbn [rrsets set_http_log snd existsb]. rewrite Hrr.
  destruct (rrsets w !! (zone, Ultradns.node_name_of domain zone)) as [values|].
  - rewrite orb_false_r. destruct (existsb (String.eqb token) values); cbn.
    + split; [repeat split; assumption | exact Hrr].
    + split; [repeat split; assumption | rewrite Hrr; reflexivity].
  - cbn. split; [repeat split; assumption | rewrite Hrr; reflexivity].
Qed.

(** The outcome of [delete_txt_record] when the token is in the set and no
    request fails, from the helper lemmas above. *)
Lemma delete_txt_record_removes change_id account_number domain token w zone before after :
  healthy w ->
  domain <> "" ->
  fst (Ultradns.get_zone_name domain account_number w) = Ok zone ->
  rrsets w !! (zone, Ultradns.node_name_of domain zone) = Some (before ++ token :: after) ->
  ~ In token before ->
  fst (Ultradns.delete_txt_record change_id account_number domain token w) = Ok tt
  /\ rrsets (snd (Ultradns.delete_txt_record change_id account_number domain token w))
     = match before ++ after with
       | [] => delete (zone, Ultradns.node_name_of domain zone) (rrsets w)
       | rest => <[(zone, Ultradns.node_name_of domain zone) := rest]> (rrsets w)
       end
  /\ same_service w (snd (Ultradns.delete_txt_record change_id account_number domain token w)).
Proof.
  intros [[t Ht] Hno] Hd Hz Hl Hnot.
  destruct (Ultradns.get_zone_name domain account_number w) as [r w1] eqn:Hrun.
  cbn [fst] in Hz. subst r.
  destruct (delete_txt_record_present change_id _ _ token _ _ _ _ (before ++ after)
              Hd Hrun (Hno _ _) Hl (remove_app _ _ _ Hnot)) as (-> & Hsame & _).
  destruct Hsame as (Ht1 & Hz1 & Hrr & Hfl).
  pose proof (delete_then_post t zone (Ultradns.node_name_of domain zone) (before ++ after)
                (before ++ token :: after)
                (set_http_log
                   (fun l => l ++ [(GET, rrsets_path zone "16"
                                           (Ultradns.node_name_of domain zone))]) w1)) as H.
  cbn [token_service http_fault rrsets http_log set_http_log] in H.
  rewrite Hfl, Hrr, Ht1 in H. specialize (H Ht (Hno _ _) (Hno _ _) Hl). cbn zeta in H.
  destruct H as (Hok & Hnil & Hcons).
  split; [exact Hok|]. split.
  - destruct (before ++ after) as [|v rest] eqn:E.
    + exact (proj1 (Hnil eq_refl)).
    + exact (proj1 (Hcons ltac:(discriminate))).
  - (* the requests change the record sets and the log only *)
    unfold bind. rewrite _delete_unfold.
    cbn [token_service http_fault set_http_log].
    rewrite Ht1, Ht, Hfl, Hno, serve_delete_rrset.
    cbn [rrsets set_http_log]. rewrite Hrr, Hl.
    destruct (before ++ after) as [|v rest]; cbn [length Nat.ltb Nat.leb].
    + cbn. repeat split; cbn; congruence.
    + rewrite _post_unfold. cbn [token_service http_fault set_http_log set_rrsets].
      rewrite Ht1, Ht, Hfl, Hno.
      rewrite serve_post_fresh; [|reflexivity | cbn; apply lookup_delete_eq].
      cbn. repeat split; cbn; congruence.
Qed.

(** When nothing fails, deleting the token [create_txt_record] has just added
    brings the record sets back to what they were: the set is removed again
    if it was not there before, and holds its former values again if it was
    there, not empty and without the token. *)
Theorem create_then_delete_round_trip change_id account_number domain token w zone w1 :
  healthy w ->
  domain <> "" ->
  Ultradns.get_zone_name domain account_number w = (Ok zone, w1) ->
  (rrsets w !! (zone, Ultradns.node_name_of domain zone) = None
   \/ exists values,
        rrsets w !! (zone, Ultradns.node_name_of domain zone) = Some values
        /\ values <> [] /\ ~ In token values) ->
  let created := snd (Ultradns.create_txt_record domain token account_number w) in
  let deleted := Ultradns.delete_txt_record change_id account_number domain token created in
  (exists values,
     rrsets created !! (zone, Ultradns.node_name_of domain zone) = Some (values ++ [token]))
  /\ fst deleted = Ok tt
  /\ rrsets (snd deleted) = rrsets w.
Proof.
  intros Hh Hd Hz Hbefore created deleted.
  destruct (create_txt_record_world domain token account_number w zone w1 Hh Hz)
    as [Hserv Hrr]. fold created in Hserv, Hrr.
  assert (Hh' : healthy created).
  { destruct Hh as [[t Ht] Hno]. destruct Hserv as (A & _ & C). split.
    - exists t. congruence.
    - intros m p. rewrite <- C. apply Hno. }
  assert (Hz' : fst (Ultradns.get_zone_name domain account_number created) = Ok zone).
  { rewrite <- (get_zone_name_rel domain account_number w created Hserv), Hz. reflexivity. }
  destruct Hbefore as [Hnone|(values & Hsome & Hne & Hnot)].
  - rewrite Hnone in Hrr.
    assert (Hl : rrsets created !! (zone, Ultradns.node_name_of domain zone)
                 = Some ([] ++ token :: [])) by (rewrite Hrr; apply lookup_insert_eq).
    destruct (delete_txt_record_removes change_id account_number domain token created zone
                [] [] Hh' Hd Hz' Hl ltac:(intros [])) as (Hok & Hdel & _).
    split; [exists []; exact Hl|]. split; [exact Hok|].
    subst deleted. rewrite Hdel. cbn [app]. rewrite Hrr.
    apply delete_insert_id. exact Hnone.
  - rewrite Hsome, (existsb_eqb_false _ _ Hnot) in Hrr.
    assert (Hl : rrsets created !! (zone, Ultradns.node_name_of domain zone)
                 = Some (values ++ token :: [])) by (rewrite Hrr; apply lookup_insert_eq).
    destruct (delete_txt_record_removes change_id account_number domain token created zone
                values [] Hh' Hd Hz' Hl Hnot) as (Hok & Hdel & _).
    split; [exists values; exact Hl|]. split; [exact Hok|].
    subst deleted. rewrite Hdel, app_nil_r.
    destruct values as [|v values]; [contradiction|].
    rewrite Hrr, insert_insert_eq. apply insert_id. exact Hsome.
Qed.

Lemma create_then_delete_round_trip_witness :
  fst (Ultradns.delete_txt_record [] None "_acme-challenge.foo.example.com" "T2"
         (snd (Ultradns.create_txt_record "_acme-challenge.foo.example.com" "T2" None
                 (with_record_set "example.com" "_acme-challenge.foo" ["T1"]
                    (quiet_world ["example.com"])))))
  = Ok tt
  /\ rrsets (snd (Ultradns.delete_txt_record [] None "_acme-challenge.foo.example.com" "T2"
                    (snd (Ultradns.create_txt_record "_acme-challenge.foo.example.com" "T2"
                            None
                            (with_record_set "example.com" "_acme-challenge.foo" ["T1"]
                               (quiet_world ["example.com"]))))))
     = rrsets (with_record_set "example.com" "_acme-challenge.foo" ["T1"]
                 (quiet_world ["example.com"])).
Proof.
  refine (proj2 (create_then_delete_round_trip [] None "_acme-challenge.foo.example.com" "T2"
                   (with_record_set "example.com" "_acme-challenge.foo" ["T1"]
                      (quiet_world ["example.com"]))
                   "example.com" _ _ _ eq_refl _)).
  - split; [exists "token"; reflexivity | intros m p; reflexivity].
  - discriminate.
  - right. exists ["T1"]. split; [reflexivity|]. split; [discriminate|].
    intros [H|[]]. discriminate H.
Defined.

(** ** Requests that fail while [delete_txt_record] rewrites a record set *)

(** With the token in the record set and the set read: a DELETE that fails
    makes [delete_txt_record] raise with the record set untouched; a POST that
    fails after the DELETE makes it raise with the whole record set gone, the
    other values with it. *)
Theorem delete_txt_record_request_failures change_id account_number domain token w zone w1
    before after e :
  domain <> "" ->
  Ultradns.get_zone_name domain account_number w = (Ok zone, w1) ->
  http_fault w GET (rrsets_path zone "16" (Ultradns.node_name_of domain zone)) = None ->
  rrsets w !! (zone, Ultradns.node_name_of domain zone) = Some (before ++ token :: after) ->
  ~ In token before ->
  let out := Ultradns.delete_txt_record change_id account_number domain token w in
  (http_fault w DELETE (rrsets_path zone "16" (Ultradns.node_name_of domain zone)) = Some e ->
   fst out = Raise e /\ rrsets (snd out) = rrsets w)
  /\ (http_fault w DELETE (rrsets_path zone "16" (Ultradns.node_name_of domain zone)) = None ->
      http_fault w POST (rrsets_path zone "16" (Ultradns.node_name_of domain zone)) = Some e ->
      before ++ after <> [] ->
      fst out = Raise e
      /\ rrsets (snd out) = delete (zone, Ultradns.node_name_of domain zone) (rrsets w)).
Proof.
  intros Hd Hz Hg Hl Hnot out. subst out.
  destruct (delete_txt_record_present change_id _ _ token _ _ _ _ (before ++ after)
              Hd Hz Hg Hl (remove_app _ _ _ Hnot)) as (-> & Hsame & t & Ht).
  destruct Hsame as (Ht1 & _ & Hrr & Hfl).
  unfold bind. rewrite _delete_unfold. cbn [token_service http_fault set_http_log].
  rewrite Ht1, Ht, Hfl. split.
  - intros Hdel. rewrite Hdel. cbn. split; [reflexivity | exact Hrr].
  - intros Hdel Hpost Hne. rewrite Hdel, serve_delete_rrset.
    cbn [rrsets set_http_log]. rewrite Hrr, Hl.
    destruct (before ++ after) as [|v rest]; [contradiction|].
    cbn [length Nat.ltb Nat.leb]. rewrite _post_unfold.
    cbn [token_service http_fault set_http_log set_rrsets]. rewrite Ht1, Ht, Hfl, Hpost.
    cbn. rewrite Hrr. split; reflexivity.
Qed.

Lemma delete_txt_record_request_failures_witness :
  fst (Ultradns.delete_txt_record [] None "_acme-challenge.foo.example.com" "T1"
         (with_failing_posts (HTTPError 500)
            (with_record_set "example.com" "_acme-challenge.foo" ["T1"; "T2"]
               (quiet_world ["example.com"]))))
  = Raise (HTTPError 500)
  /\ rrsets (snd (Ultradns.delete_txt_record [] None "_acme-challenge.foo.example.com" "T1"
                    (with_failing_posts (HTTPError 500)
                       (with_record_set "example.com" "_acme-challenge.foo" ["T1"; "T2"]
                          (quiet_world ["example.com"])))))
     = delete ("example.com", "_acme-challenge.foo")
         (rrsets (with_failing_posts (HTTPError 500)
                    (with_record_set "example.com" "_acme-challenge.foo" ["T1"; "T2"]
                       (quiet_world ["example.com"])))).
Proof.
  refine (proj2 (delete_txt_record_request_failures [] None
                   "_acme-challenge.foo.example.com" "T1"
                   (with_failing_posts (HTTPError 500)
                      (with_record_set "example.com" "_acme-challenge.foo" ["T1"; "T2"]
                         (quiet_world ["example.com"])))
                   "example.com" _ [] ["T2"] (HTTPError 500) _ eq_refl eq_refl eq_refl _)
            eq_refl eq_refl _).
  - discriminate.
  - intros [].
  - discriminate.
Defined.

(** ** Deleting twice *)

Lemma delete_txt_record_absent change_id account_number domain token w zone :
  domain <> "" ->
  fst (Ultradns.get_zone_name domain account_number w) = Ok zone ->
  (forall rdata, rrsets w !! (zone, Ultradns.node_name_of domain zone) = Some rdata ->
                 ~ In token rdata) ->
  fst (Ultradns.delete_txt_record change_id account_number domain token w) = Ok tt
  /\ rrsets (snd (Ultradns.delete_txt_record change_id account_number domain token w))
     = rrsets w.
Proof.
  intros Hd Hz Hnot.
  destruct (Ultradns.get_zone_name domain account_number w) as [r w1] eqn:Hrun.
  cbn [fst] in Hz. subst r.
  destruct (get_zone_name_post domain account_number w) as [Hsame Htok].
  rewrite Hrun in Hsame, Htok. cbn [fst snd] in Hsame, Htok.
  destruct (Htok zone eq_refl) as [t Ht].
  destruct Hsame as (Ht1 & _ & Hrr & Hfl). rewrite Ht in Ht1.
  remember (Ultradns.delete_txt_record change_id account_number domain token w) as out
    eqn:Hout.
  rewrite (delete_txt_record_unfold _ _ _ _ _ _ _ Hd Hrun) in Hout. cbn zeta in Hout.
  unfold bind at 1 in Hout. unfold try_except in Hout. unfold bind at 1 in Hout.
  rewrite _get_unfold, Ht1, Hfl in Hout.
  destruct (http_fault w GET _) as [e|].
  - rewrite Hout. cbn. split; [reflexivity | exact Hrr].
  - rewrite serve_get_rrset in Hout. cbn [rrsets set_http_log] in Hout. rewrite Hrr in Hout.
    destruct (rrsets w !! (zone, Ultradns.node_name_of domain zone)) as [rdata|] eqn:Hl.
    + specialize (Hnot rdata eq_refl). apply remove_None in Hnot.
      cbn in Hout. rewrite Hnot in Hout. rewrite Hout.
      cbn. split; [reflexivity | exact Hrr].
    + rewrite Hout. cbn. split; [reflexivity | exact Hrr].
Qed.

(** When nothing fails and the token is in the record set once, deleting it
    a second time returns normally and changes nothing: the second deletion
    finds the record sets as the first left them. *)
Theorem delete_txt_record_twice change_id account_number domain token w zone before after :
  healthy w ->
  domain <> "" ->
  fst (Ultradns.get_zone_name domain account_number w) = Ok zone ->
  rrsets w !! (zone, Ultradns.node_name_of domain zone) = Some (before ++ token :: after) ->
  ~ In token before ->
  ~ In token after ->
  let once := Ultradns.delete_txt_record change_id account_number domain token w in
  let twice := Ultradns.delete_txt_record change_id account_number domain token (snd once) in
  fst once = Ok tt
  /\ fst twice = Ok tt
  /\ rrsets (snd twice) = rrsets (snd once)
  /\ forall rdata,
       rrsets (snd once) !! (zone, Ultradns.node_name_of domain zone) = Some rdata ->
       rdata = before ++ after.
Proof.
  intros Hh Hd Hz Hl Hb Ha once twice.
  destruct (delete_txt_record_removes change_id account_number domain token w zone
              before after Hh Hd Hz Hl Hb) as (Hok & Hrr & Hserv).
  fold once in Hok, Hrr, Hserv.
  assert (Hz' : fst (Ultradns.get_zone_name domain account_number (snd once)) = Ok zone).
  { rewrite <- (get_zone_name_rel domain account_number w (snd once) Hserv). exact Hz. }
  assert (Hset : forall rdata,
             rrsets (snd once) !! (zone, Ultradns.node_name_of domain zone) = Some rdata ->
             rdata = before ++ after).
  { intros rdata. rewrite Hrr. destruct (before ++ after) as [|v rest].
    - rewrite lookup_delete_eq. discriminate.
    - rewrite lookup_insert_eq. intros [= <-]. reflexivity. }
  destruct (delete_txt_record_absent change_id account_number domain token (snd once) zone
              Hd Hz') as [Hok2 Hrr2].
  { intros rdata Hr. rewrite (Hset rdata Hr). intros Hin. apply in_app_or in Hin.
    destruct Hin; contradiction. }
  repeat split; assumption.
Qed.

Lemma delete_txt_record_twice_witness :
  fst (Ultradns.delete_txt_record [] None "_acme-challenge.foo.example.com" "T1"
         (snd (Ultradns.delete_txt_record [] None "_acme-challenge.foo.example.com" "T1"
                 (with_record_set "example.com" "_acme-challenge.foo" ["T1"; "T2"]
                    (quiet_world ["example.com"])))))
  = Ok tt
  /\ rrsets (snd (Ultradns.delete_txt_record [] None "_acme-challenge.foo.example.com" "T1"
                    (snd (Ultradns.delete_txt_record [] None
                            "_acme-challenge.foo.example.com" "T1"
                            (with_record_set "example.com" "_acme-challenge.foo" ["T1"; "T2"]
                               (quiet_world ["example.com"]))))))
     = rrsets (snd (Ultradns.delete_txt_record [] None "_acme-challenge.foo.example.com" "T1"
                      (with_record_set "example.com" "_acme-challenge.foo" ["T1"; "T2"]
                         (quiet_world ["example.com"])))).
Proof.
  destruct (delete_txt_record_twice [] None "_acme-challenge.foo.example.com" "T1"
              (with_record_set "example.com" "_acme-challenge.foo" ["T1"; "T2"]
                 (quiet_world ["example.com"]))
              "example.com" [] ["T2"]) as (_ & H2 & H3 & _).
  - split; [exists "token"; reflexivity | intros m p; reflexivity].
  - discriminate.
  - reflexivity.
  - reflexivity.
  - intros [].
  - intros [H|[]]. discriminate H.
  - split; [exact H2 | exact H3].
Defined.

(** ** [delete_acme_txt_records] *)

(** [delete_acme_txt_records] never sends a request and never changes a
    record set: with no domain, or a domain that does not start with
    [_acme-challenge], it logs and returns; with any other domain it raises
    the [TypeError] of its call of [get_zone_name] with one argument, before
    the DELETE. *)
Theorem delete_acme_txt_records_never_deletes domain w :
  let out := Ultradns.delete_acme_txt_records domain w in
  rrsets (snd out) = rrsets w
  /\ http_log (snd out) = http_log w
  /\ (fst out = Ok tt <-> domain = "" \/ Py.startswith domain "_acme-challenge" = false)
  /\ (fst out <> Ok tt -> exists msg, fst out = Raise (TypeError msg) /\ log (snd out) = log w).
Proof.
  unfold Ultradns.delete_acme_txt_records.
  destruct (String.eqb_spec domain "") as [->|Hne].
  - cbn. repeat split; auto. intros H. contradiction.
  - destruct (Py.startswith domain "_acme-challenge") eqn:Hs.
    + cbn. repeat split.
      * intros H. discriminate H.
      * intros [H|H]; [contradiction | discriminate H].
      * intros _. eexists. split; reflexivity.
    + cbn. repeat split; auto. intros H. contradiction.
Qed.

(** ** One propagation check: [_has_dns_propagated] *)

Lemma scan_txt_records_run txt_records token w :
  Ultradns.scan_txt_records txt_records token w
  = (Ok (existsb (fun txt_record => String.eqb txt_record token) txt_records),
     if existsb (fun txt_record => String.eqb txt_record token) txt_records
     then set_metrics (fun l => l ++ ["has_dns_propagated_success"]) w
     else w).
Proof.
  induction txt_records as [|r rest IH]; [reflexivity|].
  cbn [Ultradns.scan_txt_records existsb]. destruct (String.eqb r token).
  - reflexivity.
  - exact IH.
Qed.

Lemma existsb_concat_In token rdatas :
  existsb (fun txt_record => String.eqb txt_record token) (concat rdatas) = true
  <-> exists rdata, In rdata rdatas /\ In token rdata.
Proof.
  rewrite existsb_exists. split.
  - intros (x & Hin & Heq). apply String.eqb_eq in Heq. subst x.
    apply in_concat in Hin. destruct Hin as (rdata & H1 & H2). eauto.
  - intros (rdata & H1 & H2). exists token. split.
    + apply in_concat. eauto.
    + apply String.eqb_refl.
Qed.

Lemma forallb_concat_utf8 rdatas :
  forallb Py.is_utf8 (concat rdatas) = true
  <-> forall rdata txt_record,
        In rdata rdatas -> In txt_record rdata -> Py.is_utf8 txt_record = true.
Proof.
  rewrite forallb_forall. split.
  - intros H rdata txt_record H1 H2. apply H. apply in_concat. eauto.
  - intros H x Hin. apply in_concat in Hin. destruct Hin as (rdata & H1 & H2). eauto.
Qed.

Lemma _has_dns_propagated_run name token ns w :
  Ultradns._has_dns_propagated name token ns w
  = match resolver w ns name (Ultradns.queries_to ns w) with
    | DNSException =>
        (Ok false,
         set_metrics (fun l => l ++ ["has_dns_propagated_fail"])
           (set_dns_queries (fun l => l ++ [(ns, name)]) w))
    | Answer rdatas =>
        if forallb Py.is_utf8 (concat rdatas) then
          (Ok (existsb (fun txt_record => String.eqb txt_record token) (concat rdatas)),
           if existsb (fun txt_record => String.eqb txt_record token) (concat rdatas)
           then set_metrics (fun l => l ++ ["has_dns_propagated_success"])
                  (set_dns_queries (fun l => l ++ [(ns, name)]) w)
           else set_dns_queries (fun l => l ++ [(ns, name)]) w)
        else (Raise UnicodeDecodeError, set_dns_queries (fun l => l ++ [(ns, name)]) w)
    end.
Proof.
  unfold Ultradns._has_dns_propagated, Ultradns.resolver_query. unfold bind at 1.
  destruct (resolver w ns name (Ultradns.queries_to ns w)) as [|rdatas]; [reflexivity|].
  unfold bind. rewrite decode_strings_spec.
  destruct (forallb Py.is_utf8 (concat rdatas)); [|reflexivity].
  cbn [app]. apply scan_txt_records_run.
Qed.

(** [_has_dns_propagated] makes exactly one query.  A resolver exception
    gives false and the metric [has_dns_propagated_fail].  An answer with a
    string that is not UTF-8 makes it raise [UnicodeDecodeError], whether or
    not the token is in the answer, and no metric is sent.  An answer whose
    strings all decode gives true exactly when the token is among them, with
    [has_dns_propagated_success] sent once however often the token occurs,
    and false without a metric otherwise.  It neither sleeps nor touches the
    record sets. *)
Theorem has_dns_propagated_outcome name token ns w :
  let answer := resolver w ns name (Ultradns.queries_to ns w) in
  let out := Ultradns._has_dns_propagated name token ns w in
  (answer = DNSException ->
   fst out = Ok false /\ metrics (snd out) = metrics w ++ ["has_dns_propagated_fail"])
  /\ (forall rdatas,
        answer = Answer rdatas ->
        ((exists rdata txt_record,
            In rdata rdatas /\ In txt_record rdata /\ Py.is_utf8 txt_record = false) ->
         fst out = Raise UnicodeDecodeError /\ metrics (snd out) = metrics w)
        /\ ((forall rdata txt_record,
               In rdata rdatas -> In txt_record rdata -> Py.is_utf8 txt_record = true) ->
            ((exists rdata, In rdata rdatas /\ In token rdata) ->
             fst out = Ok true
             /\ metrics (snd out) = metrics w ++ ["has_dns_propagated_success"])
            /\ ((forall rdata, In rdata rdatas -> ~ In token rdata) ->
                fst out = Ok false /\ metrics (snd out) = metrics w)))
  /\ dns_queries (snd out) = dns_queries w ++ [(ns, name)]
  /\ slept (snd out) = slept w
  /\ rrsets (snd out) = rrsets w
  /\ http_log (snd out) = http_log w.
Proof.
  intros answer out. subst out. rewrite _has_dns_propagated_run. fold answer.
  split; [|split].
  - intros ->. split; reflexivity.
  - intros rdatas ->.
    pose proof (forallb_concat_utf8 rdatas) as Hall.
    pose proof (existsb_concat_In token rdatas) as Hex.
    split.
    + intros (rdata & txt_record & H1 & H2 & H3).
      destruct (forallb Py.is_utf8 (concat rdatas)).
      * rewrite (proj1 Hall eq_refl rdata txt_record H1 H2) in H3. discriminate H3.
      * split; reflexivity.
    + intros Hutf8. rewrite (proj2 Hall Hutf8). split.
      * intros Hin. rewrite (proj2 Hex Hin). split; reflexivity.
      * intros Hnot.
        destruct (existsb _ (concat rdatas)).
        -- destruct (proj1 Hex eq_refl) as (rdata & H1 & H2). destruct (Hnot rdata H1 H2).
        -- split; reflexivity.
  - destruct answer as [|rdatas]; [repeat split|].
    destruct (forallb Py.is_utf8 (concat rdatas)); [|repeat split].
    destruct (existsb _ (concat rdatas)); repeat split.
Qed.

(** The token is in the answer, beside a string that is no UTF-8: the check
    raises. *)
Lemma has_dns_propagated_outcome_witness :
  fst (Ultradns._has_dns_propagated "_acme-challenge.foo.example.com" "T1" "8.8.8.8"
         (undecodable_world "T1"))
  = Raise UnicodeDecodeError
  /\ metrics (snd (Ultradns._has_dns_propagated "_acme-challenge.foo.example.com" "T1"
                     "8.8.8.8" (undecodable_world "T1")))
     = metrics (undecodable_world "T1").
Proof.
  refine (proj1 (proj1 (proj2 (has_dns_propagated_outcome "_acme-challenge.foo.example.com"
                                 "T1" "8.8.8.8" (undecodable_world "T1")))
                   [["T1"]; [String "255" EmptyString]] eq_refl) _).
  exists [String "255" EmptyString], (String "255" EmptyString).
  split; [right; left; reflexivity|]. split; [left; reflexivity | reflexivity].
Defined.

(** ** How long [wait_for_dns_change] waits *)

(** [wait_for_dns_change] sleeps 10 seconds after every attempt of the first
    phase, also the successful one, and after every failed attempt of the
    second: with first successes on attempts [K] and [J] it returns having
    slept [10 * K + 10 * (J - 1)] seconds; with the second budget exhausted
    [10 * K + 200]; with the first exhausted 200; and it reports to the error
    tracker exactly in the last two cases.  An answer that does not decode,
    on attempt [K] of the first phase or attempt [J] of the second, makes it
    raise [UnicodeDecodeError] without the sleep of that attempt and without
    a report.  It never sleeps more than 400 seconds, and when it returns it
    has slept 10 at least. *)
Theorem wait_for_dns_change_sleeps fqdn token account_number w :
  let auth := stub w "156.154.64.154" fqdn token in
  let pub := stub w "8.8.8.8" fqdn token in
  let out := Ultradns.wait_for_dns_change (fqdn, token) account_number w in
  let after := snd out in
  (forall K J, K <= 20 -> first_success auth K -> J <= 20 -> first_success pub J ->
     fst out = Ok tt
     /\ slept after = slept w + 10 * K + 10 * (J - 1) /\ sentry after = sentry w)
  /\ (forall K, K <= 20 -> first_success auth K -> never_success pub 20 ->
        fst out = Ok tt
        /\ slept after = slept w + 10 * K + 200 /\ sentry after = S (sentry w))
  /\ (never_success auth 20 ->
        fst out = Ok tt
        /\ slept after = slept w + 200 /\ sentry after = S (sentry w))
  /\ (forall K, K <= 20 -> first_undecodable auth K ->
        fst out = Raise UnicodeDecodeError
        /\ slept after = slept w + 10 * (K - 1) /\ sentry after = sentry w)
  /\ (forall K J, K <= 20 -> first_success auth K -> J <= 20 -> first_undecodable pub J ->
        fst out = Raise UnicodeDecodeError
        /\ slept after = slept w + 10 * K + 10 * (J - 1) /\ sentry after = sentry w)
  /\ slept w <= slept after <= slept w + 400
  /\ (fst out = Ok tt -> slept w + 10 <= slept after).
Proof.
  intros auth pub out after.
  destruct (wait_for_dns_change_run fqdn token account_number w)
    as (r & w' & Hrun & _ & _ & _ & Hw).
  fold auth pub in Hw. subst after out. rewrite Hrun. cbn [fst snd]. clear Hrun.
  assert (Hclash1 : forall K N, first_success auth K -> K <= N -> never_success auth N -> False)
    by (intros K N H1 H2 H3; exact (first_success_not_never _ _ _ H1 H2 H3)).
  assert (Hclash2 : forall K N, first_success pub K -> K <= N -> never_success pub N -> False)
    by (intros K N H1 H2 H3; exact (first_success_not_never _ _ _ H1 H2 H3)).
  assert (Hclash3 : forall K N, first_undecodable auth K -> K <= N -> never_success auth N
                                -> False)
    by (intros K N H1 H2 H3; exact (first_undecodable_not_never _ _ _ H1 H2 H3)).
  assert (Hclash4 : forall K N, first_undecodable pub K -> K <= N -> never_success pub N
                                -> False)
    by (intros K N H1 H2 H3; exact (first_undecodable_not_never _ _ _ H1 H2 H3)).
  assert (Hclash5 : forall K K', first_success auth K -> first_undecodable auth K' -> False)
    by (intros K K' H1 H2; exact (first_success_not_undecodable _ _ _ H1 H2)).
  assert (Hclash6 : forall K K', first_success pub K -> first_undecodable pub K' -> False)
    by (intros K K' H1 H2; exact (first_success_not_undecodable _ _ _ H1 H2)).
  destruct Hw as [(K0 & J0 & HK0 & HfK & HJ0 & HfJ & -> & _ & _ & Hs & Hse)
                 |[(K0 & HK0 & HfK & Hnp & -> & _ & _ & Hs & Hse)
                  |[(Hna & -> & _ & _ & Hs & Hse)
                   |[(K0 & HK0 & HuK & -> & _ & _ & Hs & Hse)
                    |(K0 & J0 & HK0 & HfK & HJ0 & HuJ & -> & _ & _ & Hs & Hse)]]]].
  - split; [|split; [|split; [|split; [|split; [|split]]]]].
    + intros K J HK HaK HJ HpJ.
      rewrite (first_success_unique _ _ _ HaK HfK), (first_success_unique _ _ _ HpJ HfJ).
      auto.
    + intros K HK HaK Hnever. exfalso. eauto.
    + intros Hnever. exfalso. eauto.
    + intros K HK Hu. exfalso. eauto.
    + intros K J HK HaK HJ Hu. exfalso. eauto.
    + destruct HfK as (? & _), HfJ as (? & _). lia.
    + intros _. destruct HfK as (? & _). lia.
  - split; [|split; [|split; [|split; [|split; [|split]]]]].
    + intros K J HK HaK HJ HpJ. exfalso. eauto.
    + intros K HK HaK Hnever. rewrite (first_success_unique _ _ _ HaK HfK). auto.
    + intros Hnever. exfalso. eauto.
    + intros K HK Hu. exfalso. eauto.
    + intros K J HK HaK HJ Hu. exfalso. eauto.
    + lia.
    + intros _. lia.
  - split; [|split; [|split; [|split; [|split; [|split]]]]].
    + intros K J HK HaK HJ HpJ. exfalso. eauto.
    + intros K HK HaK Hnever. exfalso. eauto.
    + intros Hnever. auto.
    + intros K HK Hu. exfalso. eauto.
    + intros K J HK HaK HJ Hu. exfalso. eauto.
    + lia.
    + intros _. lia.
  - split; [|split; [|split; [|split; [|split; [|split]]]]].
    + intros K J HK HaK HJ HpJ. exfalso. eauto.
    + intros K HK HaK Hnever. exfalso. eauto.
    + intros Hnever. exfalso. eauto.
    + intros K HK Hu. rewrite (first_undecodable_unique _ _ _ Hu HuK). auto.
    + intros K J HK HaK HJ Hu. exfalso. eauto.
    + lia.
    + intros H. discriminate H.
  - split; [|split; [|split; [|split; [|split; [|split]]]]].
    + intros K J HK HaK HJ HpJ. exfalso. eauto.
    + intros K HK HaK Hnever. exfalso. eauto.
    + intros Hnever. exfalso. eauto.
    + intros K HK Hu. exfalso. eauto.
    + intros K J HK HaK HJ Hu.
      rewrite (first_success_unique _ _ _ HaK HfK), (first_undecodable_unique _ _ _ Hu HuJ).
      auto.
    + destruct HuJ as (? & _). lia.
    + intros H. discriminate H.
Qed.

Lemma delete_acme_txt_records_never_deletes_witness :
  exists msg,
    fst (Ultradns.delete_acme_txt_records "_acme-challenge.foo.example.com"
           (with_record_set "example.com" "_acme-challenge.foo" ["T1"]
              (quiet_world ["example.com"])))
    = Raise (TypeError msg)
    /\ log (snd (Ultradns.delete_acme_txt_records "_acme-challenge.foo.example.com"
                   (with_record_set "example.com" "_acme-challenge.foo" ["T1"]
                      (quiet_world ["example.com"]))))
       = log (with_record_set "example.com" "_acme-challenge.foo" ["T1"]
                (quiet_world ["example.com"])).
Proof.
  refine (proj2 (proj2 (proj2 (delete_acme_txt_records_never_deletes
                                 "_acme-challenge.foo.example.com"
                                 (with_record_set "example.com" "_acme-challenge.foo" ["T1"]
                                    (quiet_world ["example.com"]))))) _).
  discriminate.
Defined.

(** The authoritative resolver answers from the third attempt on, the public
    one from the second: 30 seconds in the first phase, 10 in the second. *)
Lemma wait_for_dns_change_sleeps_witness :
  slept (snd (Ultradns.wait_for_dns_change ("_acme-challenge.foo.example.com", "T1") None
                (propagating_world "T1" 3 2)))
  = slept (propagating_world "T1" 3 2) + 10 * 3 + 10 * (2 - 1).
Proof.
  refine (proj1 (proj2 (proj1 (wait_for_dns_change_sleeps "_acme-challenge.foo.example.com"
                                 "T1" None (propagating_world "T1" 3 2)) 3 2 _ _ _ _))).
  - lia.
  - split; [lia|]. split; [|reflexivity].
    intros i Hi. destruct i as [|[|i]]; [reflexivity | reflexivity | cbn in Hi; lia].
  - lia.
  - split; [lia|]. split; [|reflexivity].
    intros i Hi. destruct i as [|i]; [reflexivity | cbn in Hi; lia].
Defined.

(** ** The requested names: [get_domains] *)

Lemma existsb_eqb_In x l : existsb (String.eqb x) l = true <-> In x l.
Proof.
  rewrite existsb_exists. split.
  - intros (y & Hin & Heq). apply String.eqb_eq in Heq. subst y. exact Hin.
  - intros Hin. exists x. split; [exact Hin | apply String.eqb_refl].
Qed.

Lemma add_names_spec names : forall domains,
  NoDup domains ->
  exists rest,
    AcmeHandlers.add_names names domains = domains ++ rest
    /\ NoDup (domains ++ rest)
    /\ (forall d, In d (domains ++ rest) <-> In d domains \/ In d names)
    /\ sublist rest names
    /\ (NoDup (domains ++ names) -> rest = names).
Proof.
  induction names as [|x names IH]; intros domains Hnd.
  - exists []. cbn. rewrite app_nil_r. split; [reflexivity|]. split; [exact Hnd|].
    split; [intros d; tauto|]. split; [constructor | reflexivity].
  - cbn [AcmeHandlers.add_names].
    destruct (existsb (String.eqb x) domains) eqn:Hex.
    + apply existsb_eqb_In in Hex.
      destruct (IH domains Hnd) as (rest & Hrun & Hnd' & Hin & Hsub & Hsame).
      exists rest. split; [exact Hrun|]. split; [exact Hnd'|]. split; [|split].
      * intros d. rewrite Hin. cbn [In]. split; [tauto|].
        intros [H|[<-|H]]; auto.
      * apply sublist_cons. exact Hsub.
      * intros Hall. exfalso. apply NoDup_app in Hall. destruct Hall as (_ & Hdis & _).
        apply (Hdis x); [apply list_elem_of_In; exact Hex | left].
    + assert (Hnot : ~ In x domains).
      { intros Hin. apply existsb_eqb_In in Hin. congruence. }
      destruct (IH (domains ++ [x])) as (rest & Hrun & Hnd' & Hin & Hsub & Hsame).
      { apply NoDup_app. split; [exact Hnd|]. split; [|apply NoDup_singleton].
        intros y Hy Hy'. apply list_elem_of_singleton in Hy'. subst y.
        apply Hnot, list_elem_of_In, Hy. }
      rewrite <- app_assoc in Hrun, Hnd', Hin, Hsame. cbn [app] in Hrun, Hnd', Hin, Hsame.
      exists (x :: rest). split; [exact Hrun|]. split; [exact Hnd'|]. split; [|split].
      * intros d. rewrite Hin, in_app_iff. cbn [In]. tauto.
      * apply sublist_skip. exact Hsub.
      * intros Hall. f_equal. apply Hsame. exact Hall.
Qed.

Lemma nodup_skip x (a b : list string) :
  In x b -> nodup string_dec (a ++ x :: b) = nodup string_dec (a ++ b).
Proof.
  intros Hx. induction a as [|y a IH]; cbn [app nodup].
  - destruct (in_dec string_dec x b) as [_|Hn]; [reflexivity | contradiction].
  - rewrite IH.
    destruct (in_dec string_dec y (a ++ x :: b)) as [H1|H1],
             (in_dec string_dec y (a ++ b)) as [H2|H2]; try reflexivity; exfalso.
    + apply H2. apply in_app_or in H1. apply in_or_app.
      destruct H1 as [H1|[<-|H1]]; auto.
    + apply H1. apply in_app_or in H2. apply in_or_app.
      destruct H2 as [H2|H2]; [left; exact H2 | right; right; exact H2].
Qed.

(** The loop keeps, of every name, the first occurrence: in terms of the
    library's [nodup], which keeps the last, it is [nodup] read backwards. *)
Lemma add_names_first_occurrences names : forall domains,
  NoDup domains ->
  AcmeHandlers.add_names names domains = rev (nodup string_dec (rev (domains ++ names))).
Proof.
  induction names as [|x names IH]; intros domains Hnd.
  - cbn [AcmeHandlers.add_names]. rewrite app_nil_r, nodup_fixed_point, rev_involutive.
    + reflexivity.
    + apply List.NoDup_rev. apply NoDup_ListNoDup. exact Hnd.
  - cbn [AcmeHandlers.add_names].
    destruct (existsb (String.eqb x) domains) eqn:Hex.
    + apply existsb_eqb_In in Hex. rewrite (IH domains Hnd). f_equal.
      rewrite !rev_app_distr. cbn [rev]. rewrite <- app_assoc. cbn [app].
      symmetry. apply nodup_skip. apply in_rev in Hex. exact Hex.
    + assert (Hnot : ~ In x domains).
      { intros Hin. apply existsb_eqb_In in Hin. congruence. }
      rewrite IH.
      * rewrite <- app_assoc. reflexivity.
      * apply NoDup_app. split; [exact Hnd|]. split; [|apply NoDup_singleton].
        intros y Hy Hy'. apply list_elem_of_singleton in Hy'. subst y.
        apply Hnot, list_elem_of_In, Hy.
Qed.

(** [get_domains] needs the common name: without it it raises [KeyError].
    With it, and no extensions (none, or an empty dictionary), it returns the
    common name alone; with requested names it returns the common name
    followed by the requested names, in their order, with every occurrence of
    a name after its first left out: of the list [common_name :: names], each
    name stays where it first occurs.  (The library's [nodup] keeps the last
    occurrence of each element, so this list is [nodup] applied to the
    reversed list, reversed.)  So the result has no duplicates, holds exactly
    the common name and the requested names, and is the list as given when
    that has no repetition. *)
Theorem get_domains_requested options w :
  (IssuerOptions.common_name options = None ->
   fst (AcmeHandlers.get_domains options w) = Raise (KeyError "common_name"))
  /\ (forall common_name,
        IssuerOptions.common_name options = Some common_name ->
        (IssuerOptions.extensions options = None
         \/ IssuerOptions.extensions options = Some ∅ ->
         fst (AcmeHandlers.get_domains options w) = Ok [common_name])
        /\ (forall extensions sub_alt_names names,
              IssuerOptions.extensions options = Some extensions ->
              extensions !! "sub_alt_names" = Some sub_alt_names ->
              sub_alt_names !! "names" = Some names ->
              fst (AcmeHandlers.get_domains options w)
              = Ok (rev (nodup string_dec (rev (common_name :: names))))
              /\ exists rest,
                   fst (AcmeHandlers.get_domains options w) = Ok (common_name :: rest)
                   /\ NoDup (common_name :: rest)
                   /\ (forall d, In d (common_name :: rest) <->
                                 d = common_name \/ In d names)
                   /\ sublist rest names
                   /\ (NoDup (common_name :: names) -> rest = names))).
Proof.
  unfold AcmeHandlers.get_domains. split.
  - intros ->. reflexivity.
  - intros c ->. split.
    + intros [->| ->]; reflexivity.
    + intros extensions sub_alt_names names -> Hsub Hnames.
      assert (Hrun : fst ((logger_debug "Fetching domains";;
                           common_name <- ret c;;
                           domains <- (if bool_decide (extensions = ∅) then ret [common_name]
                                       else
                                         match extensions !! "sub_alt_names" with
                                         | None => raise (KeyError "sub_alt_names")
                                         | Some sub_alt_names =>
                                             match sub_alt_names !! "names" with
                                             | None => raise (KeyError "names")
                                             | Some names =>
                                                 ret (AcmeHandlers.add_names names [common_name])
                                             end
                                         end);;
                           logger_debug "Got these domains";;
                           ret domains) w)
                     = Ok (AcmeHandlers.add_names names [c])).
      { unfold bind, logger_debug, modify, ret. cbn [fst snd].
        rewrite bool_decide_eq_false_2.
        - rewrite Hsub, Hnames. reflexivity.
        - intros ->. rewrite lookup_empty in Hsub. discriminate Hsub. }
      rewrite Hrun. split.
      * f_equal. apply (add_names_first_occurrences names [c]). apply NoDup_singleton.
      * destruct (add_names_spec names [c]) as (rest & Hadd & Hnd & Hin & Hsl & Hsame).
        { apply NoDup_singleton. }
        cbn [app] in Hadd, Hnd, Hin, Hsame.
        exists rest. split; [rewrite Hadd; reflexivity|]. split; [exact Hnd|].
        split; [|split; [exact Hsl | exact Hsame]].
        intros d. rewrite Hin. cbn [In]. split; [intros [[<-|[]]|H] | intros [->|H]]; auto.
Qed.

(** [www.example.com] is requested twice and the common name once more: each
    stays where it first occurs. *)
Lemma get_domains_requested_witness :
  fst (AcmeHandlers.get_domains
         {| IssuerOptions.common_name := Some "example.com";
            IssuerOptions.extensions :=
              Some {[ "sub_alt_names" :=
                        {[ "names" := ["www.example.com"; "example.com";
                                       "api.example.com"; "www.example.com"] ]} ]} |}
         (quiet_world []))
  = Ok ["example.com"; "www.example.com"; "api.example.com"].
Proof.
  refine (proj1 (proj2 (proj2 (get_domains_requested
                     {| IssuerOptions.common_name := Some "example.com";
                        IssuerOptions.extensions :=
                          Some {[ "sub_alt_names" :=
                                    {[ "names" := ["www.example.com"; "example.com";
                                                   "api.example.com"; "www.example.com"] ]} ]} |}
                     (quiet_world [])) "example.com" eq_refl)
              {[ "sub_alt_names" :=
                   {[ "names" := ["www.example.com"; "example.com";
                                  "api.example.com"; "www.example.com"] ]} ]}
              {[ "names" := ["www.example.com"; "example.com";
                             "api.example.com"; "www.example.com"] ]}
              ["www.example.com"; "example.com"; "api.example.com"; "www.example.com"]
              eq_refl _ _)).
  - apply lookup_singleton_eq.
  - apply lookup_singleton_eq.
Defined.

(** ** [autodetect_dns_providers], run again *)

Lemma autodetect_dns_providers_run domain h :
  AcmeHandlers.autodetect_dns_providers domain h
  = (Ok (fst (AcmeHandlers.match_providers domain (all_dns_providers (self h))
                (<[domain := []]> (dns_providers_for_domain (self h)), 0))),
     {| self := {| dns_providers_for_domain :=
                     fst (AcmeHandlers.match_providers domain (all_dns_providers (self h))
                            (<[domain := []]> (dns_providers_for_domain (self h)), 0));
                   all_dns_providers := all_dns_providers (self h) |};
        calls := calls h;
        env := env h |}).
Proof. reflexivity. Qed.

(** The loops touch the entry of the domain only, and leave one there. *)
Lemma match_providers_frame domain providers d :
  is_Some (fst (AcmeHandlers.match_providers domain providers (<[domain := []]> d, 0))
           !! domain)
  /\ forall other, other <> domain ->
       fst (AcmeHandlers.match_providers domain providers (<[domain := []]> d, 0)) !! other
       = d !! other.
Proof.
  destruct (match_providers_detected domain d providers [] (<[domain := []]> d, 0))
    as (found & Hl & _ & _ & _ & Hframe).
  - exists []. cbn [fst snd]. split; [apply lookup_insert_eq|].
    split; [|split; [|split]].
    + intros p. split; [intros [] | intros (n & [] & _)].
    + intros p n [].
    + left. reflexivity.
    + intros other Hne. apply lookup_insert_ne. congruence.
  - cbn [app] in Hl, Hframe. split; [exists found; exact Hl | exact Hframe].
Qed.

(** What the loops leave in the entry of the domain depends on what they
    found there and on [match_length], not on the rest of the dictionary. *)
Lemma match_names_agree domain p names : forall d1 d2 match_length,
  d1 !! domain = d2 !! domain ->
  fst (AcmeHandlers.match_names domain p names (d1, match_length)) !! domain
  = fst (AcmeHandlers.match_names domain p names (d2, match_length)) !! domain
  /\ snd (AcmeHandlers.match_names domain p names (d1, match_length))
     = snd (AcmeHandlers.match_names domain p names (d2, match_length)).
Proof.
  induction names as [|name rest IH]; intros d1 d2 match_length Heq.
  - cbn. auto.
  - cbn [AcmeHandlers.match_names].
    destruct (AcmeHandlers.owns_suffix name domain); [|apply IH; exact Heq].
    destruct (match_length <? String.length name)%nat.
    + apply IH. rewrite !lookup_insert_eq. reflexivity.
    + destruct (String.length name =? match_length)%nat; [|apply IH; exact Heq].
      apply IH. rewrite !lookup_alter_eq, Heq. reflexivity.
Qed.

Lemma match_providers_agree domain providers : forall d1 d2 match_length,
  d1 !! domain = d2 !! domain ->
  fst (AcmeHandlers.match_providers domain providers (d1, match_length)) !! domain
  = fst (AcmeHandlers.match_providers domain providers (d2, match_length)) !! domain.
Proof.
  induction providers as [|p rest IH]; intros d1 d2 match_length Heq.
  - cbn. exact Heq.
  - cbn [AcmeHandlers.match_providers].
    destruct (DnsProvider.domains p) as [|name names]; [apply IH; exact Heq|].
    destruct (match_names_agree domain p (name :: names) d1 d2 match_length Heq) as [H1 H2].
    destruct (AcmeHandlers.match_names domain p (name :: names) (d1, match_length))
      as [e1 l1].
    destruct (AcmeHandlers.match_names domain p (name :: names) (d2, match_length))
      as [e2 l2].
    cbn [fst snd] in H1, H2. subst l2. apply IH. exact H1.
Qed.

(** [autodetect_dns_providers] computes the entry of the domain afresh: what
    it leaves there depends on the handler's providers only, not on an entry
    the domain had before nor on the rest of the dictionary; and running it
    again for the same domain changes nothing at all. *)
Theorem autodetect_dns_providers_recomputes domain h h' :
  all_dns_providers (self h') = all_dns_providers (self h) ->
  dns_providers_for_domain (self (snd (AcmeHandlers.autodetect_dns_providers domain h')))
  !! domain
  = dns_providers_for_domain (self (snd (AcmeHandlers.autodetect_dns_providers domain h)))
    !! domain
  /\ AcmeHandlers.autodetect_dns_providers domain
       (snd (AcmeHandlers.autodetect_dns_providers domain h))
     = AcmeHandlers.autodetect_dns_providers domain h.
Proof.
  intros Hall. split.
  - rewrite !autodetect_dns_providers_run.
    cbn [snd self dns_providers_for_domain]. rewrite Hall.
    apply match_providers_agree. rewrite !lookup_insert_eq. reflexivity.
  - rewrite (autodetect_dns_providers_run domain h).
    cbn [snd]. rewrite autodetect_dns_providers_run.
    cbn [self dns_providers_for_domain all_dns_providers calls env].
    set (ps := all_dns_providers (self h)).
    set (d := dns_providers_for_domain (self h)).
    set (d1 := fst (AcmeHandlers.match_providers domain ps (<[domain := []]> d, 0))).
    assert (Heq : fst (AcmeHandlers.match_providers domain ps (<[domain := []]> d1, 0)) = d1).
    { apply map_eq. intros key. destruct (decide (key = domain)) as [->|Hne].
      - subst d1. apply match_providers_agree. rewrite !lookup_insert_eq. reflexivity.
      - rewrite (proj2 (match_providers_frame domain ps d1) key Hne). reflexivity. }
    rewrite Heq. reflexivity.
Qed.

Lemma autodetect_dns_providers_recomputes_witness :
  AcmeHandlers.autodetect_dns_providers "foo.example.com"
    (snd (AcmeHandlers.autodetect_dns_providers "foo.example.com"
            (fresh_handler [ultradns_account ["example.com"]] (quiet_world ["example.com"]))))
  = AcmeHandlers.autodetect_dns_providers "foo.example.com"
      (fresh_handler [ultradns_account ["example.com"]] (quiet_world ["example.com"])).
Proof.
  exact (proj2 (autodetect_dns_providers_recomputes "foo.example.com"
                  (fresh_handler [ultradns_account ["example.com"]]
                     (quiet_world ["example.com"]))
                  (resolved_handler (quiet_world ["example.com"])) eq_refl)).
Defined.

(** ** From the order to the records: [get_authorizations] *)

Lemma in_handler_run {A} (m : M handler_state A) s :
  in_handler m s
  = (fst (m (handler s)),
     {| handler := snd (m (handler s)); cname_queries := cname_queries s |}).
Proof. unfold in_handler. destruct (m (handler s)). reflexivity. Qed.

Lemma start_dns_challenge_record others acme_client account_number domain target_domain m
    order dns_provider_options h authz_record h' :
  AcmeHandlers.start_dns_challenge others acme_client account_number domain target_domain m
    order dns_provider_options h = (Ok authz_record, h') ->
  AuthorizationRecord.authz authz_record = Order.authorizations order
  /\ AuthorizationRecord.dns_challenge authz_record <> [].
Proof.
  unfold AcmeHandlers.start_dns_challenge. unfold bind at 1. rewrite in_world_run.
  cbn [fst snd logger_debug modify]. cbn zeta.
  destruct (AcmeHandlers.get_dns_challenges domain (Order.authorizations order))
    as [|c cs] eqn:Hch.
  - unfold bind. rewrite !in_world_run. cbn. discriminate.
  - unfold bind at 1.
    destruct (AcmeHandlers.create_records _ _ _ _ _ _ _ _ _ _) as [[ids|e] h1];
      [|discriminate].
    intros [= <- <-]. cbn. split; [reflexivity | discriminate].
Qed.

(** The target of a domain: one CNAME query when delegation is enabled, none
    otherwise; the dictionary changes at the target at most. *)
Lemma target_of_spec flag cname_answers domain s :
  exists target_domain s',
    AcmeHandlers.target_of flag cname_answers domain s = (Ok target_domain, s')
    /\ cname_queries s'
       = cname_queries s ++ (if flag then [challenge_name domain] else [])
    /\ all_dns_providers (self (handler s')) = all_dns_providers (self (handler s))
    /\ (forall other, other <> target_domain ->
          dns_providers_for_domain (self (handler s')) !! other
          = dns_providers_for_domain (self (handler s)) !! other)
    /\ (flag = false -> handler s' = handler s)
    /\ (target_domain = domain
        \/ (flag = true /\ target_domain <> ""
            /\ exists target rest,
                 cname_answers (challenge_name domain) (length (cname_queries s))
                 = CnameAnswer (target :: rest)
                 /\ target_domain = Py.rstrip "." target)).
Proof.
  unfold AcmeHandlers.target_of. destruct flag.
  - cbn zeta. fold (challenge_name domain). unfold bind at 1, AcmeHandlers.get_cname.
    destruct (cname_answers (challenge_name domain) (length (cname_queries s)))
      as [|[|target rest]] eqn:Hanswer.
    + eexists _, _. split; [reflexivity|]. cbn. repeat split; auto; try discriminate.
    + eexists _, _. split; [reflexivity|]. cbn. repeat split; auto; try discriminate.
    + destruct (String.eqb_spec (Py.rstrip "." target) "") as [Hempty|Hne].
      * eexists _, _. split; [reflexivity|]. cbn. repeat split; auto; try discriminate.
      * unfold bind. rewrite in_handler_run, autodetect_dns_providers_run.
        eexists _, _. split; [reflexivity|].
        cbn [fst snd handler cname_queries self all_dns_providers dns_providers_for_domain].
        split; [reflexivity|]. split; [reflexivity|]. split; [|split; [discriminate|]].
        -- intros other Hother. apply match_providers_frame. exact Hother.
        -- right. split; [reflexivity|]. split; [exact Hne|]. eauto.
  - exists domain, s. split; [reflexivity|]. rewrite app_nil_r. repeat split; auto.
Qed.

(** The loop over the providers: when it returns, every provider was usable,
    one record was made for each, and the handler object is as before. *)
Lemma start_for_providers_spec others acme_client order domain target_domain :
  forall dns_providers authorizations s authorizations' s',
  AcmeHandlers.start_for_providers others acme_client order domain target_domain
    dns_providers authorizations s = (Ok authorizations', s') ->
  self (handler s') = self (handler s)
  /\ cname_queries s' = cname_queries s
  /\ Forall usable dns_providers
  /\ exists made,
       authorizations' = authorizations ++ made
       /\ length made = length dns_providers
       /\ Forall (fun authz_record =>
                    AuthorizationRecord.domain authz_record = domain
                    /\ AuthorizationRecord.target_domain authz_record = target_domain
                    /\ AuthorizationRecord.dns_challenge authz_record
                       = AcmeHandlers.get_dns_challenges domain (Order.authorizations order)
                    /\ AuthorizationRecord.dns_challenge authz_record <> []
                    /\ AuthorizationRecord.authz authz_record = Order.authorizations order)
                 made.
Proof.
  induction dns_providers as [|p ps IH]; intros authorizations s authorizations' s' Hrun.
  - cbn in Hrun. injection Hrun as <- <-. split; [reflexivity|]. split; [reflexivity|].
    split; [constructor|]. exists []. rewrite app_nil_r. repeat split. constructor.
  - cbn [AcmeHandlers.start_for_providers] in Hrun.
    unfold bind at 1 in Hrun. unfold AcmeHandlers.get_dns_provider in Hrun.
    destruct (AcmeHandlers.provider_types !! DnsProvider.provider_type p) as [m|] eqn:Hm;
      [|discriminate].
    cbn [ret] in Hrun. unfold bind at 1 in Hrun.
    unfold AcmeHandlers.json_loads_credentials in Hrun.
    destruct (DnsProvider.credentials p) as [opts|] eqn:Hc; [|discriminate].
    cbn [ret] in Hrun. unfold bind at 1 in Hrun. rewrite in_handler_run in Hrun.
    destruct (AcmeHandlers.start_dns_challenge others acme_client (opts !! "account_id")
                domain target_domain m order (DnsProvider.options p) (handler s))
      as [[authz_record|e] h1] eqn:Hstart; [|discriminate].
    cbn [fst snd] in Hrun.
    destruct (start_dns_challenge_record _ _ _ _ _ _ _ _ _ _ _ Hstart) as [Hauthz Hsome].
    destruct (start_dns_challenge_spec _ _ _ _ _ _ _ _ _ _ _ Hstart)
      as (Hd & Ht & Hch & Hself & _).
    apply IH in Hrun. cbn [handler cname_queries] in Hrun.
    destruct Hrun as (Hs & Hq & Hus & made & Hrec & Hlen & Hmade).
    split; [congruence|]. split; [exact Hq|]. split.
    + constructor; [|exact Hus]. split; eexists; eassumption.
    + exists (authz_record :: made). rewrite Hrec, <- app_assoc. split; [reflexivity|].
      split; [cbn; lia|]. constructor; [|exact Hmade]. auto.
Qed.

Lemma resolved_kept handler handler' target_domain dns_providers authz_record :
  resolved handler authz_record ->
  dns_providers_for_domain handler' !! target_domain = Some dns_providers ->
  Forall usable dns_providers ->
  (forall other, other <> target_domain ->
     dns_providers_for_domain handler' !! other = dns_providers_for_domain handler !! other) ->
  resolved handler' authz_record.
Proof.
  intros (l & Hl & Hus) Hentry Husable Hframe. unfold resolved.
  destruct (String.eqb_spec (AuthorizationRecord.target_domain authz_record) target_domain)
    as [->|Hne].
  - exists dns_providers. auto.
  - exists l. rewrite (Hframe _ Hne). auto.
Qed.

(** The loop over the domains. *)
Lemma authorizations_for_spec others flag cname_answers acme_client order :
  forall domains authorizations s authorizations' s',
  AcmeHandlers.authorizations_for others flag cname_answers acme_client order domains
    authorizations s = (Ok authorizations', s') ->
  Forall (resolved (self (handler s))) authorizations ->
  Forall (resolved (self (handler s'))) authorizations'
  /\ cname_queries s'
     = cname_queries s ++ (if flag then map challenge_name domains else [])
  /\ (flag = false -> self (handler s') = self (handler s))
  /\ exists made,
       authorizations' = authorizations ++ made
       /\ Forall (record_of_order flag cname_answers order domains) made.
Proof.
  induction domains as [|domain rest IH]; intros authorizations s authorizations' s' Hrun Hinv.
  - cbn in Hrun. injection Hrun as <- <-. split; [exact Hinv|].
    split; [destruct flag; cbn; rewrite app_nil_r; reflexivity|]. split; [reflexivity|].
    exists []. rewrite app_nil_r. split; [reflexivity | constructor].
  - cbn [AcmeHandlers.authorizations_for] in Hrun. unfold bind at 1 in Hrun.
    destruct (target_of_spec flag cname_answers domain s)
      as (target_domain & s1 & Htarget & Hq1 & Hall1 & Hframe1 & Hoff1 & Hwhich).
    rewrite Htarget in Hrun. unfold bind at 1 in Hrun. rewrite in_handler_run in Hrun.
    cbn [gets fst snd] in Hrun.
    destruct (dns_providers_for_domain (self (handler s1)) !! target_domain)
      as [[|p ps]|] eqn:Hentry.
    + unfold bind in Hrun. rewrite in_handler_run in Hrun. discriminate Hrun.
    + unfold bind at 1 in Hrun.
      destruct (AcmeHandlers.start_for_providers others acme_client order domain target_domain
                  (p :: ps) authorizations _) as [[authorizations1|e] s2] eqn:Hstart;
        [|discriminate].
      apply start_for_providers_spec in Hstart. cbn [handler cname_queries] in Hstart.
      destruct Hstart as (Hself2 & Hq2 & Husable & made & -> & _ & Hmade).
      apply IH in Hrun.
      * destruct Hrun as (Hres & Hq & Hoff & made' & -> & Hmade').
        split; [exact Hres|]. split.
        { rewrite Hq, Hq2, Hq1. destruct flag; cbn [map]; rewrite <- app_assoc; reflexivity. }
        split.
        { intros Hflag. rewrite (Hoff Hflag), Hself2, (Hoff1 Hflag). reflexivity. }
        exists (made ++ made'). rewrite app_assoc. split; [reflexivity|].
        apply Forall_app. split.
        -- eapply Forall_impl; [exact Hmade|].
           intros r (Hd & Ht & Hch & Hne & Hauthz). unfold record_of_order.
           rewrite Hd, Ht. split; [left; reflexivity|]. split; [|auto].
           destruct Hwhich as [->|(Hflag & Hnonempty & target & others' & Hanswer & ->)];
             [left; reflexivity|].
           right. split; [exact Hflag|]. split; [exact Hnonempty|]. eauto.
        -- eapply Forall_impl; [exact Hmade'|].
           intros r (Hin & Hrest). split; [right; exact Hin | exact Hrest].
      * rewrite Hself2. apply Forall_app. split.
        -- eapply Forall_impl; [exact Hinv|].
           intros r Hr. exact (resolved_kept _ _ _ _ _ Hr Hentry Husable Hframe1).
        -- eapply Forall_impl; [exact Hmade|].
           intros r (_ & Ht & _). exists (p :: ps). rewrite Ht. auto.
    + unfold bind in Hrun. rewrite in_handler_run in Hrun. discriminate Hrun.
Qed.

Lemma map_const_same {A B} (f : A -> B) (b : B) (l : list A) {C} (k : list C) :
  Forall (fun a => f a = b) l -> length l = length k -> map f l = map (fun _ => b) k.
Proof.
  revert k. induction l as [|a l IH]; intros [|c k] Hall Hlen; try discriminate.
  - reflexivity.
  - inversion Hall as [|? ? Ha Hl]; subst. cbn. f_equal. apply IH; [exact Hl|].
    cbn in Hlen. lia.
Qed.

(** Without delegation: one record for every domain and provider of the
    domain, in order; every domain had providers, all of them usable. *)
Lemma authorizations_for_undelegated others cname_answers acme_client order :
  forall domains authorizations s authorizations' s',
  AcmeHandlers.authorizations_for others false cname_answers acme_client order domains
    authorizations s = (Ok authorizations', s') ->
  self (handler s') = self (handler s)
  /\ Forall (fun domain =>
               exists p ps,
                 dns_providers_for_domain (self (handler s)) !! domain = Some (p :: ps)
                 /\ Forall usable (p :: ps)) domains
  /\ exists made,
       authorizations' = authorizations ++ made
       /\ map AuthorizationRecord.domain made
          = flat_map (fun domain =>
                        map (fun _ => domain)
                            (default [] (dns_providers_for_domain (self (handler s))
                                           !! domain)))
                     domains.
Proof.
  induction domains as [|domain rest IH]; intros authorizations s authorizations' s' Hrun.
  - cbn in Hrun. injection Hrun as <- <-. split; [reflexivity|]. split; [constructor|].
    exists []. rewrite app_nil_r. split; reflexivity.
  - cbn [AcmeHandlers.authorizations_for] in Hrun. unfold bind at 1 in Hrun.
    change (AcmeHandlers.target_of false cname_answers domain s) with (Ok domain, s) in Hrun.
    cbn iota in Hrun. unfold bind at 1 in Hrun. rewrite in_handler_run in Hrun.
    cbn [gets fst snd] in Hrun.
    destruct (dns_providers_for_domain (self (handler s)) !! domain)
      as [[|p ps]|] eqn:Hentry.
    + unfold bind in Hrun. rewrite in_handler_run in Hrun. discriminate Hrun.
    + unfold bind at 1 in Hrun.
      destruct (AcmeHandlers.start_for_providers others acme_client order domain domain
                  (p :: ps) authorizations _) as [[authorizations1|e] s2] eqn:Hstart;
        [|discriminate].
      apply start_for_providers_spec in Hstart. cbn [handler cname_queries] in Hstart.
      destruct Hstart as (Hself2 & _ & Husable & made & -> & Hlen & Hmade).
      apply IH in Hrun. destruct Hrun as (Hself & Hrest & made' & -> & Hdomains).
      rewrite Hself2 in Hself, Hrest, Hdomains.
      split; [exact Hself|]. split.
      * constructor; [eauto | exact Hrest].
      * exists (made ++ made'). rewrite app_assoc. split; [reflexivity|].
        cbn [flat_map]. rewrite map_app, Hdomains, Hentry. cbn [default]. f_equal.
        apply map_const_same; [|exact Hlen].
        eapply Forall_impl; [exact Hmade|]. intros r (Hd & _). exact Hd.
    + unfold bind in Hrun. rewrite in_handler_run in Hrun. discriminate Hrun.
Qed.

(** The records [get_authorizations] returns can be cleaned up: each has its
    target domain in [dns_providers_for_domain], with providers whose
    credentials parse and whose type is known, also when a later domain of
    the order made [autodetect_dns_providers] compute the entry of the same
    target again.  So [cleanup_dns_challenges], called on them by a handler
    in that state, never raises. *)
Theorem get_authorizations_records_resolved others flag cname_answers acme_client order
    order_info_domains s authorizations s' :
  AcmeHandlers.get_authorizations others flag cname_answers acme_client order
    order_info_domains s = (Ok authorizations, s') ->
  Forall (resolved (self (handler s'))) authorizations
  /\ forall h, self h = self (handler s') ->
       fst (AcmeHandlers.cleanup_dns_challenges others acme_client authorizations h) = Ok tt.
Proof.
  intros Hrun. unfold AcmeHandlers.get_authorizations in Hrun.
  apply authorizations_for_spec in Hrun; [|constructor].
  destruct Hrun as (Hres & _). split; [exact Hres|].
  intros h Hself. rewrite <- Hself in Hres.
  destruct (cleanup_dns_challenges_spec others acme_client authorizations h Hres) as (w & ->).
  reflexivity.
Qed.

(** What [get_authorizations] returns, when it returns.  Every record is for
    a domain of the order, with the DNS-01 challenges selected for that
    domain, of which there is one at least; its target is its domain, or with
    delegation enabled the first CNAME target of the challenge name of its
    domain, without trailing dots and not empty.  With delegation enabled
    exactly one CNAME query is made per domain, for the challenge name of the
    domain without its wildcard prefix.  With delegation disabled no query is
    made, the handler's dictionary is as before, every domain of the order has
    providers in it, all usable, and there is one record per domain and
    provider, in the order of the domains. *)
Theorem get_authorizations_records others flag cname_answers acme_client order
    order_info_domains s authorizations s' :
  AcmeHandlers.get_authorizations others flag cname_answers acme_client order
    order_info_domains s = (Ok authorizations, s') ->
  Forall (record_of_order flag cname_answers order order_info_domains) authorizations
  /\ cname_queries s'
     = cname_queries s ++ (if flag then map challenge_name order_info_domains else [])
  /\ (flag = false ->
      self (handler s') = self (handler s)
      /\ Forall (fun authz_record =>
                   AuthorizationRecord.target_domain authz_record
                   = AuthorizationRecord.domain authz_record) authorizations
      /\ Forall (fun domain =>
                   exists p ps,
                     dns_providers_for_domain (self (handler s)) !! domain = Some (p :: ps)
                     /\ Forall usable (p :: ps)) order_info_domains
      /\ map AuthorizationRecord.domain authorizations
         = flat_map (fun domain =>
                       map (fun _ => domain)
                           (default [] (dns_providers_for_domain (self (handler s))
                                          !! domain)))
                    order_info_domains).
Proof.
  intros Hrun. unfold AcmeHandlers.get_authorizations in Hrun.
  pose proof Hrun as Hspec. apply authorizations_for_spec in Hspec; [|constructor].
  destruct Hspec as (_ & Hq & _ & made & Hmade & Hrecords). cbn [app] in Hmade. subst made.
  split; [exact Hrecords|]. split; [exact Hq|].
  intros ->. apply authorizations_for_undelegated in Hrun.
  destruct Hrun as (Hself & Hdomains & made & Hmade & Hmap). cbn [app] in Hmade. subst made.
  split; [exact Hself|]. split; [|split; [exact Hdomains | exact Hmap]].
  eapply Forall_impl; [exact Hrecords|].
  intros r (_ & [Ht|(Hflag & _)] & _); [exact Ht | discriminate Hflag].
Qed.

Lemma get_authorizations_records_resolved_witness :
  fst (AcmeHandlers.cleanup_dns_challenges (fun _ => ultradns_plugin) example_client
         [delegated_record]
         (handler
            (snd (AcmeHandlers.get_authorizations (fun _ => ultradns_plugin) true
                    delegating_answers example_client example_order ["foo.example.com"]
                    (no_lookups (fresh_handler [ultradns_account ["example.net"]]
                                   (quiet_world ["example.net"])))))))
  = Ok tt.
Proof.
  refine (proj2 (get_authorizations_records_resolved (fun _ => ultradns_plugin) true
                   delegating_answers example_client example_order ["foo.example.com"]
                   (no_lookups (fresh_handler [ultradns_account ["example.net"]]
                                  (quiet_world ["example.net"])))
                   [delegated_record]
                   (snd (AcmeHandlers.get_authorizations (fun _ => ultradns_plugin) true
                           delegating_answers example_client example_order
                           ["foo.example.com"]
                           (no_lookups (fresh_handler [ultradns_account ["example.net"]]
                                          (quiet_world ["example.net"])))))
                   _) _ eq_refl).
  vm_compute. reflexivity.
Defined.

(** The challenge name of [foo.example.com] is an alias: one query is made,
    and the record's target is the alias's target without the trailing dot. *)
Lemma get_authorizations_records_witness :
  Forall (record_of_order true delegating_answers example_order ["foo.example.com"])
    [delegated_record]
  /\ cname_queries
       (snd (AcmeHandlers.get_authorizations (fun _ => ultradns_plugin) true
               delegating_answers example_client example_order ["foo.example.com"]
               (no_lookups (fresh_handler [ultradns_account ["example.net"]]
                              (quiet_world ["example.net"])))))
     = [] ++ map challenge_name ["foo.example.com"].
Proof.
  destruct (get_authorizations_records (fun _ => ultradns_plugin) true
              delegating_answers example_client example_order ["foo.example.com"]
              (no_lookups (fresh_handler [ultradns_account ["example.net"]]
                             (quiet_world ["example.net"])))
              [delegated_record]
              (snd (AcmeHandlers.get_authorizations (fun _ => ultradns_plugin) true
                      delegating_answers example_client example_order
                      ["foo.example.com"]
                      (no_lookups (fresh_handler [ultradns_account ["example.net"]]
                                     (quiet_world ["example.net"]))))))
    as (Hrecords & Hqueries & _).
  - vm_compute. reflexivity.
  - split; [exact Hrecords | exact Hqueries].
Defined.

(** ** The calls of the handler's methods, whatever their outcome *)

Lemma silent_ret {A} (a : A) : silent (ret a : M handler_state A).
Proof. intros h. split; reflexivity. Qed.

Lemma silent_raise {A} e : silent (raise e : M handler_state A).
Proof. intros h. split; reflexivity. Qed.

Lemma silent_gets {A} (f : handler_state -> A) : silent (gets f).
Proof. intros h. split; reflexivity. Qed.

Lemma silent_in_world {A} (m : M world A) : silent (in_world m).
Proof. intros h. rewrite in_world_run. split; reflexivity. Qed.

Lemma silent_bind {A B} (m : M handler_state A) (k : A -> M handler_state B) :
  silent m -> (forall x, silent (k x)) -> silent (bind m k).
Proof.
  intros Hm Hk h. unfold bind. destruct (Hm h) as [H1 H2].
  destruct (m h) as [[x|e] h1]; cbn [fst snd] in *.
  - destruct (Hk x h1) as [H3 H4]. split; congruence.
  - split; assumption.
Qed.

Lemma trace_silent {A} a (m : M handler_state A) : silent m -> trace_within a [] m.
Proof.
  intros Hs h Ha. destruct (Hs h) as [H1 H2]. split; [congruence|].
  exists []. rewrite app_nil_r. split; [exact H2|]. split; [exists []; reflexivity|].
  reflexivity.
Qed.

Lemma trace_bind {A B} a E1 E2 (m : M handler_state A) (k : A -> M handler_state B) :
  trace_within a E1 m -> (forall x, trace_within a E2 (k x)) ->
  trace_within a (E1 ++ E2) (bind m k).
Proof.
  intros Hm Hk h Ha. unfold bind. destruct (Hm h Ha) as (Hs & made & Hc & Hp & Hfull).
  destruct (m h) as [[x|e] h1]; cbn [fst snd] in *.
  - rewrite (Hfull x eq_refl) in Hc.
    destruct (Hk x h1 Hs) as (Hs2 & made2 & Hc2 & Hp2 & Hfull2).
    split; [exact Hs2|]. exists (E1 ++ made2).
    split; [rewrite Hc2, Hc, app_assoc; reflexivity|]. split.
    + apply prefix_app. exact Hp2.
    + intros r Hr. rewrite (Hfull2 r Hr). reflexivity.
  - split; [exact Hs|]. exists made. split; [exact Hc|]. split.
    + apply prefix_app_r. exact Hp.
    + intros r Hr. discriminate Hr.
Qed.

Lemma trace_bind_silent {A B} a E (m : M handler_state A) (k : A -> M handler_state B) :
  silent m -> (forall x, trace_within a E (k x)) -> trace_within a E (bind m k).
Proof.
  intros Hm Hk. change E with ([] ++ E). apply trace_bind; [|exact Hk].
  apply trace_silent. exact Hm.
Qed.

Lemma trace_then_silent {A B} a E (m : M handler_state A) (k : A -> M handler_state B) :
  trace_within a E m -> (forall x, silent (k x)) -> trace_within a E (bind m k).
Proof.
  intros Hm Hk. rewrite <- (app_nil_r E). apply trace_bind; [exact Hm|].
  intros x. apply trace_silent. apply Hk.
Qed.

(** A call that leaves the handler is recorded, whatever it does. *)
Lemma trace_call {A} a c (m : M world A) :
  trace_within a [c] (record_call c;; in_world m).
Proof.
  intros h Ha. unfold bind, record_call, modify. rewrite in_world_run. cbn [fst snd self calls].
  split; [exact Ha|]. exists [c]. split; [reflexivity|]. split; [reflexivity|].
  reflexivity.
Qed.

Lemma trace_for_each {X} a (E : X -> list external_call) (body : X -> M handler_state unit) :
  forall l,
  (forall x, In x l -> trace_within a (E x) (body x)) ->
  trace_within a (flat_map E l) (for_each l body).
Proof.
  induction l as [|x l IH]; intros Hbody.
  - apply trace_silent. apply silent_ret.
  - cbn [for_each flat_map]. apply trace_bind.
    + apply Hbody. left. reflexivity.
    + intros _. apply IH. intros y Hy. apply Hbody. right. exact Hy.
Qed.

(** [try: m except Exception: ...; raise] *)
Lemma trace_try_reraise {A} a E (m : M handler_state A) (handler : exn -> M handler_state A) :
  trace_within a E m ->
  (forall e, silent (handler e)) ->
  (forall e h r, fst (handler e h) <> Ok r) ->
  trace_within a E (try_except m handler).
Proof.
  intros Hm Hs Hraise h Ha. unfold try_except.
  destruct (Hm h Ha) as (Hself & made & Hc & Hp & Hfull).
  destruct (m h) as [[x|e] h1]; cbn [fst snd] in *.
  - split; [exact Hself|]. exists made. auto.
  - destruct (Hs e h1) as [H1 H2]. split; [congruence|]. exists made.
    split; [congruence|]. split; [exact Hp|].
    intros r Hr. exfalso. exact (Hraise e h1 r Hr).
Qed.

Lemma flat_map_singleton {X Y} (f : X -> Y) (l : list X) :
  flat_map (fun x => [f x]) l = map f l.
Proof. induction l as [|x l IH]; cbn; [reflexivity | rewrite IH; reflexivity]. Qed.

(** *** [start_dns_challenge] *)

Lemma create_records_trace others a acme_client account_number domain target_domain m :
  forall dns_challenges host change_ids,
  trace_within a
    (map (fun target => CreateTxtRecord m (fst target) (snd target) account_number)
         (record_targets (AcmeClient.key acme_client)
            (negb (String.eqb domain target_domain)) host dns_challenges))
    (AcmeHandlers.create_records others acme_client account_number domain target_domain m
       dns_challenges host change_ids).
Proof.
  induction dns_challenges as [|c rest IH]; intros host change_ids.
  - apply trace_silent. apply silent_ret.
  - cbn [AcmeHandlers.create_records record_targets map].
    set (host' := if String.eqb domain target_domain
                  then validation_domain_name host else host).
    replace (if negb _ then host else validation_domain_name host) with host'
      by (subst host'; destruct (String.eqb domain target_domain); reflexivity).
    cbn [fst snd].
    change (CreateTxtRecord m host' (ChallengeBody.validation c (AcmeClient.key acme_client))
              account_number :: ?l)
      with ([CreateTxtRecord m host' (ChallengeBody.validation c (AcmeClient.key acme_client))
               account_number] ++ l).
    apply trace_bind.
    + apply trace_call.
    + intros change_id. apply IH.
Qed.

Lemma start_dns_challenge_trace others a acme_client account_number domain target_domain m
    order dns_provider_options :
  trace_within a
    (creations_of acme_client account_number domain target_domain m order
       dns_provider_options)
    (AcmeHandlers.start_dns_challenge others acme_client account_number domain target_domain
       m order dns_provider_options).
Proof.
  unfold AcmeHandlers.start_dns_challenge, creations_of.
  apply trace_bind_silent; [apply silent_in_world|]. intros _. cbn zeta.
  destruct (AcmeHandlers.get_dns_challenges domain (Order.authorizations order))
    as [|c cs] eqn:Hch.
  - apply trace_silent. apply silent_bind; [apply silent_in_world|]. intros _.
    apply silent_bind; [apply silent_in_world|]. intros _. apply silent_raise.
  - apply trace_then_silent; [apply create_records_trace|]. intros ids. apply silent_ret.
Qed.

(** Whatever the provider does, [start_dns_challenge] only makes creation
    calls, in the order of the selected challenges and no further than the
    first one that raises: a record created before the failure stays.  When
    no DNS-01 challenge is selected for the domain it makes no call at all,
    reports to the error tracker and raises. *)
Theorem start_dns_challenge_calls others acme_client account_number domain target_domain m
    order dns_provider_options h :
  let out := AcmeHandlers.start_dns_challenge others acme_client account_number domain
               target_domain m order dns_provider_options h in
  let expected := creations_of acme_client account_number domain target_domain m order
                    dns_provider_options in
  self (snd out) = self h
  /\ (exists made,
        calls (snd out) = calls h ++ made
        /\ made `prefix_of` expected
        /\ (forall authz_record, fst out = Ok authz_record -> made = expected))
  /\ (AcmeHandlers.get_dns_challenges domain (Order.authorizations order) = [] ->
      fst out = Raise (Exception "Unable to determine DNS challenges from authorizations")
      /\ calls (snd out) = calls h
      /\ sentry (env (snd out)) = S (sentry (env h))
      /\ rrsets (env (snd out)) = rrsets (env h)).
Proof.
  intros out expected.
  destruct (start_dns_challenge_trace others (self h) acme_client account_number domain
              target_domain m order dns_provider_options h eq_refl) as (Hself & Hmade).
  split; [exact Hself|]. split; [exact Hmade|].
  intros Hnone. subst out. unfold AcmeHandlers.start_dns_challenge.
  unfold bind at 1. rewrite in_world_run. cbn [fst snd logger_debug modify]. cbn zeta.
  rewrite Hnone. unfold bind. rewrite !in_world_run. cbn. auto.
Qed.

Lemma start_dns_challenge_calls_witness :
  fst (AcmeHandlers.start_dns_challenge (fun _ => ultradns_plugin) example_client (Some "1")
         "bar.example.com" "bar.example.com" ultradns example_order None
         (resolved_handler (quiet_world ["example.com"])))
  = Raise (Exception "Unable to determine DNS challenges from authorizations")
  /\ calls (snd (AcmeHandlers.start_dns_challenge (fun _ => ultradns_plugin) example_client
                   (Some "1") "bar.example.com" "bar.example.com" ultradns example_order
                   None (resolved_handler (quiet_world ["example.com"]))))
     = calls (resolved_handler (quiet_world ["example.com"])).
Proof.
  destruct (proj2 (proj2 (start_dns_challenge_calls (fun _ => ultradns_plugin) example_client
                            (Some "1") "bar.example.com" "bar.example.com" ultradns
                            example_order None
                            (resolved_handler (quiet_world ["example.com"]))))
              eq_refl) as (Hraise & Hcalls & _).
  split; [exact Hraise | exact Hcalls].
Defined.

(** *** [complete_dns_challenge] *)

Lemma wait_for_changes_trace others a m account_number change_ids :
  trace_within a
    (map (fun change_id => WaitForDnsChange m change_id account_number) change_ids)
    (AcmeHandlers.wait_for_changes others m account_number change_ids).
Proof.
  unfold AcmeHandlers.wait_for_changes. rewrite <- flat_map_singleton.
  apply trace_for_each. intros change_id _. apply trace_try_reraise.
  - apply trace_call.
  - intros e. apply silent_bind; [apply silent_in_world|]. intros _.
    apply silent_bind; [apply silent_in_world|]. intros _.
    apply silent_bind; [apply silent_in_world|]. intros _. apply silent_raise.
  - intros e h r. unfold bind. rewrite !in_world_run. cbn. discriminate.
Qed.

Lemma trace_ret_bind {A B} a E (v : A) (k : A -> M handler_state B) :
  trace_within a E (k v) -> trace_within a E (bind (ret v) k).
Proof. intros H h Ha. exact (H h Ha). Qed.

Lemma trace_raise_bind {A B} a e (k : A -> M handler_state B) :
  trace_within a [] (bind (raise e) k).
Proof. apply trace_silent. intros h. split; reflexivity. Qed.

Lemma complete_for_provider_trace others a acme_client authz_record dns_provider :
  trace_within a
    (polls_of authz_record dns_provider ++ answer_of acme_client authz_record dns_provider)
    (AcmeHandlers.complete_for_provider others acme_client authz_record dns_provider).
Proof.
  unfold AcmeHandlers.complete_for_provider, polls_of, answer_of,
    AcmeHandlers.json_loads_credentials, AcmeHandlers.get_dns_provider.
  destruct (DnsProvider.credentials dns_provider) as [opts|];
    [|apply trace_raise_bind].
  apply trace_ret_bind. cbn zeta.
  destruct (AcmeHandlers.provider_types !! DnsProvider.provider_type dns_provider) as [m|];
    [|apply trace_raise_bind].
  apply trace_ret_bind. apply trace_bind; [apply wait_for_changes_trace|]. intros _.
  destruct (last (AuthorizationRecord.dns_challenge authz_record)) as [dns_challenge|];
    [|apply trace_silent, silent_raise].
  cbn zeta.
  destruct (ChallengeBody.simple_verify dns_challenge (AcmeClient.key acme_client)
              (AuthorizationRecord.target_domain authz_record)); cbn [negb].
  - apply trace_bind_silent; [apply silent_in_world|]. intros _.
    apply trace_then_silent; [apply trace_call|]. intros _. apply silent_in_world.
  - apply trace_silent. apply silent_bind; [apply silent_in_world|]. intros _.
    apply silent_raise.
Qed.

Lemma trace_gets {A B} a E (f : handler_state -> A) (v : A) (k : A -> M handler_state B) :
  (forall h, self h = a -> f h = v) ->
  trace_within a E (k v) -> trace_within a E (bind (gets f) k).
Proof.
  intros Hf Hk h Ha. change (bind (gets f) k h) with (k (f h) h).
  rewrite (Hf h Ha). exact (Hk h Ha).
Qed.

Lemma complete_dns_challenge_trace others a acme_client authz_record :
  trace_within a (completions_of acme_client a authz_record)
    (AcmeHandlers.complete_dns_challenge others acme_client authz_record).
Proof.
  unfold AcmeHandlers.complete_dns_challenge, completions_of, providers_of.
  apply trace_bind_silent.
  { destruct (AuthorizationRecord.authz authz_record);
      [apply silent_raise | apply silent_in_world]. }
  intros _.
  apply (trace_gets a _ _
           (dns_providers_for_domain a !! AuthorizationRecord.target_domain authz_record)).
  { intros h ->. reflexivity. }
  destruct (dns_providers_for_domain a !! AuthorizationRecord.target_domain authz_record)
    as [[|p ps]|]; cbn [default].
  - apply trace_silent. apply silent_bind; [apply silent_in_world|]. intros _.
    apply silent_raise.
  - apply trace_for_each. intros x _. apply complete_for_provider_trace.
  - apply trace_silent. apply silent_bind; [apply silent_in_world|]. intros _.
    apply silent_raise.
Qed.

Lemma for_each_ok {S X} (body : X -> M S unit) : forall l s s',
  for_each l body s = (Ok tt, s') ->
  forall x, In x l -> exists s1 s2, body x s1 = (Ok tt, s2).
Proof.
  induction l as [|y l IH]; intros s s' Hrun x Hin; [destruct Hin|].
  cbn [for_each] in Hrun. unfold bind in Hrun.
  destruct (body y s) as [[[]|e] s1] eqn:Hbody; [|discriminate].
  destruct Hin as [<-|Hin]; [eauto|]. exact (IH _ _ Hrun x Hin).
Qed.

(** A provider's part of [complete_dns_challenge] returns only for a usable
    provider and a last challenge that verifies. *)
Lemma complete_for_provider_ok others acme_client authz_record dns_provider h h' :
  AcmeHandlers.complete_for_provider others acme_client authz_record dns_provider h
  = (Ok tt, h') ->
  usable dns_provider
  /\ exists dns_challenge,
       last (AuthorizationRecord.dns_challenge authz_record) = Some dns_challenge
       /\ ChallengeBody.simple_verify dns_challenge (AcmeClient.key acme_client)
            (AuthorizationRecord.target_domain authz_record) = true.
Proof.
  unfold AcmeHandlers.complete_for_provider, AcmeHandlers.json_loads_credentials,
    AcmeHandlers.get_dns_provider, usable.
  destruct (DnsProvider.credentials dns_provider) as [opts|]; [|discriminate].
  unfold bind at 1. cbn [ret]. cbn zeta.
  destruct (AcmeHandlers.provider_types !! DnsProvider.provider_type dns_provider) as [m|];
    [|discriminate].
  unfold bind at 1. cbn [ret]. unfold bind at 1.
  destruct (AcmeHandlers.wait_for_changes others m (opts !! "account_id")
              (AuthorizationRecord.change_id authz_record) h) as [[[]|e] h1];
    [|discriminate].
  destruct (last (AuthorizationRecord.dns_challenge authz_record)) as [dns_challenge|];
    [|discriminate].
  cbn zeta.
  destruct (ChallengeBody.simple_verify dns_challenge (AcmeClient.key acme_client)
              (AuthorizationRecord.target_domain authz_record)) eqn:Hverified; cbn [negb].
  - intros _. split; [split; eexists; reflexivity|]. eauto.
  - unfold bind. rewrite in_world_run. discriminate.
Qed.

Lemma complete_dns_challenge_ok others acme_client authz_record h h' :
  AcmeHandlers.complete_dns_challenge others acme_client authz_record h = (Ok tt, h') ->
  AuthorizationRecord.authz authz_record <> []
  /\ providers_of (self h) authz_record <> []
  /\ Forall usable (providers_of (self h) authz_record)
  /\ exists dns_challenge,
       last (AuthorizationRecord.dns_challenge authz_record) = Some dns_challenge
       /\ ChallengeBody.simple_verify dns_challenge (AcmeClient.key acme_client)
            (AuthorizationRecord.target_domain authz_record) = true.
Proof.
  unfold AcmeHandlers.complete_dns_challenge, providers_of. unfold bind at 1.
  destruct (AuthorizationRecord.authz authz_record) as [|a0 rest]; [discriminate|].
  rewrite in_world_run. cbn [fst snd]. unfold bind at 1. unfold gets.
  cbn [set_env self].
  destruct (dns_providers_for_domain (self h)
              !! AuthorizationRecord.target_domain authz_record) as [[|p ps]|].
  - unfold bind. rewrite in_world_run. discriminate.
  - cbn [default]. intros Hrun. split; [discriminate|]. split; [discriminate|].
    pose proof (for_each_ok _ _ _ _ Hrun) as Hall. split.
    + apply Forall_forall. intros x Hx. apply list_elem_of_In in Hx.
      destruct (Hall x Hx) as (s1 & s2 & Hbody).
      exact (proj1 (complete_for_provider_ok _ _ _ _ _ _ Hbody)).
    + destruct (Hall p ltac:(left; reflexivity)) as (s1 & s2 & Hbody).
      exact (proj2 (complete_for_provider_ok _ _ _ _ _ _ Hbody)).
  - unfold bind. rewrite in_world_run. discriminate.
Qed.

(** [complete_dns_challenge] polls every change id of the record with each
    provider of its target, in order, and after the polls of a provider
    answers one challenge: the last DNS-01 challenge of the record, and only
    if that one verifies.  Whatever raises, the calls made are a first part of
    this sequence, and no other call is made.  It returns only when the
    target has providers, all usable, and the last challenge verifies; the
    other challenges of the record are neither verified nor answered.  When
    the target has no provider it raises without a call. *)
Theorem complete_dns_challenge_calls others acme_client authz_record h :
  let out := AcmeHandlers.complete_dns_challenge others acme_client authz_record h in
  let expected := completions_of acme_client (self h) authz_record in
  self (snd out) = self h
  /\ (exists made,
        calls (snd out) = calls h ++ made
        /\ made `prefix_of` expected
        /\ (fst out = Ok tt -> made = expected))
  /\ (fst out = Ok tt ->
      providers_of (self h) authz_record <> []
      /\ Forall usable (providers_of (self h) authz_record)
      /\ exists dns_challenge,
           last (AuthorizationRecord.dns_challenge authz_record) = Some dns_challenge
           /\ ChallengeBody.simple_verify dns_challenge (AcmeClient.key acme_client)
                (AuthorizationRecord.target_domain authz_record) = true)
  /\ (AuthorizationRecord.authz authz_record <> [] ->
      providers_of (self h) authz_record = [] ->
      fst out = Raise (Exception ("No DNS providers found for domain: "
                                  +:+ AuthorizationRecord.target_domain authz_record))
      /\ calls (snd out) = calls h).
Proof.
  intros out expected.
  destruct (complete_dns_challenge_trace others (self h) acme_client authz_record h eq_refl)
    as (Hself & made & Hcalls & Hprefix & Hfull).
  split; [exact Hself|]. split.
  { exists made. split; [exact Hcalls|]. split; [exact Hprefix | exact (Hfull tt)]. }
  clear Hself made Hcalls Hprefix Hfull. split.
  - intros Hok. subst out.
    destruct (AcmeHandlers.complete_dns_challenge others acme_client authz_record h)
      as [r h'] eqn:Hrun.
    cbn [fst] in Hok. subst r.
    destruct (complete_dns_challenge_ok _ _ _ _ _ Hrun) as (_ & H1 & H2 & H3). auto.
  - intros Hauthz Hnone.
    assert (Hout : exists h',
               out = (Raise (Exception ("No DNS providers found for domain: "
                                        +:+ AuthorizationRecord.target_domain authz_record)),
                      h')
               /\ calls h' = calls h).
    { subst out. unfold AcmeHandlers.complete_dns_challenge.
      unfold providers_of in Hnone. unfold bind at 1.
      destruct (AuthorizationRecord.authz authz_record) as [|a0 rest]; [contradiction|].
      rewrite in_world_run. cbn [fst snd]. unfold bind at 1. unfold gets.
      cbn [set_env self].
      destruct (dns_providers_for_domain (self h)
                  !! AuthorizationRecord.target_domain authz_record) as [[|p ps]|];
        cbn [default] in Hnone; try discriminate;
        unfold bind; rewrite in_world_run; eexists; split; reflexivity. }
    destruct Hout as (h' & -> & Hcalls). split; [reflexivity | exact Hcalls].
Qed.

(** Two challenges, one provider: two polls, and one answer, to the second
    challenge. *)
Lemma complete_dns_challenge_calls_witness :
  calls (snd (AcmeHandlers.complete_dns_challenge (fun _ => ultradns_plugin) example_client
                two_challenge_record (resolved_handler (quiet_world ["example.com"]))))
  = [WaitForDnsChange ultradns ("_acme-challenge.foo.example.com", "T1") (Some "1");
     WaitForDnsChange ultradns ("_acme-challenge._acme-challenge.foo.example.com", "T2")
       (Some "1");
     AnswerChallenge "T2"].
Proof.
  destruct (complete_dns_challenge_calls (fun _ => ultradns_plugin) example_client
              two_challenge_record (resolved_handler (quiet_world ["example.com"])))
    as (_ & (made & Hcalls & _ & Hfull) & _).
  rewrite Hcalls, Hfull; [reflexivity|]. vm_compute. reflexivity.
Defined.

Lemma wait_for_changes_good others (good : world -> Prop) m account_number :
  (forall change_id w,
     good w ->
     fst (wait_for_dns_change (AcmeHandlers.plugin_of others m) change_id account_number w)
     = Ok tt
     /\ good (snd (wait_for_dns_change (AcmeHandlers.plugin_of others m) change_id
                     account_number w))) ->
  forall change_ids h,
    good (env h) ->
    fst (AcmeHandlers.wait_for_changes others m account_number change_ids h) = Ok tt
    /\ good (env (snd (AcmeHandlers.wait_for_changes others m account_number change_ids h))).
Proof.
  intros Hpoll. unfold AcmeHandlers.wait_for_changes.
  set (body := fun change_id : string * string => try_except _ _).
  assert (Hstep : forall change_id h, good (env h) ->
            exists h1, body change_id h = (Ok tt, h1) /\ good (env h1)).
  { intros change_id h Hgood. subst body. cbn beta. unfold try_except.
    unfold AcmeHandlers.call_wait_for_dns_change. unfold bind at 1.
    unfold record_call, modify. rewrite in_world_run. cbn [fst snd env].
    destruct (Hpoll change_id (env h) Hgood) as [Hok Hgood'].
    destruct (wait_for_dns_change (AcmeHandlers.plugin_of others m) change_id account_number
                (env h)) as [r w1].
    cbn [fst snd] in Hok, Hgood'. subst r. eexists. split; [reflexivity | exact Hgood']. }
  clearbody body.
  induction change_ids as [|change_id change_ids IH]; intros h Hgood;
    [split; [reflexivity | exact Hgood]|].
  cbn [for_each]. unfold bind.
  destruct (Hstep change_id h Hgood) as (h1 & -> & Hgood1). apply IH. exact Hgood1.
Qed.

(** One provider's part, with a poller and an ACME server that do not raise
    in the worlds of [good]. *)
Lemma complete_for_provider_outcome others (good : world -> Prop) acme_client authz_record
    dns_provider dns_challenge h :
  (forall m change_id account_number w,
     good w ->
     fst (wait_for_dns_change (AcmeHandlers.plugin_of others m) change_id account_number w)
     = Ok tt
     /\ good (snd (wait_for_dns_change (AcmeHandlers.plugin_of others m) change_id
                     account_number w))) ->
  (forall challenge w,
     good w ->
     fst (AcmeClient.answer_challenge acme_client challenge w) = Ok tt
     /\ good (snd (AcmeClient.answer_challenge acme_client challenge w))) ->
  (forall f w, good w -> good (set_log f w)) ->
  (forall f w, good w -> good (set_slept f w)) ->
  good (env h) ->
  usable dns_provider ->
  last (AuthorizationRecord.dns_challenge authz_record) = Some dns_challenge ->
  exists h',
    AcmeHandlers.complete_for_provider others acme_client authz_record dns_provider h
    = (if ChallengeBody.simple_verify dns_challenge (AcmeClient.key acme_client)
            (AuthorizationRecord.target_domain authz_record)
       then Ok tt else Raise (ValueError "Failed verification"), h')
    /\ self h' = self h
    /\ (ChallengeBody.simple_verify dns_challenge (AcmeClient.key acme_client)
          (AuthorizationRecord.target_domain authz_record) = true -> good (env h'))
    /\ (ChallengeBody.simple_verify dns_challenge (AcmeClient.key acme_client)
          (AuthorizationRecord.target_domain authz_record) = false ->
        calls h' = calls h ++ polls_of authz_record dns_provider).
Proof.
  intros Hpoll Hanswer Hlog Hslept Hgood [[opts Hc] [m Hm]] Hlast.
  unfold AcmeHandlers.complete_for_provider, AcmeHandlers.json_loads_credentials,
    AcmeHandlers.get_dns_provider, polls_of.
  rewrite Hc, Hm, Hlast. unfold bind at 1. cbn [ret]. cbn zeta.
  unfold bind at 1. cbn [ret]. unfold bind at 1.
  destruct (wait_for_changes_good others good m (opts !! "account_id")
              (fun change_id w => Hpoll m change_id _ w)
              (AuthorizationRecord.change_id authz_record) h Hgood) as [Hok Hgood1].
  destruct (wait_for_changes_trace others (self h) m (opts !! "account_id")
              (AuthorizationRecord.change_id authz_record) h eq_refl)
    as (Hself & made & Hcalls & _ & Hfull).
  destruct (AcmeHandlers.wait_for_changes others m (opts !! "account_id")
              (AuthorizationRecord.change_id authz_record) h) as [r h1].
  cbn [fst snd] in Hok, Hgood1, Hself, Hcalls, Hfull. subst r.
  rewrite (Hfull tt eq_refl) in Hcalls.
  destruct (ChallengeBody.simple_verify dns_challenge (AcmeClient.key acme_client)
              (AuthorizationRecord.target_domain authz_record)); cbn [negb].
  - unfold bind at 1. rewrite in_world_run. cbn [fst snd]. unfold bind at 1.
    unfold AcmeHandlers.call_answer_challenge. unfold bind at 1.
    unfold record_call, modify. rewrite in_world_run. cbn [fst snd].
    match goal with
    | |- context [AcmeClient.answer_challenge acme_client dns_challenge ?w] =>
        destruct (Hanswer dns_challenge w) as [Hok Hgood2];
        [cbn [env set_env time_sleep modify snd]; apply Hslept; exact Hgood1|];
        destruct (AcmeClient.answer_challenge acme_client dns_challenge w) as [r w2]
    end.
    cbn [fst snd] in Hok, Hgood2. subst r. cbn [fst snd]. rewrite in_world_run.
    eexists. split; [reflexivity|]. split; [exact Hself|]. split; [|discriminate].
    intros _. cbn [env set_env logger_debug modify snd]. apply Hlog. exact Hgood2.
  - unfold bind. rewrite in_world_run. cbn [fst snd raise].
    eexists. split; [reflexivity|]. split; [exact Hself|]. split; [discriminate|].
    intros _. exact Hcalls.
Qed.

(** With pollers and an ACME server that return normally in the worlds of a
    condition [good] which they and the handler's own logging and sleeping
    keep (for the poller of [ultradns]: resolvers whose answers decode), the
    outcome of [complete_dns_challenge] for a record whose target has usable
    providers is decided by the verification of the last challenge of the
    record alone: when it verifies, the method returns, having polled and
    answered for every provider; when it does not, the method raises
    [ValueError] after the polls of the first provider and answers
    nothing. *)
Theorem complete_dns_challenge_outcome others (good : world -> Prop) acme_client authz_record
    h p ps dns_challenge :
  (forall m change_id account_number w,
     good w ->
     fst (wait_for_dns_change (AcmeHandlers.plugin_of others m) change_id account_number w)
     = Ok tt
     /\ good (snd (wait_for_dns_change (AcmeHandlers.plugin_of others m) change_id
                     account_number w))) ->
  (forall challenge w,
     good w ->
     fst (AcmeClient.answer_challenge acme_client challenge w) = Ok tt
     /\ good (snd (AcmeClient.answer_challenge acme_client challenge w))) ->
  (forall f w, good w -> good (set_log f w)) ->
  (forall f w, good w -> good (set_slept f w)) ->
  good (env h) ->
  AuthorizationRecord.authz authz_record <> [] ->
  dns_providers_for_domain (self h) !! AuthorizationRecord.target_domain authz_record
  = Some (p :: ps) ->
  Forall usable (p :: ps) ->
  last (AuthorizationRecord.dns_challenge authz_record) = Some dns_challenge ->
  let out := AcmeHandlers.complete_dns_challenge others acme_client authz_record h in
  (ChallengeBody.simple_verify dns_challenge (AcmeClient.key acme_client)
     (AuthorizationRecord.target_domain authz_record) = true ->
   fst out = Ok tt
   /\ calls (snd out) = calls h ++ completions_of acme_client (self h) authz_record)
  /\ (ChallengeBody.simple_verify dns_challenge (AcmeClient.key acme_client)
        (AuthorizationRecord.target_domain authz_record) = false ->
      fst out = Raise (ValueError "Failed verification")
      /\ calls (snd out) = calls h ++ polls_of authz_record p).
Proof.
  intros Hpoll Hanswer Hlog Hslept Hgood Hauthz Hentry Husable Hlast out.
  assert (Hout : out = for_each (p :: ps)
                         (AcmeHandlers.complete_for_provider others acme_client authz_record)
                         (set_env (set_log (fun l => l ++ ["Finalizing DNS challenge"])
                                     (env h)) h)).
  { subst out. unfold AcmeHandlers.complete_dns_challenge. unfold bind at 1.
    destruct (AuthorizationRecord.authz authz_record) as [|a0 rest]; [contradiction|].
    rewrite in_world_run. cbn [fst snd]. unfold bind at 1. unfold gets.
    cbn [set_env self logger_debug modify snd]. rewrite Hentry. reflexivity. }
  assert (Hgood0 : good (env (set_env (set_log (fun l => l ++ ["Finalizing DNS challenge"])
                                        (env h)) h)))
    by (cbn [env set_env]; apply Hlog; exact Hgood).
  split.
  - intros Hverified.
    assert (Hok : forall l h0, Forall usable l -> good (env h0) ->
              fst (for_each l
                     (AcmeHandlers.complete_for_provider others acme_client authz_record) h0)
              = Ok tt).
    { induction l as [|q l IH]; intros h0 Hl Hg; [reflexivity|].
      inversion Hl as [|? ? Hq Hl']; subst. cbn [for_each]. unfold bind.
      destruct (complete_for_provider_outcome others good acme_client authz_record q
                  dns_challenge h0 Hpoll Hanswer Hlog Hslept Hg Hq Hlast)
        as (h1 & Hrun & _ & Hg1 & _).
      rewrite Hrun, Hverified. apply IH; [exact Hl' | exact (Hg1 Hverified)]. }
    assert (Hfst : fst out = Ok tt) by (rewrite Hout; apply Hok; assumption).
    split; [exact Hfst|].
    destruct (complete_dns_challenge_trace others (self h) acme_client authz_record h eq_refl)
      as (_ & made & Hcalls & _ & Hfull).
    fold out in Hcalls, Hfull. rewrite Hcalls, (Hfull tt Hfst). reflexivity.
  - intros Hfailed. rewrite Hout. cbn [for_each]. unfold bind.
    inversion Husable as [|? ? Hp _]; subst.
    destruct (complete_for_provider_outcome others good acme_client authz_record p
                dns_challenge
                (set_env (set_log (fun l => l ++ ["Finalizing DNS challenge"]) (env h)) h)
                Hpoll Hanswer Hlog Hslept Hgood0 Hp Hlast) as (h1 & Hrun & _ & _ & Hcalls).
    rewrite Hrun, Hfailed. cbn [fst snd]. split; [reflexivity|]. exact (Hcalls Hfailed).
Qed.

Lemma complete_dns_challenge_outcome_witness :
  fst (AcmeHandlers.complete_dns_challenge (fun _ => ultradns_plugin) example_client
         two_challenge_record (resolved_handler (quiet_world ["example.com"])))
  = Ok tt
  /\ calls (snd (AcmeHandlers.complete_dns_challenge (fun _ => ultradns_plugin)
                   example_client two_challenge_record
                   (resolved_handler (quiet_world ["example.com"]))))
     = calls (resolved_handler (quiet_world ["example.com"]))
       ++ completions_of example_client
            (self (resolved_handler (quiet_world ["example.com"]))) two_challenge_record.
Proof.
  refine (proj1 (complete_dns_challenge_outcome (fun _ => ultradns_plugin) decodable_world
                   example_client two_challenge_record
                   (resolved_handler (quiet_world ["example.com"]))
                   (ultradns_account ["example.com"]) [] (dns01 "T2")
                   _ _ _ _ _ _ eq_refl _ eq_refl)
            eq_refl).
  - intros m change_id account_number w Hw.
    assert (Hrun : exists w',
               Ultradns.wait_for_dns_change change_id account_number w = (Ok tt, w')
               /\ resolver w' = resolver w)
      by (apply wait_for_dns_change_decodable; exact Hw).
    destruct Hrun as (w' & Hrun & Hres).
    replace (wait_for_dns_change (AcmeHandlers.plugin_of (fun _ => ultradns_plugin) m))
      with Ultradns.wait_for_dns_change by (destruct m; reflexivity).
    rewrite Hrun. split; [reflexivity|]. intros ns name i. cbn [snd]. rewrite Hres. apply Hw.
  - intros challenge w Hw. split; [reflexivity | exact Hw].
  - intros f w Hw. exact Hw.
  - intros f w Hw. exact Hw.
  - intros ns name i. reflexivity.
  - discriminate.
  - constructor; [|constructor]. split; eexists; reflexivity.
Defined.

(** *** [finalize_authorizations] *)

Lemma finalize_delete_trace others a acme_client authz_record dns_challenge dns_provider :
  trace_within a (final_deletion_of acme_client authz_record dns_challenge dns_provider)
    (AcmeHandlers.finalize_delete others acme_client authz_record dns_challenge dns_provider).
Proof.
  unfold AcmeHandlers.finalize_delete, final_deletion_of, delegated,
    AcmeHandlers.json_loads_credentials, AcmeHandlers.get_dns_provider.
  destruct (AcmeHandlers.provider_types !! DnsProvider.provider_type dns_provider) as [m|];
    [|apply trace_raise_bind].
  apply trace_ret_bind.
  destruct (DnsProvider.credentials dns_provider) as [opts|]; [|apply trace_raise_bind].
  apply trace_ret_bind. cbn zeta.
  destruct (String.eqb (AuthorizationRecord.domain authz_record)
                       (AuthorizationRecord.target_domain authz_record)); cbn [negb];
    apply trace_call.
Qed.

Lemma for_each_provider_of_trace a (E : DnsProvider.t -> list external_call)
    target_domain (body : DnsProvider.t -> M handler_state unit) :
  (forall dns_provider, trace_within a (E dns_provider) (body dns_provider)) ->
  trace_within a
    (flat_map E (default [] (dns_providers_for_domain a !! target_domain)))
    (AcmeHandlers.for_each_provider_of target_domain body).
Proof.
  intros Hbody. unfold AcmeHandlers.for_each_provider_of.
  apply (trace_gets a _ _ (dns_providers_for_domain a !! target_domain)).
  { intros h ->. reflexivity. }
  destruct (dns_providers_for_domain a !! target_domain) as [ps|]; cbn [default].
  - apply trace_for_each. intros x _. apply Hbody.
  - apply trace_silent, silent_raise.
Qed.

Lemma finalize_authorizations_trace others a acme_client authorizations :
  trace_within a
    (flat_map (completions_of acme_client a) authorizations
     ++ flat_map (final_deletions_of acme_client a) authorizations)
    (AcmeHandlers.finalize_authorizations others acme_client authorizations).
Proof.
  unfold AcmeHandlers.finalize_authorizations. apply trace_bind.
  - apply trace_for_each. intros r _. apply complete_dns_challenge_trace.
  - intros _. apply trace_then_silent; [|intros _; apply silent_ret].
    apply trace_for_each. intros r _. unfold final_deletions_of.
    apply trace_for_each. intros c _. unfold providers_of.
    apply for_each_provider_of_trace. intros p. apply finalize_delete_trace.
Qed.

(** [finalize_authorizations] first completes every record (the polls and
    the answer of [complete_dns_challenge], record by record), and only then
    deletes: for every record, every challenge of it and every provider of
    its target one deletion, at the host computed from the target for that
    challenge, so with the challenge label in front once unless the record is
    delegated.  Whatever raises, the calls made are a first part of this
    sequence: when a completion raises no deletion call is made at all, and a
    deletion that raises leaves the later records undeleted.  When it returns
    it returns the records it was given, every call made. *)
Theorem finalize_authorizations_calls others acme_client authorizations h :
  let out := AcmeHandlers.finalize_authorizations others acme_client authorizations h in
  let completing := flat_map (completions_of acme_client (self h)) authorizations in
  let deleting := flat_map (final_deletions_of acme_client (self h)) authorizations in
  self (snd out) = self h
  /\ exists made,
       calls (snd out) = calls h ++ made
       /\ made `prefix_of` (completing ++ deleting)
       /\ (forall r, fst out = Ok r -> r = authorizations /\ made = completing ++ deleting)
       /\ (fst (for_each authorizations
                  (AcmeHandlers.complete_dns_challenge others acme_client) h) <> Ok tt ->
           fst out <> Ok authorizations /\ made `prefix_of` completing).
Proof.
  intros out completing deleting.
  destruct (finalize_authorizations_trace others (self h) acme_client authorizations h
              eq_refl) as (Hself & made & Hcalls & Hprefix & Hfull).
  fold out in Hself, Hcalls, Hfull. fold completing deleting in Hprefix, Hfull.
  split; [exact Hself|]. exists made. split; [exact Hcalls|]. split; [exact Hprefix|].
  split.
  - intros r Hr. split; [|exact (Hfull r Hr)].
    subst out. unfold AcmeHandlers.finalize_authorizations in Hr. unfold bind in Hr.
    destruct (for_each authorizations _ h) as [[[]|e] h1]; [|discriminate].
    destruct (for_each authorizations _ h1) as [[[]|e] h2]; [|discriminate].
    cbn in Hr. congruence.
  - intros Hraise.
    destruct (trace_for_each (self h) (completions_of acme_client (self h))
                (AcmeHandlers.complete_dns_challenge others acme_client) authorizations
                (fun r _ => complete_dns_challenge_trace others (self h) acme_client r)
                h eq_refl) as (_ & made1 & Hcalls1 & Hprefix1 & _).
    fold completing in Hprefix1.
    assert (Hout : snd out
                   = snd (for_each authorizations
                            (AcmeHandlers.complete_dns_challenge others acme_client) h)
                   /\ fst out <> Ok authorizations).
    { subst out. unfold AcmeHandlers.finalize_authorizations. unfold bind at 1.
      unfold bind at 2.
      destruct (for_each authorizations _ h) as [[[]|e] h1];
        [|split; [reflexivity | discriminate]].
      exfalso. apply Hraise. reflexivity. }
    destruct Hout as [Hsnd Hfst]. split; [exact Hfst|].
    rewrite Hsnd, Hcalls1 in Hcalls. apply app_inv_head in Hcalls. subst made1.
    exact Hprefix1.
Qed.

(** One record with two challenges: after the two polls and the answer, the
    two deletions are both made at the challenge host of the domain. *)
Lemma finalize_authorizations_calls_witness :
  calls (snd (AcmeHandlers.finalize_authorizations (fun _ => ultradns_plugin) example_client
                [two_challenge_record] (resolved_handler (quiet_world ["example.com"]))))
  = [WaitForDnsChange ultradns ("_acme-challenge.foo.example.com", "T1") (Some "1");
     WaitForDnsChange ultradns ("_acme-challenge._acme-challenge.foo.example.com", "T2")
       (Some "1");
     AnswerChallenge "T2";
     DeleteTxtRecord ultradns (AuthorizationRecord.change_id two_challenge_record) (Some "1")
       "_acme-challenge.foo.example.com" "T1";
     DeleteTxtRecord ultradns (AuthorizationRecord.change_id two_challenge_record) (Some "1")
       "_acme-challenge.foo.example.com" "T2"].
Proof.
  destruct (finalize_authorizations_calls (fun _ => ultradns_plugin) example_client
              [two_challenge_record] (resolved_handler (quiet_world ["example.com"])))
    as (_ & made & Hcalls & _ & Hfull & _).
  rewrite Hcalls.
  destruct (Hfull [two_challenge_record]) as [_ ->]; [vm_compute; reflexivity|].
  reflexivity.
Defined.

(** ** When the zone listing cannot be had *)

Lemma get_zones_first_request account_number w :
  Ultradns.get_zones account_number w
  = match Ultradns._get zones_path (Some (0, 1)) w with
    | (Raise e, w1) => (Raise e, w1)
    | (Ok resp, w1) =>
        (pages <- match resp with
                  | RRSets _ => raise (KeyError "resultInfo")
                  | ZonesPage totalCount _ =>
                      map_m (fun index =>
                               resp <- Ultradns._get zones_path (Some (index, 100));;
                               match resp with
                               | ZonesPage _ zones => ret zones
                               | RRSets _ => raise (KeyError "zones")
                               end)
                            (Py.range_step totalCount 100)
                  end;;
         ret (Ultradns.collect_zones pages)) w1
    end.
Proof.
  unfold Ultradns.get_zones, Ultradns._paginate. cbn zeta. unfold bind at 1. unfold bind at 1.
  destruct (Ultradns._get zones_path (Some (0, 1)) w) as [[resp|e] w1]; reflexivity.
Qed.

(** What a failing zone listing does to the callers of [get_zone_name]. *)
Lemma zone_lookup_raises change_id domain token account_number w e w1 :
  Ultradns.get_zones account_number w = (Raise e, w1) ->
  Ultradns.get_zone_name domain account_number w = (Raise e, w1)
  /\ Ultradns.create_txt_record domain token account_number w = (Raise e, w1)
  /\ (domain <> "" ->
      Ultradns.delete_txt_record change_id account_number domain token w = (Raise e, w1)).
Proof.
  intros Hz.
  assert (Hn : Ultradns.get_zone_name domain account_number w = (Raise e, w1)).
  { unfold Ultradns.get_zone_name, bind. rewrite Hz. reflexivity. }
  split; [exact Hn|]. split.
  - unfold Ultradns.create_txt_record. unfold bind at 1. rewrite Hn. reflexivity.
  - intros Hd. unfold Ultradns.delete_txt_record.
    destruct (String.eqb_spec domain "") as [->|_]; [contradiction|].
    unfold bind at 1. rewrite Hn. reflexivity.
Qed.

(** Nothing is written without the zone listing.  When the token request
    fails, [get_zones], [get_zone_name], [create_txt_record] and
    [delete_txt_record] (for a domain) raise its exception and send no request
    at all; when the first GET of the listing fails they raise that error
    after this one request.  [create_txt_record], which swallows the errors of
    its POST, does not swallow these. *)
Theorem zone_listing_failure change_id domain token account_number w e :
  (token_service w = Raise e ->
   Ultradns.get_zones account_number w = (Raise e, w)
   /\ Ultradns.get_zone_name domain account_number w = (Raise e, w)
   /\ Ultradns.create_txt_record domain token account_number w = (Raise e, w)
   /\ (domain <> "" ->
       Ultradns.delete_txt_record change_id account_number domain token w = (Raise e, w)))
  /\ ((exists t, token_service w = Ok t) ->
      http_fault w GET zones_path = Some e ->
      let w1 := set_http_log (fun l => l ++ [(GET, zones_path)]) w in
      Ultradns.get_zones account_number w = (Raise e, w1)
      /\ Ultradns.get_zone_name domain account_number w = (Raise e, w1)
      /\ Ultradns.create_txt_record domain token account_number w = (Raise e, w1)
      /\ (domain <> "" ->
          Ultradns.delete_txt_record change_id account_number domain token w
          = (Raise e, w1))).
Proof.
  split.
  - intros Ht.
    assert (Hz : Ultradns.get_zones account_number w = (Raise e, w)).
    { rewrite get_zones_first_request, _get_unfold, Ht. reflexivity. }
    split; [exact Hz|]. exact (zone_lookup_raises change_id domain token _ _ _ _ Hz).
  - intros [t Ht] Hfault w1.
    assert (Hz : Ultradns.get_zones account_number w = (Raise e, w1)).
    { rewrite get_zones_first_request, _get_unfold, Ht, Hfault. reflexivity. }
    split; [exact Hz|]. exact (zone_lookup_raises change_id domain token _ _ _ _ Hz).
Qed.

Lemma zone_listing_failure_witness :
  Ultradns.create_txt_record "_acme-challenge.foo.example.com" "T1" None
    (with_token_failure ConnectionError (quiet_world ["example.com"]))
  = (Raise ConnectionError, with_token_failure ConnectionError (quiet_world ["example.com"])).
Proof.
  apply (proj1 (zone_listing_failure [] "_acme-challenge.foo.example.com" "T1" None
                  (with_token_failure ConnectionError (quiet_world ["example.com"]))
                  ConnectionError) eq_refl).
Defined.

(** ** [get_cname] *)

Lemma rstrip_spec s :
  exists n, s = Py.rstrip "." s +:+ dots n /\ Py.endswith (Py.rstrip "." s) "." = false.
Proof.
  induction s as [|a s' (n & Hs & He)].
  - exists 0. split; reflexivity.
  - cbn [Py.rstrip]. destruct (Py.rstrip "." s') as [|b r'] eqn:Hr.
    + change ("" +:+ dots n) with (dots n) in Hs.
      destruct (Ascii.eqb_spec a ".") as [->|Hne].
      * exists (S n). split; [|reflexivity]. cbn [dots]. rewrite Hs at 1. reflexivity.
      * exists n. split; [rewrite Hs at 1; reflexivity|].
        cbn [Py.endswith String.eqb]. destruct (Ascii.eqb_spec a "."); [contradiction|].
        reflexivity.
    + exists n. split.
      * rewrite Hs at 1. reflexivity.
      * cbn [Py.endswith]. change (String a (String b r') =? ".")%string with
          (Ascii.eqb a "." && (String b r' =? "")%string).
        cbn [String.eqb]. rewrite andb_false_r. exact He.
Qed.

(** [get_cname] makes one query and never raises.  From an answer it takes
    the first target and removes every trailing dot, so that the name it
    returns does not end with a dot (and is empty for the root); an exception
    of the resolver gives [False], an empty answer [None]. *)
Theorem get_cname_outcome cname_answers domain s :
  let answer := cname_answers domain (length (cname_queries s)) in
  let out := AcmeHandlers.get_cname cname_answers domain s in
  handler (snd out) = handler s
  /\ cname_queries (snd out) = cname_queries s ++ [domain]
  /\ (answer = CnameException -> fst out = Ok CnameFalse)
  /\ (answer = CnameAnswer [] -> fst out = Ok CnameNone)
  /\ (forall target rest,
        answer = CnameAnswer (target :: rest) ->
        exists t n,
          fst out = Ok (CnameTarget t)
          /\ target = t +:+ dots n
          /\ Py.endswith t "." = false).
Proof.
  unfold AcmeHandlers.get_cname.
  destruct (cname_answers domain (length (cname_queries s))) as [|[|target rest]]; cbn.
  - repeat split; try discriminate.
  - repeat split; try discriminate.
  - repeat split; try discriminate.
    intros target' rest' [= <- <-].
    destruct (rstrip_spec target) as (n & Hs & He). eauto.
Qed.

Lemma get_cname_outcome_witness :
  exists t n,
    fst (AcmeHandlers.get_cname delegating_answers "_acme-challenge.foo.example.com"
           (no_lookups (fresh_handler [] (quiet_world []))))
    = Ok (CnameTarget t)
    /\ "foo.validation.example.net." = t +:+ dots n
    /\ Py.endswith t "." = false.
Proof.
  exact (proj2 (proj2 (proj2 (proj2
           (get_cname_outcome delegating_answers "_acme-challenge.foo.example.com"
              (no_lookups (fresh_handler [] (quiet_world [])))))))
           "foo.validation.example.net." [] eq_refl).
Defined.

(** ** The requests of a zone listing *)



